(** * Multi-Agent A2A pipeline: a shallow embedding and its properties

    The development follows the Python sources:
    - [client/a2a_tools_.py]      ([A2ARemoteAgentTool.run]),
    - [client/client_agent.py]    ([run_workflow]),
    - [crewai_question_agent/agent.py], [agent_executor.py],
    - [langgraph_latex_agent/agent.py], [agent_executor.py].

    Python strings are sequences of Unicode code points, exceptions are
    values of an inductive type, and every effect (network calls, event
    publications, backend calls, drawing a UUID) is threaded through an
    explicit world by a small state-and-exception monad.  Logging and
    console output are not part of the model.

    The A2A SDK and httpx are not part of the repository.  The classes of
    [a2a.types] are modelled with the attributes the sources read, and the
    SDK's calls are taken as they answer or raise. *)

From Stdlib Require Import NArith ZArith Ascii String DecimalString.
From stdpp Require Import gmap strings list.

Set Warnings "-register-all".

(** ** Python strings *)

Module Py.

(** A [str] is the list of its code points. *)
Definition str : Type := list N.

(** A source literal, character by character. *)
Definition lit (s : string) : str :=
  (fun a => N_of_ascii a) <$> list_ascii_of_string s.

(** [chr(10)] and the double quote, which source literals spell out. *)
Definition LF : N := 10%N.
Definition DQUOTE : N := 34%N.

(** [c.isspace()] for one code point: the whitespace set that
    [str.strip()] without argument removes. *)
Definition isspace (c : N) : bool :=
  ((9 <=? c) && (c <=? 13) || (28 <=? c) && (c <=? 32)
   || (c =? 133) || (c =? 160) || (c =? 5760)
   || (8192 <=? c) && (c <=? 8202)
   || (c =? 8232) || (c =? 8233) || (c =? 8239) || (c =? 8287)
   || (c =? 12288))%N.

Fixpoint lstrip (s : str) : str :=
  match s with
  | c :: s' => if isspace c then lstrip s' else s
  | [] => []
  end.

Definition rstrip (s : str) : str := reverse (lstrip (reverse s)).

(** [s.strip()] *)
Definition strip (s : str) : str := rstrip (lstrip s).

(** Truth value of a string: [not s] holds exactly for [""]. *)
Definition truthy (s : str) : bool :=
  match s with [] => false | _ :: _ => true end.

(** [s.startswith(p)] *)
Fixpoint startswith (p s : str) : bool :=
  match p, s with
  | [], _ => true
  | a :: p', b :: s' => (a =? b)%N && startswith p' s'
  | _ :: _, [] => false
  end.

(** [s.endswith(p)] *)
Definition endswith (p s : str) : bool :=
  startswith (reverse p) (reverse s).

(** [sub in s] *)
Fixpoint contains (sub s : str) : bool :=
  startswith sub s ||
  match s with
  | [] => false
  | _ :: s' => contains sub s'
  end.

(** [s.split(sep)] for a non-empty separator: occurrences are found left
    to right and do not overlap.  [skip] counts the characters of a
    matched separator that are still to be passed over, [cur] holds the
    current piece in reverse. *)
Fixpoint split_go (sep : str) (skip : nat) (cur s : str) : list str :=
  match s with
  | [] => [reverse cur]
  | c :: s' =>
      match skip with
      | S k => split_go sep k cur s'
      | O =>
          if startswith sep s
          then reverse cur :: split_go sep (length sep - 1) [] s'
          else split_go sep 0 (c :: cur) s'
      end
  end.

Definition split (sep s : str) : list str := split_go sep 0 [] s.

(** [sep.join(l)] *)
Fixpoint join (sep : str) (l : list str) : str :=
  match l with
  | [] => []
  | [x] => x
  | x :: l' => x ++ sep ++ join sep l'
  end.

(** [str(n)] for a non-negative integer. *)
Definition str_of_nat (n : nat) : str :=
  lit (NilZero.string_of_uint (Nat.to_uint n)).

(** A [float] as the sources use the timeout: they never compute with it,
    they format it ([f"{timeout}s"]) and hand it to httpx.  A float is kept
    as the text [str] gives for it, its shortest [repr] ([120.0], [0.5]),
    which determines the float. *)
Record float : Type := mkFloat { float_str : str }.

End Py.

Abbreviation str := Py.str.
Abbreviation lit := Py.lit.

(** ** Exceptions *)

(** The protocol errors a [ServerError] carries ([a2a.types]). *)
Inductive a2a_error : Type :=
  | InvalidParamsError
  | InternalError
  | UnsupportedOperationError.

(** Exceptions as the sources raise, catch and chain them.  [cause] is the
    [__cause__] set by [raise ... from e].  [A2AClientError] stands for the
    errors of [a2a.client] ([A2AClientHTTPError], [A2AClientTimeoutError],
    [A2AClientJSONError]) with the text [str] gives for them;
    [AttributeError] is the one raised for reading an attribute that an
    object of class [cls] does not have. *)
Inductive exn : Type :=
  | HttpxTimeoutException (msg : str)
  | HttpxHTTPError (msg : str)
  | A2AClientError (cls : string) (msg : str) (cause : option exn)
  | ValueError (msg : str)
  | AttributeError (cls attr : string)
  | KeyError (key : string)
  | IndexError
  | ServerError (error : a2a_error) (cause : option exn)
  | PyException (msg : str) (cause : option exn)
  | OtherException (cls : string) (msg : str)
  | BaseExceptionOnly (cls : string).

(** [isinstance(e, httpx.TimeoutException)] *)
Definition is_TimeoutException (e : exn) : bool :=
  match e with HttpxTimeoutException _ => true | _ => false end.

(** [isinstance(e, httpx.HTTPError)]: [TimeoutException] derives from
    [HTTPError]. *)
Definition is_HTTPError (e : exn) : bool :=
  match e with
  | HttpxTimeoutException _ | HttpxHTTPError _ => true
  | _ => false
  end.

(** [isinstance(e, ServerError)] *)
Definition is_ServerError (e : exn) : bool :=
  match e with ServerError _ _ => true | _ => false end.

(** [isinstance(e, Exception)]: everything but [KeyboardInterrupt],
    [asyncio.CancelledError] and the like. *)
Definition is_Exception (e : exn) : bool :=
  match e with BaseExceptionOnly _ => false | _ => true end.

(** [str(e)] *)
Definition exn_str (e : exn) : str :=
  match e with
  | HttpxTimeoutException m | HttpxHTTPError m | ValueError m => m
  | A2AClientError _ m _ => m
  | AttributeError cls attr =>
      lit "'" ++ lit cls ++ lit "' object has no attribute '" ++ lit attr
        ++ lit "'"
  | KeyError k => [39%N] ++ lit k ++ [39%N]
  | IndexError => lit "list index out of range"
  | ServerError _ _ => []
  | PyException m _ => m
  | OtherException _ m => m
  | BaseExceptionOnly _ => []
  end.

(** ** A state-and-exception monad *)

Inductive Result (A : Type) : Type :=
  | Ok (a : A)
  | Raise (e : exn).
Arguments Ok {A} a.
Arguments Raise {A} e.

Definition M (W A : Type) : Type := W -> Result A * W.

Definition ret {W A} (a : A) : M W A := fun w => (Ok a, w).

Definition raise {W A} (e : exn) : M W A := fun w => (Raise e, w).

Definition bind {W A B} (m : M W A) (k : A -> M W B) : M W B :=
  fun w =>
    match m w with
    | (Ok a, w') => k a w'
    | (Raise e, w') => (Raise e, w')
    end.

(** [try: m  except ... as e: h e].  The handler decides by itself which
    classes it catches and re-raises the others unchanged. *)
Definition try_except {W A} (m : M W A) (h : exn -> M W A) : M W A :=
  fun w =>
    match m w with
    | (Ok a, w') => (Ok a, w')
    | (Raise e, w') => h e w'
    end.

(** A result computed outside the monad (a pure call that may raise). *)
Definition lift {W A} (r : Result A) : M W A := fun w => (r, w).

Definition modify {W} (f : W -> W) : M W unit := fun w => (Ok tt, f w).

Declare Scope py_scope.
Delimit Scope py_scope with py.
Notation "'let*' x := m 'in' k" := (bind m (fun x => k))
  (at level 10, x name, m at level 100, k at level 200) : py_scope.
Notation "'do*' m 'in' k" := (bind m (fun _ => k))
  (at level 10, m at level 100, k at level 200) : py_scope.
Open Scope py_scope.

(** ** Protocol data ([a2a.types], as the sources use it) *)

(** What [part.root] can be.  Only a [TextPart] has a [text] attribute. *)
Inductive PartRoot : Type :=
  | TextPart (text : str)
  | FilePart
  | DataPart.

(** A part; [None] stands for an object without a [root] attribute. *)
Record Part : Type := mkPart { part_root : option PartRoot }.

(** [Part(root=TextPart(text=t))] *)
Definition text_part (t : str) : Part := mkPart (Some (TextPart t)).

Inductive TaskState : Type :=
  | submitted
  | working
  | completed
  | failed
  | canceled.

Inductive Role : Type := user | agent.

(** ** The client: [A2ARemoteAgentTool] *)

(** JSON-like values of the message payload, a [dict] keyed by strings. *)
Inductive json : Type :=
  | JStr (s : str)
  | JList (l : list json)
  | JDict (d : gmap string json).

(** The request: its own id and the payload handed to
    [MessageSendParams]. *)
Record SendMessageRequest : Type := mkRequest {
  request_id : str;
  request_params : gmap string json
}.

(** The fields of the agent card the client reads. *)
Record AgentCard : Type := mkAgentCard {
  card_name : str;
  card_version : str;
  card_skills : list str
}.

(** The response tree as [run] walks it.  An optional field is [None] when
    the attribute is missing or holds [None]; [run] tests both with
    [hasattr(x, 'f') and x.f]. *)
Record Artifact : Type := mkArtifact {
  artifact_parts : option (list Part)
}.

(** A message inside a response, as far as [run] reads one. *)
Record StatusMessage : Type := mkStatusMessage {
  status_message_parts : option (list Part)
}.

(** [a2a.types.TaskStatus]: the state of a task and the message that goes
    with it. *)
Record TaskStatus : Type := mkTaskStatus {
  status_state : TaskState;
  status_message : option StatusMessage
}.

(** A task as the result of a response.  [result_state] and
    [result_message] are the attributes [state] and [message] that [run]
    looks for with [hasattr]; [a2a.types.Task] defines neither (its state
    and its message are [status.state] and [status.message]), so both are
    [None] in every task the SDK builds.  [run] never reads [status]. *)
Record TaskResult : Type := mkTaskResult {
  result_id : str;
  result_state : option TaskState;
  result_artifacts : option (list Artifact);
  result_message : option StatusMessage;
  result_status : TaskStatus
}.

(** The [result] of a successful response: [Task | Message]. *)
Inductive SendResult : Type :=
  | ResultTask (task : TaskResult)
  | ResultMessage (message : StatusMessage).

(** [SendMessageResponse.root]:
    [JSONRPCErrorResponse | SendMessageSuccessResponse].  Only the second
    has a [result] attribute. *)
Inductive ResponseRoot : Type :=
  | JSONRPCErrorResponse (code : Z) (message : str)
  | SendMessageSuccessResponse (result : SendResult).

Record Response : Type := mkResponse {
  response_root : option ResponseRoot
}.

(** [uuid4()]: the object offers [.hex] and [str(...)]. *)
Record UUID : Type := mkUUID {
  uuid_hex : str;
  uuid_str : str
}.

(** One call that reaches the network. *)
Inductive NetCall : Type :=
  | GetAgentCard (base_url : str)
  | SendMessage (base_url : str) (card : AgentCard) (request : SendMessageRequest).

(** The client's world: the calls made so far, oldest first, and the number
    of UUIDs drawn so far. *)
Record ClientWorld : Type := mkClientWorld {
  net_calls : list NetCall;
  uuids_drawn : nat
}.

(** What lies outside the client: the SDK's resolver and client (both may
    answer differently depending on what happened before) and the source
    of UUIDs.

    The SDK hands none of httpx's errors to its caller: both
    [A2ACardResolver.get_agent_card] and [A2AClient.send_message] catch
    [httpx.HTTPStatusError] and [httpx.RequestError] (the second also
    [httpx.ReadTimeout]) and raise an error of their own from it. *)
Class ClientEnv : Type := {
  resolver_get_agent_card : list NetCall -> str -> Result AgentCard;
  client_send_message :
    list NetCall -> AgentCard -> SendMessageRequest -> Result Response;
  uuid_source : nat -> UUID;
  resolver_converts_httpx : forall calls base_url e,
    resolver_get_agent_card calls base_url = Raise e -> is_HTTPError e = false;
  client_converts_httpx : forall calls card request e,
    client_send_message calls card request = Raise e -> is_HTTPError e = false
}.

Module A2ARemoteAgentTool.

Record t : Type := mk {
  base_url : str;
  agent_name : str;
  description : str
}.

(** [__init__]: [description or f"Remote A2A agent at {base_url}"] *)
Definition init (base_url agent_name : str) (description : option str) : t :=
  let default := lit "Remote A2A agent at " ++ base_url in
  mk base_url agent_name
     match description with
     | Some d => if Py.truthy d then d else default
     | None => default
     end.

(** [message_payload['message'][key] = value] *)
Definition set_message_field (key : string) (value : json)
    (message_payload : gmap string json) : gmap string json :=
  match message_payload !! "message" with
  | Some (JDict message) =>
      <["message" := JDict (<[key := value]> message)]> message_payload
  | _ => message_payload
  end.

(** Step 3 of [run]: the payload, with [task_id] and [context_id] added
    under [if task_id:] and [if context_id:]. *)
Definition build_message_payload (input_text message_id : str)
    (task_id context_id : option str) : gmap string json :=
  let message_payload : gmap string json :=
    {[ "message" :=
         JDict (<["role" := JStr (lit "user")]>
                (<["parts" :=
                     JList [JDict (<["kind" := JStr (lit "text")]>
                                   (<["text" := JStr input_text]> ∅))]]>
                (<["message_id" := JStr message_id]> ∅))) ]} in
  let message_payload :=
    match task_id with
    | Some tid =>
        if Py.truthy tid
        then set_message_field "task_id" (JStr tid) message_payload
        else message_payload
    | None => message_payload
    end in
  match context_id with
  | Some cid =>
      if Py.truthy cid
      then set_message_field "context_id" (JStr cid) message_payload
      else message_payload
  | None => message_payload
  end.

(** The guarded read
    [if hasattr(x, 'parts') and x.parts and len(x.parts) > 0:
       part = x.parts[0]
       if hasattr(part, 'root') and hasattr(part.root, 'text'):
         result_text = part.root.text]
    as the new value of [result_text]. *)
Definition first_part_text (parts : option (list Part)) (result_text : str)
    : str :=
  match parts with
  | Some (part :: _) =>
      match part_root part with
      | Some (TextPart text) => text
      | _ => result_text
      end
  | _ => result_text
  end.

(** [root.result], read without a guard. *)
Definition root_result (root : ResponseRoot) : Result SendResult :=
  match root with
  | SendMessageSuccessResponse result => Ok result
  | JSONRPCErrorResponse _ _ =>
      Raise (AttributeError "JSONRPCErrorResponse" "result")
  end.

(** [task_result.id], read without a guard: a [Message] has a
    [message_id], no [id]. *)
Definition task_result_id (task_result : SendResult) : Result str :=
  match task_result with
  | ResultTask task => Ok (result_id task)
  | ResultMessage _ => Raise (AttributeError "Message" "id")
  end.

(** The rest of step 5 for a task, up to the final test of
    [result_text]. *)
Definition task_result_text (task_result : TaskResult) : str :=
  let result_text : str := [] in
  let result_text :=
    match result_artifacts task_result with
    | Some (artifact :: _) =>
        first_part_text (artifact_parts artifact) result_text
    | _ => result_text
    end in
  if negb (Py.truthy result_text)
  then
    match result_message task_result with
    | Some message =>
        first_part_text (status_message_parts message) result_text
    | None => result_text
    end
  else result_text.

(** Step 5 of [run], up to the final test of [result_text]. *)
Definition extract_result_text (response : Response) : Result str :=
  let result_text : str := [] in
  match response_root response with
  | Some root =>
      match root_result root with
      | Raise e => Raise e
      | Ok task_result =>
          match task_result_id task_result with
          | Raise e => Raise e
          | Ok _ =>
              match task_result with
              | ResultTask task => Ok (task_result_text task)
              | ResultMessage _ => Ok result_text
              end
          end
      end
  | None => Ok result_text
  end.

Section Run.
Context `{ClientEnv}.

(** [uuid4()] *)
Definition uuid4 : M ClientWorld UUID :=
  fun w =>
    (Ok (uuid_source (uuids_drawn w)),
     mkClientWorld (net_calls w) (S (uuids_drawn w))).

(** [await resolver.get_agent_card()] *)
Definition get_agent_card (base_url : str) : M ClientWorld AgentCard :=
  fun w =>
    (resolver_get_agent_card (net_calls w) base_url,
     mkClientWorld (net_calls w ++ [GetAgentCard base_url]) (uuids_drawn w)).

(** [await client.send_message(request)] *)
Definition send_message (base_url : str) (agent_card : AgentCard)
    (request : SendMessageRequest) : M ClientWorld Response :=
  fun w =>
    (client_send_message (net_calls w) agent_card request,
     mkClientWorld (net_calls w ++ [SendMessage base_url agent_card request])
                   (uuids_drawn w)).

(** The body of the [try] block. *)
Definition run_body (self : t) (input_text : str)
    (task_id context_id : option str) : M ClientWorld str :=
  let* agent_card := get_agent_card (base_url self) in
  let* message_uuid := uuid4 in
  let message_id := uuid_hex message_uuid in
  let message_payload :=
    build_message_payload input_text message_id task_id context_id in
  let* request_uuid := uuid4 in
  let request := mkRequest (uuid_str request_uuid) message_payload in
  let* response := send_message (base_url self) agent_card request in
  let* result_text := lift (extract_result_text response) in
  if negb (Py.truthy result_text)
  then raise (ValueError
                (lit "No text content in response artifacts or message"))
  else ret result_text.

(** The three [except] clauses, in source order. *)
Definition run_handler (timeout : Py.float) (e : exn) : M ClientWorld str :=
  if is_TimeoutException e then
    raise (PyException
             (lit "Request timeout after " ++ Py.float_str timeout ++ lit "s")
             (Some e))
  else if is_HTTPError e then
    raise (PyException (lit "Network error: " ++ exn_str e) (Some e))
  else if is_Exception e then
    raise (PyException (lit "A2A communication error: " ++ exn_str e)
                       (Some e))
  else raise e.

Definition run (self : t) (input_text : str) (timeout : Py.float)
    (task_id context_id : option str) : M ClientWorld str :=
  try_except (run_body self input_text task_id context_id)
             (run_handler timeout).

(** The default [timeout: float = 120.0]. *)
Definition default_timeout : Py.float := Py.mkFloat (lit "120.0").

End Run.

End A2ARemoteAgentTool.

(** ** The orchestrator: [client_agent.run_workflow] *)

Module ClientAgent.
Import A2ARemoteAgentTool.

Section Workflow.
Context `{ClientEnv}.

Definition run_workflow (topic api_key crewai_url langgraph_url : str)
    (verbose : bool) : M ClientWorld str :=
  let question_generator :=
    init crewai_url (lit "generate_questions")
         (Some (lit "Generates educational questions about a given topic")) in
  let latex_converter :=
    init langgraph_url (lit "convert_to_latex")
         (Some (lit "Converts text questions to LaTeX formatted code")) in
  let* questions :=
    try_except (run question_generator topic default_timeout None None)
               (fun e => raise e) in
  let* latex_code :=
    try_except (run latex_converter questions default_timeout None None)
               (fun e => raise e) in
  ret latex_code.

End Workflow.

End ClientAgent.

(** ** The servers: protocol events and what lies outside *)

Record Message : Type := mkMessage {
  msg_role : Role;
  msg_parts : list Part;
  msg_message_id : str;
  msg_task_id : option str;
  msg_context_id : option str
}.

Record Task : Type := mkTask {
  task_id : str;
  task_context_id : str;
  task_state : TaskState;
  task_history : list Message
}.

Record RequestContext : Type := mkRequestContext {
  ctx_message : Message;
  ctx_current_task : option Task
}.

(** What an executor puts on the event queue. *)
Inductive Event : Type :=
  | TaskEvent (task : Task)
  | TaskStatusUpdateEvent (task_id context_id : str) (state : TaskState)
      (message : option Message)
  | TaskArtifactUpdateEvent (task_id context_id : str) (name : str)
      (parts : list Part).

(** One observable step of a server: an event enqueued, or the generation
    backend invoked with a prompt. *)
Inductive Step : Type :=
  | Enqueued (event : Event)
  | BackendInvoked (prompt : str).

(** The server's world is the sequence of its steps, oldest first. *)
Definition ServerWorld : Type := list Step.

(** The events on the queue, in publication order. *)
Definition event_queue (w : ServerWorld) : list Event :=
  omap (fun s => match s with Enqueued e => Some e | BackendInvoked _ => None end) w.

(** The prompts the backend was invoked with, in order. *)
Definition backend_calls (w : ServerWorld) : list str :=
  omap (fun s => match s with BackendInvoked p => Some p | Enqueued _ => None end) w.

(** What lies outside the executors: the SDK helpers, the two generation
    backends and the clock.  [new_task] may raise: the SDK's helper
    rejects a message without parts and a text part without text. *)
Class ServerEnv : Type := {
  get_user_input : RequestContext -> Result str;
  new_task : Message -> Result Task;
  new_agent_text_message : str -> str -> str -> Message;
  crew_kickoff : ServerWorld -> str -> Result str;
  model_generate_content : ServerWorld -> str -> Result str;
  datetime_now : ServerWorld -> str;
  (** [new_task] builds a task in state [submitted]. *)
  new_task_submitted : forall m task,
    new_task m = Ok task -> task_state task = submitted
}.

(** [await event_queue.enqueue_event(event)] *)
Definition enqueue_event (event : Event) : M ServerWorld unit :=
  modify (fun w => w ++ [Enqueued event]).

(** [TaskUpdater(event_queue, task_id, context_id)] and the three methods
    the executors call; each publishes one event. *)
Module TaskUpdater.

Record t : Type := mk { task_id : str; context_id : str }.

Definition update_status (self : t) (state : TaskState) (message : Message)
    : M ServerWorld unit :=
  enqueue_event
    (TaskStatusUpdateEvent (task_id self) (context_id self) state (Some message)).

Definition add_artifact (self : t) (parts : list Part) (name : str)
    : M ServerWorld unit :=
  enqueue_event
    (TaskArtifactUpdateEvent (task_id self) (context_id self) name parts).

Definition complete (self : t) : M ServerWorld unit :=
  enqueue_event
    (TaskStatusUpdateEvent (task_id self) (context_id self) completed None).

End TaskUpdater.

(** ** Stage 1: the question generator *)

Module QuestionGeneratorAgent.

(** The [description] f-string of [_create_task]. *)
Definition task_description (topic : str) : str :=
  lit "Generate 5 educational questions about the topic: "
  ++ [Py.DQUOTE] ++ topic ++ [Py.DQUOTE] ++ [Py.LF] ++
  Py.join [Py.LF]
    [
     lit "            ";
     lit "            Requirements:";
     lit "            1. Create exactly 5 questions";
     lit "            2. Cover different aspects of the topic";
     lit "            3. Include a mix of difficulty levels:";
     lit "               - 2 basic questions (recall, definition)";
     lit "               - 2 intermediate questions (application, comparison)";
     lit "               - 1 advanced question (analysis, synthesis)";
     lit "            4. Make questions clear and specific";
     lit "            5. Ensure questions encourage critical thinking";
     lit "            ";
     lit "            Format your output as a numbered list:";
     lit "            1. [First question]";
     lit "            2. [Second question]";
     lit "            3. [Third question]";
     lit "            4. [Fourth question]";
     lit "            5. [Fifth question]";
     lit "            ";
     lit "            Do NOT include answers, explanations, or any other text.";
     lit "            Just return the numbered questions."
    ].

Section Agent.
Context `{ServerEnv}.

(** [crew.kickoff()] followed by [str(result)]. *)
Definition kickoff (description : str) : M ServerWorld str :=
  fun w => (crew_kickoff w description, w ++ [BackendInvoked description]).

Definition generate_questions (topic : str) : M ServerWorld str :=
  let* questions := kickoff (task_description topic) in
  ret questions.

End Agent.

End QuestionGeneratorAgent.

Module CrewAIQuestionGeneratorExecutor.

Section Executor.
Context `{ServerEnv}.

(** [True] if invalid, [False] if valid. *)
Definition _validate_request (context : RequestContext)
    : M ServerWorld bool :=
  try_except
    (let* user_input := lift (get_user_input context) in
     if negb (Py.truthy user_input) || negb (Py.truthy (Py.strip user_input))
     then ret true
     else ret false)
    (fun e => if is_Exception e then ret true else raise e).

Definition execute (context : RequestContext) : M ServerWorld unit :=
  try_except
    (let* error := _validate_request context in
     if error then raise (ServerError InvalidParamsError None)
     else
       let* query := lift (get_user_input context) in
       let* task :=
         match ctx_current_task context with
         | None =>
             let* task := lift (new_task (ctx_message context)) in
             do* enqueue_event (TaskEvent task) in
             ret task
         | Some task => ret task
         end in
       let updater := TaskUpdater.mk (task_id task) (task_context_id task) in
       do* TaskUpdater.update_status updater working
             (new_agent_text_message
                (lit "Generating educational questions...")
                (task_context_id task) (task_id task)) in
       let* questions := QuestionGeneratorAgent.generate_questions query in
       do* TaskUpdater.add_artifact updater [text_part questions]
             (lit "generated_questions") in
       do* TaskUpdater.complete updater in
       ret tt)
    (fun e =>
       if is_ServerError e then raise e
       else if is_Exception e then raise (ServerError InternalError (Some e))
       else raise e).

Definition cancel (context : RequestContext) : M ServerWorld unit :=
  raise (ServerError UnsupportedOperationError None).

End Executor.

End CrewAIQuestionGeneratorExecutor.

(** ** Stage 2: the LaTeX converter *)

Module LatexConverterAgent.

(** Values stored under [state["metadata"]]. *)
Inductive MetaValue : Type :=
  | MetaList (l : list str)
  | MetaInt (n : nat).

Record LatexConverterState : Type := mkState {
  questions : str;
  latex_code : str;
  metadata : gmap string MetaValue
}.

(** The update a node returns; the graph overwrites the keys present. *)
Record Update : Type := mkUpdate {
  upd_latex_code : option str;
  upd_metadata : option (gmap string MetaValue)
}.

Definition apply_update (state : LatexConverterState) (u : Update)
    : LatexConverterState :=
  mkState (questions state)
          (default (latex_code state) (upd_latex_code u))
          (default (metadata state) (upd_metadata u)).

(** [l[i]] *)
Definition getitem (l : list str) (i : nat) : Result str :=
  match l !! i with
  | Some x => Ok x
  | None => Raise IndexError
  end.

(** [state["metadata"]["parsed_questions"]] *)
Definition metadata_parsed_questions (state : LatexConverterState)
    : Result (list str) :=
  match metadata state !! "parsed_questions" with
  | Some (MetaList l) => Ok l
  | Some (MetaInt _) => Raise (OtherException "TypeError" [])
  | None => Raise (KeyError "parsed_questions")
  end.

(** [state["metadata"]["count"]] *)
Definition metadata_count (state : LatexConverterState) : Result nat :=
  match metadata state !! "count" with
  | Some (MetaInt n) => Ok n
  | Some (MetaList _) => Raise (OtherException "TypeError" [])
  | None => Raise (KeyError "count")
  end.

(** The value of [parsed] in node 1:
    [[line.strip() for line in lines if line.strip()]]. *)
Definition parsed_lines (questions : str) : list str :=
  let lines := Py.split [Py.LF] (Py.strip questions) in
  Py.strip <$> filter (fun line => Py.truthy (Py.strip line) = true) lines.

(** Node 1 *)
Definition parse_questions (state : LatexConverterState) : Update :=
  let questions := questions state in
  let parsed := parsed_lines questions in
  let count := length parsed in
  mkUpdate None
    (Some (<["parsed_questions" := MetaList parsed]>
           (<["count" := MetaInt count]> ∅))).

(** The prompt f-string of node 2. *)
Definition prompt_of (parsed : list str) : str :=
  Py.join [Py.LF]
    [lit "Convert the following questions into a professional LaTeX document.";
     lit "";
     lit "Questions:";
     Py.join [Py.LF] parsed;
     lit "";
     lit "Requirements:";
     lit "1. Use \documentclass{article}";
     lit "2. Include necessary packages:";
     lit "   - \usepackage{enumerate} for numbered lists";
     lit "   - \usepackage{amsmath} for any math formatting";
     lit "   - \usepackage[margin=1in]{geometry} for margins";
     lit "3. Use \begin{enumerate} environment for the questions";
     lit "4. Each question should be a \item";
     lit "5. Make the document compile-ready (complete with \begin{document} and \end{document})";
     lit "6. Add a title like " ++ [Py.DQUOTE] ++ lit "Educational Questions"
       ++ [Py.DQUOTE];
     lit "7. Use proper LaTeX formatting and escaping";
     lit "";
     lit "Return ONLY the LaTeX code, no explanations or markdown code blocks."].

(** The clean-up of markdown code fences in node 2. *)
Definition strip_code_fences (latex_code : str) : Result str :=
  if Py.contains (lit "```latex") latex_code then
    match getitem (Py.split (lit "```latex") latex_code) 1 with
    | Ok after =>
        match getitem (Py.split (lit "```") after) 0 with
        | Ok inner => Ok (Py.strip inner)
        | Raise e => Raise e
        end
    | Raise e => Raise e
    end
  else if Py.contains (lit "```") latex_code then
    match getitem (Py.split (lit "```") latex_code) 1 with
    | Ok after =>
        match getitem (Py.split (lit "```") after) 0 with
        | Ok inner => Ok (Py.strip inner)
        | Raise e => Raise e
        end
    | Raise e => Raise e
    end
  else Ok latex_code.

(** The metadata header of node 3 in front of [latex]. *)
Definition header (count : nat) (timestamp : str) : str :=
  lit "% Generated by LangGraph A2A Agent" ++ [Py.LF]
  ++ lit "% Questions Count: " ++ Py.str_of_nat count ++ [Py.LF]
  ++ lit "% Generator: Gemini 2.0 Flash" ++ [Py.LF]
  ++ lit "% Timestamp: " ++ timestamp ++ [Py.LF]
  ++ [Py.LF].

Section Agent.
Context `{ServerEnv}.

(** [self.model.generate_content(prompt).text] *)
Definition generate_content (prompt : str) : M ServerWorld str :=
  fun w => (model_generate_content w prompt, w ++ [BackendInvoked prompt]).

(** [datetime.now().strftime("%Y-%m-%d %H:%M:%S")] *)
Definition import_datetime_now : M ServerWorld str :=
  fun w => (Ok (datetime_now w), w).

(** Node 2 *)
Definition convert_to_latex_node (state : LatexConverterState)
    : M ServerWorld Update :=
  let* parsed := lift (metadata_parsed_questions state) in
  let* count := lift (metadata_count state) in
  let prompt := prompt_of parsed in
  let* latex_code := generate_content prompt in
  let* latex_code := lift (strip_code_fences latex_code) in
  ret (mkUpdate (Some latex_code) None).

(** Node 3 *)
Definition format_output (state : LatexConverterState)
    : M ServerWorld Update :=
  let latex := latex_code state in
  let* count := lift (metadata_count state) in
  let* timestamp := import_datetime_now in
  let formatted := header count timestamp ++ latex in
  ret (mkUpdate (Some formatted) None).

(** The compiled graph of [_build_graph]:
    START -> parse_questions -> convert_to_latex -> format_output -> END. *)
Definition graph_invoke (initial_state : LatexConverterState)
    : M ServerWorld LatexConverterState :=
  let state := apply_update initial_state (parse_questions initial_state) in
  let* u := convert_to_latex_node state in
  let state := apply_update state u in
  let* u := format_output state in
  ret (apply_update state u).

Definition convert_to_latex (questions : str) : M ServerWorld str :=
  let initial_state := mkState questions [] ∅ in
  let* final_state := graph_invoke initial_state in
  ret (latex_code final_state).

End Agent.

End LatexConverterAgent.

Module LangGraphLatexExecutor.

Section Executor.
Context `{ServerEnv}.

(** [True] if invalid, [False] if valid. *)
Definition _validate_request (context : RequestContext)
    : M ServerWorld bool :=
  try_except
    (let* user_input := lift (get_user_input context) in
     if negb (Py.truthy user_input) || negb (Py.truthy (Py.strip user_input))
     then ret true
     else ret false)
    (fun e => if is_Exception e then ret true else raise e).

Definition execute (context : RequestContext) : M ServerWorld unit :=
  try_except
    (let* error := _validate_request context in
     if error then raise (ServerError InvalidParamsError None)
     else
       let* questions_text := lift (get_user_input context) in
       let* task :=
         match ctx_current_task context with
         | None =>
             let* task := lift (new_task (ctx_message context)) in
             do* enqueue_event (TaskEvent task) in
             ret task
         | Some task => ret task
         end in
       let updater := TaskUpdater.mk (task_id task) (task_context_id task) in
       do* TaskUpdater.update_status updater working
             (new_agent_text_message (lit "Parsing questions...")
                (task_context_id task) (task_id task)) in
       do* TaskUpdater.update_status updater working
             (new_agent_text_message (lit "Converting to LaTeX format...")
                (task_context_id task) (task_id task)) in
       let* latex_code := LatexConverterAgent.convert_to_latex questions_text in
       do* TaskUpdater.add_artifact updater [text_part latex_code]
             (lit "latex_document") in
       do* TaskUpdater.complete updater in
       ret tt)
    (fun e =>
       if is_ServerError e then raise e
       else if is_Exception e then raise (ServerError InternalError (Some e))
       else raise e).

Definition cancel (context : RequestContext) : M ServerWorld unit :=
  raise (ServerError UnsupportedOperationError None).

End Executor.

End LangGraphLatexExecutor.

(** ** Reading responses and requests the way the specification words them *)

Module Reading.
Import A2ARemoteAgentTool.

(** The task result a response carries, if any. *)
Definition task_result_of (response : Response) : option TaskResult :=
  match response_root response with
  | Some (SendMessageSuccessResponse (ResultTask task)) => Some task
  | _ => None
  end.

(** The text of a part, if it is a text part. *)
Definition text_of_part (part : Part) : option str :=
  match part_root part with
  | Some (TextPart text) => Some text
  | _ => None
  end.

(** The first artifact's first part's text. *)
Definition first_artifact_text (response : Response) : option str :=
  task_result ← task_result_of response;
  artifacts ← result_artifacts task_result;
  artifact ← head artifacts;
  parts ← artifact_parts artifact;
  part ← head parts;
  text_of_part part.

(** The first part's text of the [message] attribute of the task result,
    where it has one. *)
Definition message_first_text (response : Response) : option str :=
  task_result ← task_result_of response;
  message ← result_message task_result;
  parts ← status_message_parts message;
  part ← head parts;
  text_of_part part.

(** The failure of a response without usable text: the [ValueError] of
    [run], as re-raised by its last [except] clause. *)
Definition no_text_message : str :=
  lit "No text content in response artifacts or message".

Definition empty_result_error : exn :=
  PyException (lit "A2A communication error: " ++ no_text_message)
              (Some (ValueError no_text_message)).

(** What the last [except] clause of [run] makes of an [Exception]. *)
Definition communication_error (e : exn) : exn :=
  PyException (lit "A2A communication error: " ++ exn_str e) (Some e).

(** A task carries a message when it has one in its status, or as an
    attribute of its own. *)
Definition carries_message (task_result : TaskResult) : bool :=
  match result_message task_result,
        status_message (result_status task_result) with
  | None, None => false
  | _, _ => true
  end.

(** The same response with its artifact list taken away. *)
Definition without_artifacts (response : Response) : Response :=
  mkResponse
    (option_map
       (fun root =>
          match root with
          | SendMessageSuccessResponse (ResultTask tr) =>
              SendMessageSuccessResponse
                (ResultTask
                   (mkTaskResult (result_id tr) (result_state tr) None
                                 (result_message tr) (result_status tr)))
          | other => other
          end)
       (response_root response)).

(** An optional id that is given and not the empty string. *)
Definition given (x : option str) : option str :=
  match x with
  | Some (c :: s) => Some (c :: s)
  | _ => None
  end.

(** The [message] object of a payload. *)
Definition message_of (params : gmap string json) : option (gmap string json) :=
  match params !! "message" with
  | Some (JDict message) => Some message
  | _ => None
  end.

Section Sent.
Context `{ClientEnv}.

(** The request [run] builds when it starts in world [w]. *)
Definition request_sent (w : ClientWorld) (input_text : str)
    (task_id context_id : option str) : SendMessageRequest :=
  mkRequest
    (uuid_str (uuid_source (S (uuids_drawn w))))
    (build_message_payload input_text
       (uuid_hex (uuid_source (uuids_drawn w))) task_id context_id).

(** The world after the card was fetched. *)
Definition after_card (self : t) (w : ClientWorld) : ClientWorld :=
  mkClientWorld (net_calls w ++ [GetAgentCard (base_url self)])
                (uuids_drawn w).

(** The world after the message was sent. *)
Definition after_send (self : t) (w : ClientWorld) (card : AgentCard)
    (request : SendMessageRequest) : ClientWorld :=
  mkClientWorld
    ((net_calls w ++ [GetAgentCard (base_url self)])
       ++ [SendMessage (base_url self) card request])
    (S (S (uuids_drawn w))).

(** The network calls one [run] makes when it starts in world [w]: the
    card request and, if a card came back, one message. *)
Definition calls_of_run (self : t) (w : ClientWorld) (input_text : str)
    (task_id context_id : option str) : list NetCall :=
  GetAgentCard (base_url self) ::
  match resolver_get_agent_card (net_calls w) (base_url self) with
  | Ok card =>
      [SendMessage (base_url self) card
         (request_sent w input_text task_id context_id)]
  | Raise _ => []
  end.
End Sent.

(** The texts of the parts of the message a request carries. *)
Definition request_texts (request : SendMessageRequest) : option (list (option str)) :=
  message ← message_of (request_params request);
  match message !! "parts" with
  | Some (JList parts) =>
      Some ((fun part =>
               match part with
               | JDict d =>
                   match d !! "text" with
                   | Some (JStr text) => Some text
                   | _ => None
                   end
               | _ => None
               end) <$> parts)
  | _ => None
  end.

(** The address a network call goes to. *)
Definition call_url (c : NetCall) : str :=
  match c with
  | GetAgentCard url => url
  | SendMessage url _ _ => url
  end.

Definition is_send (c : NetCall) : bool :=
  match c with SendMessage _ _ _ => true | GetAgentCard _ => false end.

(** The task states a sequence of events announces, in order. *)
Definition published_states (events : list Event) : list TaskState :=
  omap (fun ev =>
          match ev with
          | TaskEvent task => Some (task_state task)
          | TaskStatusUpdateEvent _ _ state _ => Some state
          | TaskArtifactUpdateEvent _ _ _ _ => None
          end) events.

(** What the two [except] clauses of [execute] let out for an error [e]
    raised in its body. *)
Definition surfaced (e : exn) : exn :=
  if is_ServerError e then e
  else if is_Exception e then ServerError InternalError (Some e)
  else e.

(** A line is blank when it has nothing but whitespace. *)
Definition blank (line : str) : bool := forallb Py.isspace line.

(** The lines of a text that are not blank. *)
Definition non_blank_lines (text : str) : list str :=
  filter (fun line => blank line = false) (Py.split [Py.LF] text).

(** The number of non-blank pieces when splitting at newlines with the
    piece [cur] (reversed) under way. *)
Definition pieces (cur s : str) : nat :=
  length (filter (fun line => blank line = false)
                 (Py.split_go [Py.LF] 0 cur s)).

Section Served.
Context `{ServerEnv}.

(** The task an executor works on: the current one, or a new one, if it
    can be made. *)
Definition task_of (context : RequestContext) : Result Task :=
  match ctx_current_task context with
  | Some task => Ok task
  | None => new_task (ctx_message context)
  end.

(** The publication of the task, when it is a new one. *)
Definition creation_steps (context : RequestContext) (task : Task)
    : list Step :=
  match ctx_current_task context with
  | Some _ => []
  | None => [Enqueued (TaskEvent task)]
  end.

(** A [working] transition of the task with a progress message. *)
Definition working_step (task : Task) (progress : str) : Step :=
  Enqueued
    (TaskStatusUpdateEvent (task_id task) (task_context_id task) working
       (Some (new_agent_text_message progress
                (task_context_id task) (task_id task)))).

(** The artifact of the task: one text part under [name]. *)
Definition artifact_step (task : Task) (name text : str) : Step :=
  Enqueued
    (TaskArtifactUpdateEvent (task_id task) (task_context_id task) name
       [text_part text]).

(** The [completed] transition of the task. *)
Definition completed_step (task : Task) : Step :=
  Enqueued
    (TaskStatusUpdateEvent (task_id task) (task_context_id task)
       completed None).

(** What stage 1 publishes before it invokes its backend. *)
Definition crewai_started (context : RequestContext) (task : Task)
    : list Step :=
  creation_steps context task
    ++ [working_step task (lit "Generating educational questions...")].

(** What stage 2 publishes before it invokes its backend. *)
Definition langgraph_started (context : RequestContext) (task : Task)
    : list Step :=
  creation_steps context task
    ++ [working_step task (lit "Parsing questions...");
        working_step task (lit "Converting to LaTeX format...")].

(** The world of stage 1 just before its backend is invoked. *)
Definition crewai_before (context : RequestContext) (task : Task)
    (w : ServerWorld) : ServerWorld :=
  w ++ crewai_started context task.

(** The world of stage 2 just before its backend is invoked. *)
Definition langgraph_before (context : RequestContext) (task : Task)
    (w : ServerWorld) : ServerWorld :=
  w ++ langgraph_started context task.
End Served.

End Reading.

(** ** Concrete surroundings, for running the model *)

Module Scenario.

Definition crewai_url : str := lit "http://localhost:8001".
Definition langgraph_url : str := lit "http://localhost:8002".

Definition card : AgentCard :=
  mkAgentCard (lit "Question Generator") (lit "1.0.0") [lit "generate_questions"].

(** The [n]-th UUID, told apart by its number. *)
Definition numbered_uuid (n : nat) : UUID :=
  mkUUID (lit "uuid" ++ Py.str_of_nat n) (lit "uuid-" ++ Py.str_of_nat n).

(** An answer of the SDK that is no error of httpx. *)
Definition no_httpx {A} (r : Result A) : Prop :=
  match r with
  | Raise e => is_HTTPError e = false
  | Ok _ => True
  end.

(** An SDK that answers every card request with [card_reply] and every
    message with [reply]. *)
Definition scripted (card_reply : Result AgentCard) (reply : Result Response)
    (Hcard : no_httpx card_reply) (Hreply : no_httpx reply) : ClientEnv :=
  {| resolver_get_agent_card := fun _ _ => card_reply;
     client_send_message := fun _ _ _ => reply;
     uuid_source := numbered_uuid;
     resolver_converts_httpx :=
       ltac:(intros ? ? e Heq; rewrite Heq in Hcard; exact Hcard);
     client_converts_httpx :=
       ltac:(intros ? ? ? e Heq; rewrite Heq in Hreply; exact Hreply) |}.

(** A completed task as the SDK builds it, with the given artifacts and
    the given message in its status. *)
Definition task_response (artifacts : option (list Artifact))
    (message : option StatusMessage) : Response :=
  mkResponse
    (Some (SendMessageSuccessResponse
             (ResultTask
                (mkTaskResult (lit "task-1") None artifacts None
                              (mkTaskStatus completed message))))).

Definition text_artifact (text : str) : Artifact :=
  mkArtifact (Some [text_part text]).

Definition text_message (text : str) : StatusMessage :=
  mkStatusMessage (Some [text_part text]).

(** An artifact with empty text, in a task whose status has a message
    with text. *)
Definition empty_artifact_response : Response :=
  task_response (Some [text_artifact []]) (Some (text_message (lit "fallback"))).

(** An artifact with empty text, in a task without any message. *)
Definition silent_response : Response :=
  task_response (Some [text_artifact []]) None.

(** A JSON-RPC error, and a bare message, as replies. *)
Definition error_response : Response :=
  mkResponse (Some (JSONRPCErrorResponse (-32603) (lit "Internal error"))).

Definition message_response : Response :=
  mkResponse (Some (SendMessageSuccessResponse
                      (ResultMessage (text_message (lit "hello"))))).

(** What the SDK raises when the answer to a message does not arrive in
    time, and when the agent cannot be reached. *)
Definition request_timed_out : exn :=
  A2AClientError "A2AClientTimeoutError"
    (lit "Timeout Error: Client Request timed out")
    (Some (HttpxTimeoutException [])).

Definition connection_failed : exn :=
  A2AClientError "A2AClientHTTPError"
    (lit "HTTP Error 503: Network communication error: All connection attempts failed")
    (Some (HttpxHTTPError (lit "All connection attempts failed"))).

Definition tool : A2ARemoteAgentTool.t :=
  A2ARemoteAgentTool.init crewai_url (lit "generate_questions") None.

Definition w0 : ClientWorld := mkClientWorld [] 0.

(** The five questions of the end-to-end scenario. *)
Definition five_questions : list str :=
  [lit "1. What is machine learning?";
   lit "2. How do neural networks learn?";
   lit "3. What is the difference between AI and ML?";
   lit "4. Explain gradient descent";
   lit "5. What are activation functions?"].

Definition five_lines : str := Py.join [Py.LF] five_questions.

(** Stage 1 answers with the five lines, stage 2 with a document: the
    reply depends on the address of the last card request. *)
Definition latex_reply : str := lit "\documentclass{article}".

Definition pipeline_reply (calls : list NetCall) : Result Response :=
  match last calls with
  | Some (GetAgentCard url) =>
      if decide (url = crewai_url)
      then Ok (task_response (Some [text_artifact five_lines]) None)
      else Ok (task_response (Some [text_artifact latex_reply]) None)
  | _ => Raise connection_failed
  end.

Definition pipeline : ClientEnv :=
  {| resolver_get_agent_card := fun _ _ => Ok card;
     client_send_message := fun calls _ _ => pipeline_reply calls;
     uuid_source := numbered_uuid;
     resolver_converts_httpx := ltac:(intros ? ? e Heq; discriminate Heq);
     client_converts_httpx :=
       ltac:(intros calls ? ? e; unfold pipeline_reply;
             destruct (last calls) as [[url|? ? ?]|];
             [destruct (decide (url = crewai_url))|..];
             intros Heq; try discriminate Heq;
             injection Heq as <-; reflexivity) |}.

(** An agent that answers with the five questions as its artifact. *)
Definition answered : ClientEnv :=
  scripted (Ok card) (Ok (task_response (Some [text_artifact five_lines]) None))
           I I.

(** Agents that answer with the replies above. *)
Definition answered_empty : ClientEnv :=
  scripted (Ok card) (Ok empty_artifact_response) I I.

Definition silent : ClientEnv := scripted (Ok card) (Ok silent_response) I I.

Definition erring : ClientEnv := scripted (Ok card) (Ok error_response) I I.

Definition chatting : ClientEnv :=
  scripted (Ok card) (Ok message_response) I I.

(** An agent that serves its card and does not answer in time. *)
Definition timed_out : ClientEnv :=
  scripted (Ok card) (Raise request_timed_out) I eq_refl.

Definition topic : str := lit "Machine Learning".

(** The texts of the text parts of a message, joined by newlines. *)
Definition message_text (m : Message) : str :=
  Py.join [Py.LF]
    (omap (fun part =>
             match part_root part with
             | Some (TextPart text) => Some text
             | _ => None
             end) (msg_parts m)).

(** A text part without text. *)
Definition is_empty_text_part (part : Part) : bool :=
  match part_root part with
  | Some (TextPart []) => true
  | _ => false
  end.

(** [a2a.utils.new_task]: it rejects a message without parts and a text
    part without text; the ids are those of the message, or new ones. *)
Definition sdk_new_task (m : Message) : Result Task :=
  match msg_parts m with
  | [] => Raise (ValueError (lit "Message parts cannot be empty"))
  | parts =>
      if existsb is_empty_text_part parts
      then Raise (ValueError (lit "TextPart content cannot be empty"))
      else Ok (mkTask (default (lit "task-1") (Reading.given (msg_task_id m)))
                      (default (lit "ctx-1") (Reading.given (msg_context_id m)))
                      submitted [m])
  end.

(** A server whose two backends answer [kickoff_reply] and [model_reply]
    whatever they are asked. *)
Definition served (kickoff_reply model_reply : Result str) : ServerEnv :=
  {| get_user_input := fun context => Ok (message_text (ctx_message context));
     new_task := sdk_new_task;
     new_agent_text_message := fun text context_id task_id =>
       mkMessage agent [text_part text] (lit "progress")
                 (Some task_id) (Some context_id);
     crew_kickoff := fun _ _ => kickoff_reply;
     model_generate_content := fun _ _ => model_reply;
     datetime_now := fun _ => lit "2025-01-01 12:00:00";
     new_task_submitted :=
       ltac:(intros m task; unfold sdk_new_task;
             destruct (msg_parts m); [discriminate|];
             destruct (existsb _ _); [discriminate|];
             intros Heq; injection Heq as <-; reflexivity) |}.

(** A first message of a conversation carrying [text]. *)
Definition request (text : str) : RequestContext :=
  mkRequestContext (mkMessage user [text_part text] (lit "m-1") None None) None.

(** A first message whose first part has no text and whose second part
    carries [text]. *)
Definition request_after_empty_part (text : str) : RequestContext :=
  mkRequestContext
    (mkMessage user [text_part []; text_part text] (lit "m-1") None None) None.

(** The task made for [request text]. *)
Definition first_task (text : str) : Task :=
  mkTask (lit "task-1") (lit "ctx-1") submitted
         [mkMessage user [text_part text] (lit "m-1") None None].

(** A complete document for the five questions, as a backend may reply. *)
Definition latex_document : str :=
  Py.join [Py.LF]
    [lit "\documentclass{article}";
     lit "\usepackage{enumerate}";
     lit "\begin{document}";
     lit "\begin{enumerate}";
     lit "\item What is machine learning?";
     lit "\item How do neural networks learn?";
     lit "\item What is the difference between AI and ML?";
     lit "\item Explain gradient descent";
     lit "\item What are activation functions?";
     lit "\end{enumerate}";
     lit "\end{document}"].

Definition quota_error : exn :=
  OtherException "ResourceExhausted" (lit "quota exceeded").

Definition healthy : ServerEnv := served (Ok five_lines) (Ok latex_document).
Definition broken : ServerEnv := served (Raise quota_error) (Raise quota_error).

(** A model that wraps its document in a code fence, and one that
    answers in prose. *)
Definition fenced_reply : str :=
  lit "```latex" ++ ([Py.LF] ++ latex_document ++ [Py.LF]) ++ lit "```".

Definition fenced : ServerEnv := served (Ok five_lines) (Ok fenced_reply).

Definition apology : str :=
  lit "I am sorry, I cannot format these questions.".

Definition declining : ServerEnv := served (Ok five_lines) (Ok apology).

End Scenario.

(** ** The claims of the specification, word for word

    Where the code departs from a sentence of the specification, the
    sentence itself is stated here so that it can be refuted on a run. *)

Module AsStated.
Import A2ARemoteAgentTool Reading.

Section Client.
Context `{ClientEnv}.

(** "If the task result has a non-empty artifact list, [run] returns the
    first artifact's first part's text." *)
Definition artifact_text_is_returned (self : t) (input_text : str)
    (timeout : Py.float) (task_id context_id : option str) (w : ClientWorld)
    (response : Response) : Prop :=
  forall artifact rest text,
    task_result_of response ≫= result_artifacts = Some (artifact :: rest) ->
    first_artifact_text response = Some text ->
    fst (run self input_text timeout task_id context_id w) = Ok text.

(** The [message] object of the last request [run] sent. *)
Definition submitted_message (self : t) (input_text : str) (timeout : Py.float)
    (task_id context_id : option str) (w : ClientWorld)
    : option (gmap string json) :=
  match last (net_calls (snd (run self input_text timeout task_id context_id w))) with
  | Some (SendMessage _ _ request) => message_of (request_params request)
  | _ => None
  end.

(** "The message contains the task_id field if and only if a task_id
    was provided, and the context_id field if and only if a context_id
    was provided." *)
Definition ids_present_iff_provided (self : t) (input_text : str)
    (timeout : Py.float) (task_id context_id : option str) (w : ClientWorld)
    : Prop :=
  forall message,
    submitted_message self input_text timeout task_id context_id w
      = Some message ->
    (is_Some (message !! "task_id") <-> is_Some task_id)
    /\ (is_Some (message !! "context_id") <-> is_Some context_id).
End Client.

Section Server.
Context `{ServerEnv}.

(** "The task advances to the failed state": after [execute], the
    events on the queue announce [failed]. *)
Definition task_advances_to_failed
    (execute : RequestContext -> M ServerWorld unit)
    (context : RequestContext) (w : ServerWorld) : Prop :=
  failed ∈ published_states (event_queue (snd (execute context w))).

(** "Stage 2 returns a string beginning with a structural
    document-opening marker and ending with a structural
    document-closing marker." *)
Definition begins_with_opening_marker (document : str) : bool :=
  Py.startswith (lit "\documentclass") document
  || Py.startswith (lit "\begin{document}") document.

Definition ends_with_closing_marker (document : str) : bool :=
  Py.endswith (lit "\end{document}") document.

(** "With the original questions present as list items": at the least,
    the string has list items. *)
Definition has_list_items (document : str) : bool :=
  Py.contains (lit "\item") document.

Definition stage2_returns_document (questions : str) (w : ServerWorld)
    : Prop :=
  exists document,
    fst (LatexConverterAgent.convert_to_latex questions w) = Ok document
    /\ begins_with_opening_marker document = true
    /\ ends_with_closing_marker document = true
    /\ has_list_items document = true.
End Server.

End AsStated.

(** ** What an observer of a server sees *)

Module Observing.
Import Reading.

Definition is_artifact (ev : Event) : bool :=
  match ev with
  | TaskArtifactUpdateEvent _ _ _ _ => true
  | _ => false
  end.

(** An outcome of [execute] started in world [w]: the backend was invoked
    exactly once, and [execute] returned normally exactly when [completed]
    was published, and exactly when an artifact was published. *)
Definition completes_iff_returns (outcome : Result unit * ServerWorld)
    (w : ServerWorld) : Prop :=
  exists steps,
    snd outcome = w ++ steps
    /\ length (backend_calls steps) = 1
    /\ (fst outcome = Ok tt
        <-> completed ∈ published_states (event_queue steps))
    /\ (fst outcome = Ok tt
        <-> existsb is_artifact (event_queue steps) = true).

End Observing.

(** ** Command-line programs: output, files and exit codes *)

Module Cli.

(** How a program-level function ends: it returns, it leaves through
    [sys.exit(code)], or it raises. *)
Inductive Outcome (A : Type) : Type :=
  | Returned (a : A)
  | Exited (code : Z)
  | Raised (e : exn).
Arguments Returned {A} a.
Arguments Exited {A} code.
Arguments Raised {A} e.

(** The process as the programs touch it: what was printed (one entry per
    [print] call), the errors whose traceback was printed, the files
    written, and the network of the client. *)
Record Process : Type := mkProcess {
  stdout : list str;
  tracebacks : list exn;
  files : gmap str str;
  net : ClientWorld
}.

Definition C (A : Type) : Type := Process -> Outcome A * Process.

Definition creturn {A} (a : A) : C A := fun p => (Returned a, p).

Definition cbind {A B} (m : C A) (k : A -> C B) : C B :=
  fun p =>
    match m p with
    | (Returned a, p') => k a p'
    | (Exited code, p') => (Exited code, p')
    | (Raised e, p') => (Raised e, p')
    end.

(** [print(line)] *)
Definition print (line : str) : C unit :=
  fun p =>
    (Returned tt,
     mkProcess (stdout p ++ [line]) (tracebacks p) (files p) (net p)).

(** [sys.exit(code)] *)
Definition sys_exit {A} (code : Z) : C A := fun p => (Exited code, p).

(** [traceback.print_exc()] while [e] is being handled. *)
Definition print_exc (e : exn) : C unit :=
  fun p =>
    (Returned tt,
     mkProcess (stdout p) (tracebacks p ++ [e]) (files p) (net p)).

(** [asyncio.run(m)] for a coroutine of the client. *)
Definition asyncio_run {A} (m : M ClientWorld A) : C A :=
  fun p =>
    match m (net p) with
    | (Ok a, n) => (Returned a, mkProcess (stdout p) (tracebacks p) (files p) n)
    | (Raise e, n) => (Raised e, mkProcess (stdout p) (tracebacks p) (files p) n)
    end.

(** [s * n] *)
Definition times (s : str) (n : nat) : str := concat (replicate n s).

(** [isinstance(e, KeyboardInterrupt)] *)
Definition is_KeyboardInterrupt (e : exn) : bool :=
  match e with
  | BaseExceptionOnly cls => String.eqb cls "KeyboardInterrupt"
  | _ => false
  end.

(** The file system: whether opening a path for writing, and writing
    through the open file, succeed, and what the file holds after a write
    that failed (nothing, or some of the content: the operating system
    decides). *)
Class FileSystem : Type := {
  fs_open_w : gmap str str -> str -> Result unit;
  fs_write : gmap str str -> str -> str -> Result unit;
  fs_left_by_failed_write : gmap str str -> str -> str -> str
}.

(** [with open(path, 'w') as f: f.write(content)]: opening truncates the
    file, writing fills it. *)
Definition write_file `{FileSystem} (path content : str) : C unit :=
  fun p =>
    match fs_open_w (files p) path with
    | Raise e => (Raised e, p)
    | Ok _ =>
        let opened := <[path := []]> (files p) in
        match fs_write opened path content with
        | Raise e =>
            (Raised e,
             mkProcess (stdout p) (tracebacks p)
                       (<[path := fs_left_by_failed_write opened path content]>
                          opened)
                       (net p))
        | Ok _ =>
            (Returned tt,
             mkProcess (stdout p) (tracebacks p)
                       (<[path := content]> opened) (net p))
        end
    end.

End Cli.

Notation "'let!' x := m 'in' k" := (Cli.cbind m (fun x => k))
  (at level 10, x name, m at level 100, k at level 200) : py_scope.
Notation "'do!' m 'in' k" := (Cli.cbind m (fun _ => k))
  (at level 10, m at level 100, k at level 200) : py_scope.

(** ** [shared/utilis.py] *)

Module Utils.
Import Cli.

(** [text[:n]] for an [int] [n]; a negative [n] counts from the end. *)
Definition slice_to (text : str) (n : Z) : str :=
  if (n <? 0)%Z
  then take (Z.to_nat (Z.max 0 (Z.of_nat (length text) + n))) text
  else take (Z.to_nat n) text.

Definition truncate_text (text : str) (max_length : Z) (suffix : str) : str :=
  if (Z.of_nat (length text) <=? max_length)%Z then text
  else slice_to text (max_length - Z.of_nat (length suffix)) ++ suffix.

(** The defaults [max_length=100] and [suffix="..."]. *)
Definition default_max_length : Z := 100.
Definition default_suffix : str := lit "...".

(** [os.getenv(var_name)] in the environment [environ], followed by the
    check of [validate_env_var]. *)
Definition validate_env_var (environ : gmap str str) (var_name : str)
    (required : bool) : C (option str) :=
  let value := environ !! var_name in
  if required && negb (match value with Some v => Py.truthy v | None => false end)
  then
    do! print (lit "ERROR: " ++ var_name ++ lit " environment variable not set") in
    do! print (lit "Please set it in .env file or export it:") in
    do! print (lit "  export " ++ var_name ++ lit "='your-value-here'") in
    sys_exit 1
  else creturn value.

End Utils.

(** ** The client program: [client/__main__.py] *)

Module ClientMain.
Import Cli.

(** What [parser.parse_args()] returned. *)
Record Args : Type := mkArgs {
  topic : str;
  verbose : bool;
  save : option str;
  crewai_url : str;
  langgraph_url : str
}.

(** The check-mark of the success messages. *)
Definition CHECK : N := 10003%N.

Section Main.
Context `{ClientEnv} `{FileSystem}.

(** The body of the [try] block, once the key is known. *)
Definition main_body (api_key : str) (args : Args) : C unit :=
  let! latex_code :=
    asyncio_run
      (ClientAgent.run_workflow (topic args) api_key (crewai_url args)
         (langgraph_url args) (verbose args)) in
  do! print ([Py.LF] ++ times (lit "=") 80) in
  do! print (lit "WORKFLOW COMPLETE - FINAL LATEX CODE") in
  do! print (times (lit "=") 80) in
  do! print latex_code in
  do! print (times (lit "=") 80 ++ [Py.LF]) in
  do! match save args with
      | Some path =>
          if Py.truthy path then
            do! write_file path latex_code in
            print ([CHECK] ++ lit " Saved to " ++ path ++ [Py.LF])
          else creturn tt
      | None => creturn tt
      end in
  print ([CHECK] ++ lit " Success! You can now compile the LaTeX code.").

(** The two [except] clauses. *)
Definition main_handler (args : Args) (e : exn) : C unit :=
  if is_KeyboardInterrupt e then
    do! print ([Py.LF; Py.LF] ++ lit "[Client] Interrupted by user") in
    sys_exit 130
  else if is_Exception e then
    do! print ([Py.LF; Py.LF] ++ lit "[Client] ERROR: " ++ exn_str e) in
    do! (if verbose args then print_exc e else creturn tt) in
    sys_exit 1
  else fun p => (Raised e, p).

(** [main()], in the environment left by [load_dotenv()] and with the
    arguments as parsed. *)
Definition main (environ : gmap str str) (args : Args) : C unit :=
  let api_key := environ !! lit "GOOGLE_API_KEY" in
  match api_key with
  | Some (c :: key) =>
      let api_key := c :: key in
      do! print ([Py.LF] ++ times (lit "=") 80) in
      do! print (lit "MULTI-AGENT A2A WORKFLOW CLIENT") in
      do! print (times (lit "=") 80) in
      do! print (lit "Topic: " ++ topic args) in
      do! print (lit "CrewAI Agent: " ++ crewai_url args) in
      do! print (lit "LangGraph Agent: " ++ langgraph_url args) in
      do! print (times (lit "=") 80 ++ [Py.LF]) in
      fun p =>
        match main_body api_key args p with
        | (Raised e, p') => main_handler args e p'
        | other => other
        end
  | _ =>
      do! print (lit "ERROR: GOOGLE_API_KEY environment variable not set") in
      do! print (lit "Please set it in .env file or export it:") in
      do! print (lit "  export GOOGLE_API_KEY='your-api-key-here'") in
      sys_exit 1
  end.

End Main.

End ClientMain.

(** ** The launcher: [run_all.cleanup_processes] *)

Module RunAll.

(** What is done to a child process, by its pid. *)
Inductive ProcOp : Type :=
  | Terminate (pid : nat)
  | Wait (pid : nat)
  | Kill (pid : nat).

(** The launcher's world: what was printed and what was done to the
    children, oldest first. *)
Record Host : Type := mkHost {
  printed : list str;
  ops : list ProcOp
}.

(** The children: how [terminate()], [wait(timeout=5)] and [kill()] end,
    given what was done before. *)
Class Children : Type := {
  proc_terminate : list ProcOp -> nat -> Result unit;
  proc_wait : list ProcOp -> nat -> Result unit;
  proc_kill : list ProcOp -> nat -> Result unit
}.

(** [isinstance(e, subprocess.TimeoutExpired)] *)
Definition is_TimeoutExpired (e : exn) : bool :=
  match e with
  | OtherException cls _ => String.eqb cls "TimeoutExpired"
  | _ => false
  end.

Definition print (line : str) : M Host unit :=
  modify (fun h => mkHost (printed h ++ [line]) (ops h)).

Section Cleanup.
Context `{Children}.

Definition terminate (pid : nat) : M Host unit :=
  fun h => (proc_terminate (ops h) pid,
            mkHost (printed h) (ops h ++ [Terminate pid])).

Definition wait (pid : nat) : M Host unit :=
  fun h => (proc_wait (ops h) pid,
            mkHost (printed h) (ops h ++ [Wait pid])).

Definition kill (pid : nat) : M Host unit :=
  fun h => (proc_kill (ops h) pid,
            mkHost (printed h) (ops h ++ [Kill pid])).

(** The body of the [for] loop for one process. *)
Definition cleanup_process (pid : nat) : M Host unit :=
  try_except
    (do* terminate pid in
     do* wait pid in
     print (lit "[Run All] " ++ [ClientMain.CHECK] ++ lit " Process "
              ++ Py.str_of_nat pid ++ lit " terminated"))
    (fun e =>
       if is_TimeoutExpired e then
         do* kill pid in
         print (lit "[Run All] " ++ [10007%N] ++ lit " Process "
                  ++ Py.str_of_nat pid ++ lit " killed (force)")
       else if is_Exception e then
         print (lit "[Run All] Warning: " ++ exn_str e)
       else raise e).

Fixpoint for_each (processes : list nat) : M Host unit :=
  match processes with
  | [] => ret tt
  | pid :: rest => do* cleanup_process pid in for_each rest
  end.

Definition cleanup_processes (processes : list nat) : M Host unit :=
  do* print ([Py.LF] ++ lit "[Run All] Cleaning up background processes...") in
  for_each processes.

End Cleanup.

(** The operations [cleanup_processes] may issue for one process. *)
Definition cleanup_shapes (pid : nat) : list (list ProcOp) :=
  [[Terminate pid];
   [Terminate pid; Wait pid];
   [Terminate pid; Kill pid];
   [Terminate pid; Wait pid; Kill pid]].

End RunAll.

(** ** How the client program ends on an error *)

Module Exits.

(** The exit of [main] for an error [e] raised inside its [try] block:
    130 for an interrupt, 1 for an [Exception]; anything else is not
    caught. *)
Definition client_exit (e : exn) : Cli.Outcome unit :=
  if Cli.is_KeyboardInterrupt e then Cli.Exited 130
  else if is_Exception e then Cli.Exited 1
  else Cli.Raised e.

End Exits.

(** ** The server programs: [crewai_question_agent/__main__.py] and
    [langgraph_latex_agent/__main__.py] *)

Module ServerMain.
Import Cli.

Record AgentSkill : Type := mkSkill {
  skill_id : str;
  skill_name : str;
  skill_description : str;
  skill_tags : list str;
  skill_examples : list str
}.

(** The agent card a server publishes. *)
Record PublishedCard : Type := mkPublishedCard {
  pc_name : str;
  pc_description : str;
  pc_url : str;
  pc_version : str;
  pc_default_input_modes : list str;
  pc_default_output_modes : list str;
  pc_streaming : bool;
  pc_push_notifications : bool;
  pc_skills : list AgentSkill
}.

(** One call of [uvicorn.run]: the application's card, host and port. *)
Record Launch : Type := mkLaunch {
  launch_card : PublishedCard;
  launch_host : str;
  launch_port : Z
}.

(** [str(port)] *)
Definition str_of_int (z : Z) : str :=
  lit (NilZero.string_of_int (Z.to_int z)).

(** What lies outside: setting up the Gemini model and the graph of
    stage 2, and serving until the server stops. *)
Class Hosting : Type := {
  latex_agent_setup : str -> Result unit;
  uvicorn_run : Launch -> Result unit
}.

(** The two [except] clauses of both programs: [MissingAPIKeyError] and
    any other [Exception] end in [sys.exit(1)]. *)
Definition startup_handler (e : exn) : Outcome unit :=
  if is_Exception e then Exited 1 else Raised e.

Definition crewai_card (host : str) (port : Z) : PublishedCard :=
  let skill :=
    mkSkill (lit "generate_questions") (lit "Question Generator")
      (lit "Generates 5 educational questions based on a given topic or subject area")
      [lit "education"; lit "questions"; lit "learning"; lit "assessment"]
      [lit "Generate questions about Machine Learning";
       lit "Create questions on Quantum Physics";
       lit "Questions about Ancient Rome"] in
  mkPublishedCard
    (lit "CrewAI Question Generator")
    (lit "An A2A agent that generates insightful educational questions "
       ++ lit "using CrewAI framework and Google Gemini. Perfect for creating "
       ++ lit "study materials, assessments, or discussion prompts.")
    (lit "http://" ++ host ++ lit ":" ++ str_of_int port ++ lit "/")
    (lit "1.0.0")
    [lit "text"; lit "text/plain"]
    [lit "text"; lit "text/plain"]
    true true [skill].

Definition langgraph_card (host : str) (port : Z) : PublishedCard :=
  let skill :=
    mkSkill (lit "convert_to_latex") (lit "LaTeX Converter")
      (lit "Converts text questions to professionally formatted LaTeX code with proper document structure")
      [lit "latex"; lit "formatting"; lit "academic"; lit "document";
       lit "typesetting"]
      [lit "Convert these questions to LaTeX: 1. What is AI? 2. How does ML work?";
       lit "Format in LaTeX: Question 1: Define quantum computing";
       lit "LaTeX document with numbered questions about physics"] in
  mkPublishedCard
    (lit "LangGraph LaTeX Converter")
    (lit "An A2A agent that converts text questions to LaTeX formatted code "
       ++ lit "using LangGraph state machine and Google Gemini. Generates "
       ++ lit "compile-ready LaTeX documents with proper structure and formatting.")
    (lit "http://" ++ host ++ lit ":" ++ str_of_int port ++ lit "/")
    (lit "1.0.0")
    [lit "text"; lit "text/plain"]
    [lit "text"; lit "text/plain"]
    true true [skill].

Section Main.
Context `{Hosting}.

(** [uvicorn.run(server.build(), host=host, port=port)], with the launches
    made so far. *)
Definition serve (launch : Launch) (launches : list Launch)
    : Outcome unit * list Launch :=
  match uvicorn_run launch with
  | Ok _ => (Returned tt, launches ++ [launch])
  | Raise e => (startup_handler e, launches ++ [launch])
  end.

(** [main(host, port, debug)] of stage 1. *)
Definition crewai_main (environ : gmap str str) (host : str) (port : Z)
    (debug : bool) (launches : list Launch) : Outcome unit * list Launch :=
  match environ !! lit "GOOGLE_API_KEY" with
  | Some (c :: key) =>
      serve (mkLaunch (crewai_card host port) host port) launches
  | _ => (Exited 1, launches)
  end.

(** [main(host, port, debug)] of stage 2; building the executor sets up
    the model and compiles the graph. *)
Definition langgraph_main (environ : gmap str str) (host : str) (port : Z)
    (debug : bool) (launches : list Launch) : Outcome unit * list Launch :=
  match environ !! lit "GOOGLE_API_KEY" with
  | Some (c :: key) =>
      match latex_agent_setup (c :: key) with
      | Ok _ => serve (mkLaunch (langgraph_card host port) host port) launches
      | Raise e => (startup_handler e, launches)
      end
  | _ => (Exited 1, launches)
  end.

End Main.

End ServerMain.

(** ** More concrete surroundings *)

Module Staging.
Import Scenario.

(** A network on which every call is cancelled. *)
Definition cancelled : exn := BaseExceptionOnly "CancelledError".

Definition interrupt : exn := BaseExceptionOnly "KeyboardInterrupt".

Definition unreachable : ClientEnv :=
  scripted (Raise connection_failed) (Raise connection_failed)
           eq_refl eq_refl.

Definition cancelling : ClientEnv :=
  scripted (Ok card) (Raise cancelled) I eq_refl.

Definition interrupted : ClientEnv :=
  scripted (Raise interrupt) (Raise interrupt) eq_refl eq_refl.

(** A server on which reading the user input raises. *)
Definition unreadable : ServerEnv :=
  {| get_user_input := fun _ => Raise (OtherException "AttributeError" (lit "parts"));
     new_task := fun m => Ok (mkTask (lit "task-1") (lit "ctx-1") submitted [m]);
     new_agent_text_message := fun text context_id task_id =>
       mkMessage agent [text_part text] (lit "progress")
                 (Some task_id) (Some context_id);
     crew_kickoff := fun _ _ => Ok five_lines;
     model_generate_content := fun _ _ => Ok latex_document;
     datetime_now := fun _ => lit "2025-01-01 12:00:00";
     new_task_submitted :=
       ltac:(intros m task Heq; injection Heq as <-; reflexivity) |}.

(** A server whose backends raise a protocol error of their own. *)
Definition protocol_error : exn := ServerError UnsupportedOperationError None.

Definition refusing : ServerEnv :=
  served (Raise protocol_error) (Raise protocol_error).

(** A disk that takes every write, and one that takes none. *)
Definition disk : Cli.FileSystem :=
  {| Cli.fs_open_w := fun _ _ => Ok tt;
     Cli.fs_write := fun _ _ _ => Ok tt;
     Cli.fs_left_by_failed_write := fun _ _ _ => [] |}.

Definition permission_denied : exn :=
  OtherException "PermissionError" (lit "Permission denied").

Definition read_only_disk : Cli.FileSystem :=
  {| Cli.fs_open_w := fun _ _ => Raise permission_denied;
     Cli.fs_write := fun _ _ _ => Raise permission_denied;
     Cli.fs_left_by_failed_write := fun _ _ _ => [] |}.

(** A disk that fills up half-way through a write. *)
Definition no_space : exn :=
  OtherException "OSError" (lit "[Errno 28] No space left on device").

Definition full_disk : Cli.FileSystem :=
  {| Cli.fs_open_w := fun _ _ => Ok tt;
     Cli.fs_write := fun _ _ _ => Raise no_space;
     Cli.fs_left_by_failed_write := fun _ _ content =>
       take (length content / 2) content |}.

Definition with_key : gmap str str :=
  {[ lit "GOOGLE_API_KEY" := lit "secret" ]}.

Definition fresh : Cli.Process := Cli.mkProcess [] [] ∅ w0.

Definition args (save : option str) : ClientMain.Args :=
  ClientMain.mkArgs topic false save crewai_url langgraph_url.

Definition out_tex : str := lit "out.tex".

(** Children that stop when asked, children that ignore [terminate], and
    children that cannot be killed either. *)
Definition timeout_expired : exn :=
  OtherException "TimeoutExpired" (lit "timed out after 5 seconds").

Definition obedient : RunAll.Children :=
  {| RunAll.proc_terminate := fun _ _ => Ok tt;
     RunAll.proc_wait := fun _ _ => Ok tt;
     RunAll.proc_kill := fun _ _ => Ok tt |}.

Definition stubborn : RunAll.Children :=
  {| RunAll.proc_terminate := fun _ _ => Ok tt;
     RunAll.proc_wait := fun _ _ => Raise timeout_expired;
     RunAll.proc_kill := fun _ _ => Ok tt |}.

Definition unkillable : RunAll.Children :=
  {| RunAll.proc_terminate := fun _ _ => Ok tt;
     RunAll.proc_wait := fun _ _ => Raise timeout_expired;
     RunAll.proc_kill := fun _ _ => Raise permission_denied |}.

Definition idle : RunAll.Host := RunAll.mkHost [] [].

(** A host on which the servers run until they are stopped, and one on
    which the model of stage 2 cannot be set up. *)
Definition hosting : ServerMain.Hosting :=
  {| ServerMain.latex_agent_setup := fun _ => Ok tt;
     ServerMain.uvicorn_run := fun _ => Ok tt |}.

Definition no_model : ServerMain.Hosting :=
  {| ServerMain.latex_agent_setup := fun _ => Raise quota_error;
     ServerMain.uvicorn_run := fun _ => Ok tt |}.

Definition localhost : str := lit "localhost".

End Staging.

(** * Properties *)

(** ** Python strings *)

Lemma truthy_false_iff (s : str) : Py.truthy s = false <-> s = [].
Proof. destruct s; simpl; split; congruence. Qed.

Lemma truthy_true_iff (s : str) : Py.truthy s = true <-> s <> [].
Proof. destruct s; simpl; split; congruence. Qed.

(** ** The client *)

Section ClientFacts.
Import A2ARemoteAgentTool Reading.
Context `{ClientEnv}.

(** One equation for [run]: what it returns, and the world it leaves, by
    the answers of the network. *)
Lemma run_eq (self : t) input_text timeout task_id context_id w :
  run self input_text timeout task_id context_id w =
  match resolver_get_agent_card (net_calls w) (base_url self) with
  | Raise e => run_handler timeout e (after_card self w)
  | Ok card =>
      let request := request_sent w input_text task_id context_id in
      let w' := after_send self w card request in
      match client_send_message (net_calls (after_card self w)) card request with
      | Raise e => run_handler timeout e w'
      | Ok response =>
          match extract_result_text response with
          | Raise e => run_handler timeout e w'
          | Ok result_text =>
              if Py.truthy result_text
              then (Ok result_text, w')
              else run_handler timeout (ValueError no_text_message) w'
          end
      end
  end.
Proof.
  unfold run, try_except, run_body, bind, get_agent_card, after_card.
  destruct (resolver_get_agent_card _ _) as [card|e]; [|reflexivity].
  cbn -[extract_result_text run_handler].
  destruct (client_send_message _ _ _) as [response|e]; [|reflexivity].
  unfold lift.
  destruct (extract_result_text response) as [result_text|e]; [|reflexivity].
  destruct (Py.truthy result_text); reflexivity.
Qed.

(** The handler always raises, and leaves the world alone. *)
Lemma run_handler_raises timeout e (w : ClientWorld) :
  exists e', run_handler timeout e w = (Raise e', w).
Proof.
  unfold run_handler, raise.
  destruct (is_TimeoutException e); [eauto|].
  destruct (is_HTTPError e); [eauto|].
  destruct (is_Exception e); eauto.
Qed.

Lemma run_handler_no_text timeout (w : ClientWorld) :
  run_handler timeout (ValueError no_text_message) w
  = (Raise empty_result_error, w).
Proof. reflexivity. Qed.

(** An [Exception] that is none of httpx's leaves through the last
    [except] clause. *)
Lemma run_handler_exception timeout e (w : ClientWorld) :
  is_HTTPError e = false -> is_Exception e = true ->
  run_handler timeout e w = (Raise (communication_error e), w).
Proof.
  intros Hh He. unfold run_handler.
  assert (is_TimeoutException e = false) as ->
    by (destruct e; simpl in *; congruence).
  now rewrite Hh, He.
Qed.

Ltac part_cases p :=
  destruct p as [[[[|? ?]| |]|]]; simpl; try reflexivity.

Ltac message_cases msg :=
  destruct msg as [[[[|? ?]|]]|]; simpl; try reflexivity;
  match goal with q : Part |- _ => part_cases q end.

(** The extraction of [run] for a task: the first artifact's first part's
    text if it is not empty, else the first part's text of the [message]
    attribute, else nothing. *)
Lemma extract_result_text_task (response : Response)
    (task_result : TaskResult) :
  task_result_of response = Some task_result ->
  extract_result_text response
  = Ok match first_artifact_text response with
       | Some (c :: text) => c :: text
       | _ =>
           match message_first_text response with
           | Some text => text
           | None => []
           end
       end.
Proof.
  unfold first_artifact_text, message_first_text, task_result_of,
    extract_result_text, task_result_text, first_part_text, text_of_part.
  destruct response as [[[code m|[[rid st arts msg status]|m]]|]];
    simpl; try discriminate.
  intros _.
  destruct arts as [[|[[[|p ps]|]] rest]|]; simpl;
    try part_cases p; message_cases msg.
Qed.

Lemma run_net_calls (self : t) input_text timeout task_id context_id w :
  net_calls (snd (run self input_text timeout task_id context_id w))
  = net_calls w ++ calls_of_run self w input_text task_id context_id.
Proof.
  rewrite run_eq. unfold calls_of_run.
  destruct (resolver_get_agent_card _ _) as [card|e].
  - cbv zeta.
    assert (Hh : forall e,
      net_calls (snd (run_handler timeout e
                        (after_send self w card
                           (request_sent w input_text task_id context_id))))
      = net_calls w
          ++ [GetAgentCard (base_url self);
              SendMessage (base_url self) card
                (request_sent w input_text task_id context_id)]).
    { intros e.
      destruct (run_handler_raises timeout e
                  (after_send self w card
                     (request_sent w input_text task_id context_id)))
        as [e' ->].
      simpl. now rewrite <- app_assoc. }
    destruct (client_send_message _ _ _) as [response|e]; [|apply Hh].
    destruct (extract_result_text response) as [result_text|e]; [|apply Hh].
    destruct (Py.truthy _); [|apply Hh].
    simpl. now rewrite <- app_assoc.
  - destruct (run_handler_raises timeout e (after_card self w)) as [e' ->].
    reflexivity.
Qed.

(** The message of the request carries the input text, unchanged, as its
    only part. *)
Lemma request_sent_text w input_text task_id context_id :
  request_texts (request_sent w input_text task_id context_id)
  = Some [Some input_text].
Proof.
  unfold request_sent, request_texts, message_of, build_message_payload,
    set_message_field.
  destruct task_id as [[|c tid]|], context_id as [[|c' cid]|]; reflexivity.
Qed.

Lemma run_ok_not_empty (self : t) input_text timeout task_id context_id
    w s w' :
  run self input_text timeout task_id context_id w = (Ok s, w') -> s <> [].
Proof.
  rewrite run_eq.
  destruct (resolver_get_agent_card _ _) as [card|e].
  - cbv zeta.
    assert (Hh : forall e,
      run_handler timeout e
        (after_send self w card (request_sent w input_text task_id context_id))
      <> (Ok s, w')).
    { intros e.
      destruct (run_handler_raises timeout e
                  (after_send self w card
                     (request_sent w input_text task_id context_id)))
        as [e' ->].
      discriminate. }
    destruct (client_send_message _ _ _) as [response|e];
      [|intros Heq; now apply Hh in Heq].
    destruct (extract_result_text response) as [result_text|e];
      [|intros Heq; now apply Hh in Heq].
    destruct (Py.truthy result_text) eqn:Ht;
      [|intros Heq; now apply Hh in Heq].
    intros [= <- _]. now apply truthy_true_iff.
  - destruct (run_handler_raises timeout e (after_card self w)) as [e' ->].
    discriminate.
Qed.

End ClientFacts.

Section ClientClaims.
Import A2ARemoteAgentTool Reading.
Context `{ClientEnv}.

(** C1 (amended).  When the card is resolved and the submitted message is
    answered by [response]: if the response carries a task whose first
    artifact's first part has a text that is not empty, [run] returns that
    text; if it carries a task without such a text and without any message,
    [run] fails: the [ValueError] "No text content ..." leaves it wrapped
    as an "A2A communication error"; if it carries no task at all (a
    JSON-RPC error, or a bare message), [run] fails as well, on reading
    [result] or [id].  It never returns [""]. *)
Theorem run_extracts_by_precedence (self : t) (input_text : str)
    (timeout : Py.float) (task_id context_id : option str) (w : ClientWorld)
    (card : AgentCard) (response : Response) :
  resolver_get_agent_card (net_calls w) (base_url self) = Ok card ->
  client_send_message (net_calls (after_card self w)) card
    (request_sent w input_text task_id context_id) = Ok response ->
  let outcome := fst (run self input_text timeout task_id context_id w) in
  (forall c text,
      first_artifact_text response = Some (c :: text) ->
      outcome = Ok (c :: text))
  /\ (forall task_result,
        task_result_of response = Some task_result ->
        first_artifact_text response = None
        \/ first_artifact_text response = Some [] ->
        carries_message task_result = false ->
        outcome = Raise empty_result_error)
  /\ (forall code message,
        response_root response = Some (JSONRPCErrorResponse code message) ->
        outcome
        = Raise (communication_error
                   (AttributeError "JSONRPCErrorResponse" "result")))
  /\ (forall message,
        response_root response
          = Some (SendMessageSuccessResponse (ResultMessage message)) ->
        outcome
        = Raise (communication_error (AttributeError "Message" "id")))
  /\ outcome <> Ok [].
Proof.
  intros Hcard Hsend outcome.
  assert (Hout : outcome =
            fst match extract_result_text response with
                | Raise e =>
                    run_handler timeout e
                      (after_send self w card
                         (request_sent w input_text task_id context_id))
                | Ok result_text =>
                    if Py.truthy result_text
                    then (Ok result_text,
                          after_send self w card
                            (request_sent w input_text task_id context_id))
                    else (Raise empty_result_error,
                          after_send self w card
                            (request_sent w input_text task_id context_id))
                end).
  { subst outcome. rewrite run_eq, Hcard. cbv zeta. rewrite Hsend.
    destruct (extract_result_text response) as [result_text|e];
      [|reflexivity].
    destruct (Py.truthy result_text); [reflexivity|].
    now rewrite run_handler_no_text. }
  split; [|split; [|split; [|split]]].
  - intros c text Ha.
    assert (Ht : exists task_result, task_result_of response = Some task_result).
    { unfold first_artifact_text in Ha.
      destruct (task_result_of response) as [tr|]; [eauto|discriminate]. }
    destruct Ht as [tr Htr].
    rewrite Hout, (extract_result_text_task response tr Htr), Ha.
    reflexivity.
  - intros tr Htr Ha Hm.
    rewrite Hout, (extract_result_text_task response tr Htr).
    assert (Hnone : message_first_text response = None).
    { unfold message_first_text. rewrite Htr. simpl.
      unfold carries_message in Hm.
      destruct (result_message tr); [|reflexivity].
      destruct (status_message (result_status tr)); discriminate. }
    rewrite Hnone. now destruct Ha as [-> | ->].
  - intros code message Hroot. rewrite Hout.
    unfold extract_result_text. rewrite Hroot. reflexivity.
  - intros message Hroot. rewrite Hout.
    unfold extract_result_text. rewrite Hroot. reflexivity.
  - rewrite Hout.
    destruct (extract_result_text response) as [result_text|e].
    + destruct (Py.truthy result_text) eqn:Ht; [|discriminate].
      cbn [fst]. intros [= ->]. discriminate Ht.
    + destruct (run_handler_raises timeout e
                  (after_send self w card
                     (request_sent w input_text task_id context_id)))
        as [e' ->].
      discriminate.
Qed.

(** C10.  Whenever [run] returns normally the returned string is not
    empty; and when the first artifact's first part carries the text [""],
    the extraction is the one of the same response without artifacts:
    [run] returns the first message part's text if it is non-empty and
    fails otherwise. *)
Theorem run_never_returns_empty (self : t) (input_text : str)
    (timeout : Py.float) (task_id context_id : option str) (w : ClientWorld) :
  (forall s w',
      run self input_text timeout task_id context_id w = (Ok s, w') ->
      s <> [])
  /\ (forall card response,
        resolver_get_agent_card (net_calls w) (base_url self) = Ok card ->
        client_send_message (net_calls (after_card self w)) card
          (request_sent w input_text task_id context_id) = Ok response ->
        first_artifact_text response = Some [] ->
        extract_result_text response
          = extract_result_text (without_artifacts response)
        /\ fst (run self input_text timeout task_id context_id w)
           = match message_first_text response with
             | Some (c :: text) => Ok (c :: text)
             | _ => Raise empty_result_error
             end).
Proof.
  split.
  - intros s w'. apply run_ok_not_empty.
  - intros card response Hcard Hsend Hempty. split.
    + revert Hempty.
      unfold first_artifact_text, task_result_of, without_artifacts,
        extract_result_text, task_result_text, first_part_text, text_of_part.
      destruct response as [[[code m|[[rid st arts msg status]|m]]|]];
        simpl; try discriminate.
      destruct arts as [[|[[[|p ps]|]] rest]|]; simpl; try discriminate.
      destruct p as [[[[|c text]| |]|]]; simpl; try discriminate.
      reflexivity.
    + assert (Ht : exists task_result,
                task_result_of response = Some task_result).
      { unfold first_artifact_text in Hempty.
        destruct (task_result_of response) as [tr|]; [eauto|discriminate]. }
      destruct Ht as [tr Htr].
      rewrite run_eq, Hcard. cbv zeta. rewrite Hsend.
      rewrite (extract_result_text_task response tr Htr), Hempty.
      destruct (message_first_text response) as [[|c text]|];
        cbn [Py.truthy]; try reflexivity;
        now rewrite run_handler_no_text.
Qed.

(** C7.  When the card request or the message submission fails with an
    [Exception] [e] (a timeout or any other failure of the transport, as
    the SDK reports it), [run] raises "A2A communication error: <e>" with
    [e] as its cause, through its last [except] clause.  The clause for
    [httpx.TimeoutException] is not entered: what [run] raises is not
    "Request timeout after <timeout>s", and does not name the bound.  The
    card was requested once and the message was submitted at most once:
    nothing is tried again. *)
Theorem run_reports_failures_as_communication_errors (self : t)
    (input_text : str) (timeout : Py.float)
    (task_id context_id : option str) (w : ClientWorld) (e : exn) :
  is_Exception e = true ->
  (resolver_get_agent_card (net_calls w) (base_url self) = Raise e
   \/ exists card,
        resolver_get_agent_card (net_calls w) (base_url self) = Ok card
        /\ client_send_message (net_calls (after_card self w)) card
             (request_sent w input_text task_id context_id) = Raise e) ->
  let outcome := run self input_text timeout task_id context_id w in
  fst outcome
  = Raise (PyException (lit "A2A communication error: " ++ exn_str e)
                       (Some e))
  /\ (forall cause,
        fst outcome
        <> Raise (PyException
                    (lit "Request timeout after " ++ Py.float_str timeout
                       ++ lit "s") cause))
  /\ (net_calls (snd outcome)
        = net_calls w ++ [GetAgentCard (base_url self)]
      \/ exists card,
           net_calls (snd outcome)
           = net_calls w
               ++ [GetAgentCard (base_url self);
                   SendMessage (base_url self) card
                     (request_sent w input_text task_id context_id)]).
Proof.
  intros He Hfail outcome.
  assert (Hh : is_HTTPError e = false).
  { destruct Hfail as [Hc | (card & _ & Hs)].
    - exact (resolver_converts_httpx _ _ _ Hc).
    - exact (client_converts_httpx _ _ _ _ Hs). }
  assert (Hout : fst outcome = Raise (communication_error e)).
  { subst outcome. rewrite run_eq.
    destruct Hfail as [-> | (card & -> & Hsend)].
    - now rewrite (run_handler_exception _ _ _ Hh He).
    - cbv zeta. now rewrite Hsend, (run_handler_exception _ _ _ Hh He). }
  split; [exact Hout|]. split.
  - intros cause. rewrite Hout. unfold communication_error.
    intros [= Hmsg _]; discriminate Hmsg.
  - subst outcome. rewrite run_net_calls. unfold calls_of_run.
    destruct Hfail as [-> | (card & -> & _)]; [now left|].
    right. now exists card.
Qed.

End ClientClaims.

Section WorkflowClaims.
Import A2ARemoteAgentTool ClientAgent Reading.
Context `{ClientEnv}.

Lemma run_world_after_card (self : t) input_text timeout task_id context_id
    w card :
  resolver_get_agent_card (net_calls w) (base_url self) = Ok card ->
  snd (run self input_text timeout task_id context_id w)
  = after_send self w card (request_sent w input_text task_id context_id).
Proof.
  intros Hcard. rewrite run_eq, Hcard. cbv zeta.
  assert (Hh : forall e,
    snd (run_handler timeout e
           (after_send self w card
              (request_sent w input_text task_id context_id)))
    = after_send self w card (request_sent w input_text task_id context_id)).
  { intros e.
    now destruct (run_handler_raises timeout e
                    (after_send self w card
                       (request_sent w input_text task_id context_id)))
      as [e' ->]. }
  destruct (client_send_message _ _ _) as [response|e]; [|apply Hh].
  destruct (extract_result_text response) as [result_text|e]; [|apply Hh].
  destruct (Py.truthy _); [reflexivity|apply Hh].
Qed.

(** C8 (amended).  Once the card is resolved, [run] submits exactly one
    request.  Its message has the hex form of a UUID drawn during this
    call as [message_id] (the request id comes from the next draw), role
    ["user"], exactly one part, of kind ["text"], whose text is
    [input_text] unchanged, and it has a [task_id] ([context_id]) field
    exactly when a non-empty task id (context id) was passed, holding
    that id.  If the UUID source never repeats, the [message_id] differs
    from the hex form of every UUID drawn before this call. *)
Theorem run_submits_user_message (self : t) (input_text : str)
    (timeout : Py.float) (task_id context_id : option str) (w : ClientWorld)
    (card : AgentCard) :
  resolver_get_agent_card (net_calls w) (base_url self) = Ok card ->
  let w' := snd (run self input_text timeout task_id context_id w) in
  exists request message part,
    net_calls w'
      = net_calls w ++ [GetAgentCard (base_url self);
                        SendMessage (base_url self) card request]
    /\ uuids_drawn w' = S (S (uuids_drawn w))
    /\ request_id request = uuid_str (uuid_source (S (uuids_drawn w)))
    /\ message_of (request_params request) = Some message
    /\ message !! "message_id"
         = Some (JStr (uuid_hex (uuid_source (uuids_drawn w))))
    /\ message !! "role" = Some (JStr (lit "user"))
    /\ message !! "parts" = Some (JList [JDict part])
    /\ part !! "kind" = Some (JStr (lit "text"))
    /\ part !! "text" = Some (JStr input_text)
    /\ message !! "task_id" = JStr <$> given task_id
    /\ message !! "context_id" = JStr <$> given context_id
    /\ ((forall i j,
           uuid_hex (uuid_source i) = uuid_hex (uuid_source j) -> i = j) ->
        forall n, n < uuids_drawn w ->
          message !! "message_id" <> Some (JStr (uuid_hex (uuid_source n)))).
Proof.
  intros Hcard w'. subst w'.
  rewrite (run_world_after_card _ _ _ _ _ _ _ Hcard).
  unfold after_send, request_sent. cbn [net_calls uuids_drawn].
  unfold build_message_payload, set_message_field, message_of, given.
  destruct task_id as [[|c tid]|], context_id as [[|c' cid]|];
    (eexists; eexists; eexists;
     split; [now rewrite <- app_assoc|];
     repeat (split; [reflexivity|]);
     intros Hinj n Hn [= Heq]; apply Hinj in Heq; lia).
Qed.

Lemma try_except_reraise {W A} (m : M W A) (w : W) :
  try_except m (fun e => raise e) w = m w.
Proof.
  unfold try_except, raise. now destruct (m w) as [[a|e] w'].
Qed.

(** C5.  [run_workflow] runs stage 1 on the topic; if that fails, the
    error is raised again as it is and no call of stage 2 was made; if it
    returns [questions], stage 2 is run on exactly [questions], in the
    world stage 1 left, and its result (value or error) is the result of
    the workflow.  Each stage is run once. *)
Theorem run_workflow_sequential (topic api_key crewai_url langgraph_url : str)
    (verbose : bool) (w : ClientWorld) :
  let stage1 :=
    init crewai_url (lit "generate_questions")
         (Some (lit "Generates educational questions about a given topic")) in
  let stage2 :=
    init langgraph_url (lit "convert_to_latex")
         (Some (lit "Converts text questions to LaTeX formatted code")) in
  let workflow := run_workflow topic api_key crewai_url langgraph_url verbose w in
  match run stage1 topic default_timeout None None w with
  | (Ok questions, w1) =>
      workflow = run stage2 questions default_timeout None None w1
      /\ net_calls (snd workflow)
         = net_calls w ++ calls_of_run stage1 w topic None None
             ++ calls_of_run stage2 w1 questions None None
      /\ Forall (fun c => is_send c = true ->
                          call_url c = crewai_url
                          /\ (exists card request,
                                c = SendMessage crewai_url card request
                                /\ request_texts request = Some [Some topic]))
                (calls_of_run stage1 w topic None None)
      /\ Forall (fun c => call_url c = langgraph_url
                          /\ (is_send c = true ->
                              exists card request,
                                c = SendMessage langgraph_url card request
                                /\ request_texts request
                                   = Some [Some questions]))
                (calls_of_run stage2 w1 questions None None)
  | (Raise e, w1) =>
      workflow = (Raise e, w1)
      /\ net_calls (snd workflow)
         = net_calls w ++ calls_of_run stage1 w topic None None
      /\ Forall (fun c => call_url c = crewai_url)
                (calls_of_run stage1 w topic None None)
  end.
Proof.
  intros stage1 stage2 workflow.
  pose proof (run_net_calls stage1 topic default_timeout None None w) as Hcalls1.
  assert (Hwf : workflow =
            match run stage1 topic default_timeout None None w with
            | (Ok questions, w1) =>
                run stage2 questions default_timeout None None w1
            | (Raise e, w1) => (Raise e, w1)
            end).
  { subst workflow. unfold run_workflow.
    fold stage1 stage2. unfold bind at 1.
    rewrite try_except_reraise.
    destruct (run stage1 _ _ _ _ w) as [[questions|e] w1]; [|reflexivity].
    unfold bind. rewrite try_except_reraise.
    now destruct (run stage2 _ _ _ _ w1) as [[latex|e] w2]. }
  destruct (run stage1 topic default_timeout None None w)
    as [[questions|e] w1]; cbn [snd] in Hcalls1.
  - split; [exact Hwf|]. split.
    + rewrite Hwf, run_net_calls, Hcalls1. now rewrite <- app_assoc.
    + split.
      * unfold calls_of_run. constructor; [discriminate|].
        destruct (resolver_get_agent_card _ _); constructor; [|constructor].
        intros _. split; [reflexivity|].
        eexists; eexists; split; [reflexivity|]. apply request_sent_text.
      * unfold calls_of_run. constructor; [split; [reflexivity|discriminate]|].
        destruct (resolver_get_agent_card _ _); constructor; [|constructor].
        split; [reflexivity|]. intros _.
        eexists; eexists; split; [reflexivity|]. apply request_sent_text.
  - split; [exact Hwf|]. split.
    + now rewrite Hwf.
    + unfold calls_of_run. constructor; [reflexivity|].
      destruct (resolver_get_agent_card _ _); repeat constructor.
Qed.

End WorkflowClaims.

(** ** The client claims on concrete runs *)

Section ClientRuns.
Import A2ARemoteAgentTool Reading Scenario.

Lemma run_extracts_by_precedence_witness :
  fst (@run answered tool topic default_timeout None None w0) = Ok five_lines
  /\ fst (@run silent tool topic default_timeout None None w0)
     = Raise empty_result_error
  /\ fst (@run erring tool topic default_timeout None None w0)
     = Raise (communication_error
                (AttributeError "JSONRPCErrorResponse" "result"))
  /\ fst (@run chatting tool topic default_timeout None None w0)
     = Raise (communication_error (AttributeError "Message" "id")).
Proof.
  split; [|split; [|split]].
  - destruct (@run_extracts_by_precedence answered tool topic default_timeout
                None None w0 card
                (task_response (Some [text_artifact five_lines]) None)
                eq_refl eq_refl) as (Ha & _).
    refine (Ha 49%N _ _). vm_compute. reflexivity.
  - destruct (@run_extracts_by_precedence silent tool topic default_timeout
                None None w0 card silent_response eq_refl eq_refl)
      as (_ & Hc & _).
    refine (Hc _ eq_refl (or_intror eq_refl) eq_refl).
  - destruct (@run_extracts_by_precedence erring tool topic default_timeout
                None None w0 card error_response eq_refl eq_refl)
      as (_ & _ & He & _).
    exact (He _ _ eq_refl).
  - destruct (@run_extracts_by_precedence chatting tool topic default_timeout
                None None w0 card message_response eq_refl eq_refl)
      as (_ & _ & _ & Hm & _).
    exact (Hm _ eq_refl).
Defined.

(** C1 as worded fails: the artifact list is not empty, the first
    artifact's first part has the text [""], and [run] does not return
    that text: it raises. *)
Lemma artifact_text_is_returned_fails :
  ~ @AsStated.artifact_text_is_returned silent tool topic default_timeout
      None None w0 silent_response.
Proof.
  intros Hc.
  specialize (Hc (text_artifact []) [] [] eq_refl eq_refl).
  vm_compute in Hc. discriminate Hc.
Qed.

Lemma run_never_returns_empty_witness :
  five_lines <> []
  /\ extract_result_text empty_artifact_response
     = extract_result_text (without_artifacts empty_artifact_response)
  /\ fst (@run answered_empty tool topic default_timeout None None w0)
     = Raise empty_result_error.
Proof.
  split.
  - pose proof (@run_never_returns_empty answered tool topic default_timeout
                  None None w0) as [Hne _].
    refine (Hne five_lines
              (snd (@run answered tool topic default_timeout None None w0)) _).
    vm_compute. reflexivity.
  - pose proof (@run_never_returns_empty answered_empty tool topic
                  default_timeout None None w0) as [_ Hempty].
    exact (Hempty card empty_artifact_response eq_refl eq_refl eq_refl).
Defined.

Lemma run_reports_failures_as_communication_errors_witness :
  fst (@run timed_out tool topic default_timeout None None w0)
  = Raise (PyException
             (lit "A2A communication error: Timeout Error: Client Request timed out")
             (Some request_timed_out)).
Proof.
  refine (proj1 (@run_reports_failures_as_communication_errors timed_out tool
                   topic default_timeout None None w0 request_timed_out
                   eq_refl _)).
  right. exists card. split; reflexivity.
Defined.

Lemma run_submits_user_message_witness :
  exists request message part,
    net_calls (snd (@run answered tool topic default_timeout
                      (Some (lit "t-1")) None w0))
      = [GetAgentCard crewai_url; SendMessage crewai_url card request]
    /\ message_of (request_params request) = Some message
    /\ message !! "parts" = Some (JList [JDict part])
    /\ part !! "text" = Some (JStr topic)
    /\ message !! "task_id" = Some (JStr (lit "t-1"))
    /\ message !! "context_id" = None.
Proof.
  destruct (@run_submits_user_message answered tool topic default_timeout
              (Some (lit "t-1")) None w0 card eq_refl)
    as (request & message & part & Hcalls & _ & _ & Hm & _ & _ & Hparts
        & _ & Htext & Htid & Hcid & _).
  exists request, message, part. repeat split; assumption.
Defined.

(** C8 as worded fails: the task id [""] was provided, and the submitted
    message has no [task_id] field. *)
Lemma ids_present_iff_provided_fails :
  ~ @AsStated.ids_present_iff_provided answered tool topic default_timeout
      (Some []) None w0.
Proof.
  intros Hc.
  assert (Hm : exists message,
             @AsStated.submitted_message answered tool topic default_timeout
               (Some []) None w0 = Some message
             /\ message !! "task_id" = None).
  { eexists. split; reflexivity. }
  destruct Hm as (message & Hm & Hnone).
  destruct (Hc message Hm) as [[_ Hgiven] _].
  destruct Hgiven as [v Hv]; [now exists []|].
  rewrite Hnone in Hv. discriminate Hv.
Qed.

End ClientRuns.

(** ** The executors *)

Lemma lstrip_blank (s : str) : Reading.blank s = true -> Py.lstrip s = [].
Proof.
  unfold Reading.blank.
  induction s as [|c s IH]; simpl; [reflexivity|].
  destruct (Py.isspace c); simpl; [exact IH|discriminate].
Qed.

Lemma strip_blank (s : str) : Reading.blank s = true -> Py.strip s = [].
Proof.
  intros Hs. unfold Py.strip, Py.rstrip. now rewrite (lstrip_blank s Hs).
Qed.

Section ExecutorFacts.
Import Reading.
Context `{ServerEnv}.

(** Both executors validate alike. *)
Lemma validate_request_same (context : RequestContext) :
  LangGraphLatexExecutor._validate_request context
  = CrewAIQuestionGeneratorExecutor._validate_request context.
Proof. reflexivity. Qed.

Lemma validate_request_blank (context : RequestContext) (s : str)
    (w : ServerWorld) :
  get_user_input context = Ok s -> blank s = true ->
  CrewAIQuestionGeneratorExecutor._validate_request context w = (Ok true, w).
Proof.
  intros Hin Hs.
  unfold CrewAIQuestionGeneratorExecutor._validate_request,
    try_except, bind, lift.
  rewrite Hin, (strip_blank s Hs). simpl.
  now rewrite orb_true_r.
Qed.

Lemma validate_request_text (context : RequestContext) (s : str)
    (w : ServerWorld) :
  get_user_input context = Ok s -> Py.strip s <> [] ->
  CrewAIQuestionGeneratorExecutor._validate_request context w = (Ok false, w).
Proof.
  intros Hin Hs.
  unfold CrewAIQuestionGeneratorExecutor._validate_request,
    try_except, bind, lift.
  rewrite Hin.
  assert (Py.truthy (Py.strip s) = true) as -> by now apply truthy_true_iff.
  assert (Py.truthy s = true) as ->.
  { apply truthy_true_iff. intros ->. now apply Hs. }
  reflexivity.
Qed.

(** The world when the task is resolved and [working] is published. *)
Lemma crewai_before_eq (context : RequestContext) (task : Task)
    (w : ServerWorld) :
  crewai_before context task w
  = match ctx_current_task context with
    | None =>
        (w ++ [Enqueued (TaskEvent task)])
          ++ [working_step task (lit "Generating educational questions...")]
    | Some _ =>
        w ++ [working_step task (lit "Generating educational questions...")]
    end.
Proof.
  unfold crewai_before, crewai_started, creation_steps.
  destruct (ctx_current_task context); [reflexivity|].
  now rewrite <- app_assoc.
Qed.

Lemma langgraph_before_eq (context : RequestContext) (task : Task)
    (w : ServerWorld) :
  langgraph_before context task w
  = match ctx_current_task context with
    | None =>
        ((w ++ [Enqueued (TaskEvent task)])
           ++ [working_step task (lit "Parsing questions...")])
          ++ [working_step task (lit "Converting to LaTeX format...")]
    | Some _ =>
        (w ++ [working_step task (lit "Parsing questions...")])
          ++ [working_step task (lit "Converting to LaTeX format...")]
    end.
Proof.
  unfold langgraph_before, langgraph_started, creation_steps.
  destruct (ctx_current_task context); simpl; now rewrite <- !app_assoc.
Qed.

(** [execute] of stage 1 on a valid request whose task is resolved, up to
    the answer of the backend. *)
Lemma crewai_execute_eq (context : RequestContext) (query : str)
    (task : Task) (w : ServerWorld) :
  get_user_input context = Ok query -> Py.strip query <> [] ->
  task_of context = Ok task ->
  let before := crewai_before context task w in
  let description := QuestionGeneratorAgent.task_description query in
  CrewAIQuestionGeneratorExecutor.execute context w =
  match crew_kickoff before description with
  | Ok questions =>
      (Ok tt,
       before ++ [BackendInvoked description;
                  artifact_step task (lit "generated_questions") questions;
                  completed_step task])
  | Raise e =>
      (Raise (surfaced e), before ++ [BackendInvoked description])
  end.
Proof.
  intros Hin Hs Htask before description. subst before.
  rewrite crewai_before_eq.
  unfold CrewAIQuestionGeneratorExecutor.execute, try_except, bind,
    TaskUpdater.update_status, TaskUpdater.add_artifact,
    TaskUpdater.complete, enqueue_event, modify, ret, raise,
    QuestionGeneratorAgent.generate_questions,
    QuestionGeneratorAgent.kickoff, bind, ret.
  rewrite (validate_request_text context query w Hin Hs).
  unfold lift. rewrite Hin.
  unfold artifact_step, completed_step, working_step.
  fold description. unfold task_of in Htask.
  destruct (ctx_current_task context) as [task'|];
    [injection Htask as ->|rewrite Htask];
    cbn -[QuestionGeneratorAgent.task_description Py.lit];
    (destruct (crew_kickoff _ description) as [questions|e];
     cbn -[QuestionGeneratorAgent.task_description Py.lit];
     [now rewrite <- !app_assoc|]);
    unfold surfaced; destruct (is_ServerError e); try reflexivity;
    destruct (is_Exception e); reflexivity.
Qed.

(** [execute] of either stage on a valid request for which no task can be
    made: the error of [new_task] is all that happens. *)
Lemma execute_without_task (context : RequestContext) (query : str)
    (w : ServerWorld) (e : exn) :
  get_user_input context = Ok query -> Py.strip query <> [] ->
  task_of context = Raise e ->
  CrewAIQuestionGeneratorExecutor.execute context w = (Raise (surfaced e), w)
  /\ LangGraphLatexExecutor.execute context w = (Raise (surfaced e), w).
Proof.
  intros Hin Hs Htask. unfold task_of in Htask.
  destruct (ctx_current_task context) as [task|] eqn:Hcur;
    [discriminate Htask|].
  split.
  - unfold CrewAIQuestionGeneratorExecutor.execute, try_except, bind.
    rewrite (validate_request_text context query w Hin Hs).
    unfold lift. rewrite Hin, Hcur, Htask.
    unfold surfaced, raise. destruct (is_ServerError e); [reflexivity|].
    destruct (is_Exception e); reflexivity.
  - unfold LangGraphLatexExecutor.execute, try_except, bind.
    rewrite validate_request_same,
      (validate_request_text context query w Hin Hs).
    unfold lift. rewrite Hin, Hcur, Htask.
    unfold surfaced, raise. destruct (is_ServerError e); [reflexivity|].
    destruct (is_Exception e); reflexivity.
Qed.

End ExecutorFacts.

(** ** The LaTeX converter *)

Lemma split_go_not_nil (sep : str) (skip : nat) (cur s : str) :
  Py.split_go sep skip cur s <> [].
Proof.
  revert skip cur. induction s as [|c s IH]; intros skip cur; simpl.
  - discriminate.
  - destruct skip as [|k]; [|apply IH].
    destruct (Py.startswith sep (c :: s)); [discriminate|apply IH].
Qed.

(** A separator that occurs splits the text in at least two pieces. *)
Lemma split_go_contains (sep : str) (cur s : str) :
  sep <> [] -> Py.contains sep s = true ->
  exists a b rest, Py.split_go sep 0 cur s = a :: b :: rest.
Proof.
  intros Hsep. revert cur. induction s as [|c s IH]; intros cur Hc.
  - destruct sep; [now destruct Hsep|discriminate].
  - cbn [Py.contains] in Hc. cbn [Py.split_go].
    destruct (Py.startswith sep (c :: s)).
    + destruct (Py.split_go sep (length sep - 1) [] s) as [|b rest] eqn:E.
      * now apply split_go_not_nil in E.
      * eauto.
    + apply IH. exact Hc.
Qed.

Lemma getitem_0_split (sep s : str) :
  exists a, LatexConverterAgent.getitem (Py.split sep s) 0 = Ok a.
Proof.
  unfold Py.split, LatexConverterAgent.getitem.
  destruct (Py.split_go sep 0 [] s) as [|a rest] eqn:E.
  - now apply split_go_not_nil in E.
  - now exists a.
Qed.

Lemma getitem_1_split (sep s : str) :
  sep <> [] -> Py.contains sep s = true ->
  exists b, LatexConverterAgent.getitem (Py.split sep s) 1 = Ok b.
Proof.
  intros Hsep Hc. unfold Py.split, LatexConverterAgent.getitem.
  destruct (split_go_contains sep [] s Hsep Hc) as (a & b & rest & ->).
  now exists b.
Qed.

(** The clean-up of code fences never fails. *)
Lemma strip_code_fences_total (raw : str) :
  exists latex, LatexConverterAgent.strip_code_fences raw = Ok latex.
Proof.
  unfold LatexConverterAgent.strip_code_fences.
  destruct (Py.contains (lit "```latex") raw) eqn:E1.
  - destruct (getitem_1_split (lit "```latex") raw) as [b ->];
      [discriminate|exact E1|].
    destruct (getitem_0_split (lit "```") b) as [a ->]. eauto.
  - destruct (Py.contains (lit "```") raw) eqn:E2; [|eauto].
    destruct (getitem_1_split (lit "```") raw) as [b ->];
      [discriminate|exact E2|].
    destruct (getitem_0_split (lit "```") b) as [a ->]. eauto.
Qed.

Lemma startswith_app (p s t : str) :
  Py.startswith p s = true -> Py.startswith p (s ++ t) = true.
Proof.
  revert s. induction p as [|a p IH]; intros [|b s]; simpl; try congruence.
  intros [-> Hp]%andb_prop. simpl. now apply IH.
Qed.

Lemma endswith_app (p s t : str) :
  Py.endswith p t = true -> Py.endswith p (s ++ t) = true.
Proof.
  unfold Py.endswith. rewrite reverse_app. apply startswith_app.
Qed.

Lemma contains_app_r (sep s t : str) :
  Py.contains sep t = true -> Py.contains sep (s ++ t) = true.
Proof.
  intros Ht. induction s as [|c s IH]; [exact Ht|].
  simpl. rewrite IH. apply orb_true_r.
Qed.

Lemma contains_app_l (sep s t : str) :
  Py.contains sep s = true -> Py.contains sep (s ++ t) = true.
Proof.
  induction s as [|c s IH]; intros Hs.
  - simpl in Hs. rewrite orb_false_r in Hs.
    destruct sep; [|discriminate]. now destruct t.
  - cbn [Py.contains] in Hs. apply orb_prop in Hs as [Hs|Hs].
    + change ((c :: s) ++ t) with (c :: (s ++ t)). cbn [Py.contains].
      change (c :: (s ++ t)) with ((c :: s) ++ t).
      now rewrite (startswith_app _ _ t Hs).
    + change ((c :: s) ++ t) with (c :: (s ++ t)). cbn [Py.contains].
      rewrite (IH Hs). apply orb_true_r.
Qed.

Section ConverterFacts.
Import Reading LatexConverterAgent.
Context `{ServerEnv}.

(** The workflow of stage 2, up to the answer of the model. *)
Lemma convert_to_latex_eq (questions : str) (w : ServerWorld) :
  let prompt := prompt_of (parsed_lines questions) in
  let w' := w ++ [BackendInvoked prompt] in
  convert_to_latex questions w =
  match model_generate_content w prompt with
  | Ok raw =>
      match strip_code_fences raw with
      | Ok latex =>
          (Ok (header (length (parsed_lines questions)) (datetime_now w')
                 ++ latex), w')
      | Raise e => (Raise e, w')
      end
  | Raise e => (Raise e, w')
  end.
Proof.
  intros prompt w'.
  unfold convert_to_latex, graph_invoke, convert_to_latex_node,
    format_output, generate_content, import_datetime_now, bind, lift, ret.
  change (metadata_parsed_questions
            (apply_update (mkState questions [] ∅)
               (parse_questions (mkState questions [] ∅))))
    with (Ok (A := list str) (parsed_lines questions)).
  change (metadata_count
            (apply_update (mkState questions [] ∅)
               (parse_questions (mkState questions [] ∅))))
    with (Ok (A := nat) (length (parsed_lines questions))).
  cbv beta iota. fold prompt. fold w'.
  destruct (model_generate_content w prompt) as [raw|e]; [|reflexivity].
  destruct (strip_code_fences raw) as [latex|e]; reflexivity.
Qed.

End ConverterFacts.

Section ExecutorClaims.
Import Reading.
Context `{ServerEnv}.

(** [execute] of stage 2 on a valid request whose task is resolved, up to
    the answer of the model. *)
Lemma langgraph_execute_eq (context : RequestContext) (query : str)
    (task : Task) (w : ServerWorld) :
  get_user_input context = Ok query -> Py.strip query <> [] ->
  task_of context = Ok task ->
  let before := langgraph_before context task w in
  let parsed := LatexConverterAgent.parsed_lines query in
  let prompt := LatexConverterAgent.prompt_of parsed in
  let called := before ++ [BackendInvoked prompt] in
  LangGraphLatexExecutor.execute context w =
  match model_generate_content before prompt with
  | Ok raw =>
      match LatexConverterAgent.strip_code_fences raw with
      | Ok latex =>
          (Ok tt,
           before ++ [BackendInvoked prompt;
                      artifact_step task (lit "latex_document")
                        (LatexConverterAgent.header (length parsed)
                           (datetime_now called) ++ latex);
                      completed_step task])
      | Raise e => (Raise (surfaced e), called)
      end
  | Raise e => (Raise (surfaced e), called)
  end.
Proof.
  intros Hin Hs Htask before parsed prompt called. subst called before.
  rewrite langgraph_before_eq.
  unfold LangGraphLatexExecutor.execute, try_except, bind,
    TaskUpdater.update_status, TaskUpdater.add_artifact,
    TaskUpdater.complete, enqueue_event, modify, ret, raise.
  rewrite validate_request_same,
    (validate_request_text context query w Hin Hs).
  unfold lift. rewrite Hin.
  unfold artifact_step, completed_step, working_step.
  unfold task_of in Htask.
  destruct (ctx_current_task context) as [task'|];
    [injection Htask as ->|rewrite Htask];
    cbn -[LatexConverterAgent.convert_to_latex LatexConverterAgent.header
          LatexConverterAgent.prompt_of LatexConverterAgent.parsed_lines
          LatexConverterAgent.strip_code_fences Py.lit];
    rewrite convert_to_latex_eq; fold parsed; fold prompt;
    (destruct (model_generate_content _ prompt) as [raw|e];
     [destruct (LatexConverterAgent.strip_code_fences raw) as [latex|e]|]);
    cbn -[LatexConverterAgent.header LatexConverterAgent.prompt_of
          LatexConverterAgent.parsed_lines Py.lit];
    try (now rewrite <- !app_assoc);
    unfold surfaced; destruct (is_ServerError e); try reflexivity;
    destruct (is_Exception e); reflexivity.
Qed.

(** C2.  When the text of the incoming message is empty or has nothing
    but whitespace, [execute] of either stage raises
    [ServerError(InvalidParamsError)] and leaves the world as it found
    it: no task was published, no event enqueued, no backend invoked. *)
Theorem execute_rejects_blank_input (context : RequestContext) (s : str)
    (w : ServerWorld) :
  get_user_input context = Ok s -> blank s = true ->
  CrewAIQuestionGeneratorExecutor.execute context w
    = (Raise (ServerError InvalidParamsError None), w)
  /\ LangGraphLatexExecutor.execute context w
     = (Raise (ServerError InvalidParamsError None), w).
Proof.
  intros Hin Hs. split.
  - unfold CrewAIQuestionGeneratorExecutor.execute, try_except, bind.
    now rewrite (validate_request_blank context s w Hin Hs).
  - unfold LangGraphLatexExecutor.execute, try_except, bind.
    now rewrite validate_request_same,
      (validate_request_blank context s w Hin Hs).
Qed.

(** C6.  [cancel] of either stage, for any request (with or without a
    current task, in whatever state) and in any world, raises
    [ServerError(UnsupportedOperationError)] and leaves the world as it
    found it. *)
Theorem cancel_is_always_unsupported (context : RequestContext)
    (w : ServerWorld) :
  CrewAIQuestionGeneratorExecutor.cancel context w
    = (Raise (ServerError UnsupportedOperationError None), w)
  /\ LangGraphLatexExecutor.cancel context w
     = (Raise (ServerError UnsupportedOperationError None), w)
  /\ event_queue (snd (CrewAIQuestionGeneratorExecutor.cancel context w))
     = event_queue w
  /\ event_queue (snd (LangGraphLatexExecutor.cancel context w))
     = event_queue w.
Proof. repeat split. Qed.

End ExecutorClaims.

Section OrderClaims.
Import Reading.
Context `{ServerEnv}.

Ltac not_listed :=
  simpl; rewrite ?elem_of_cons, elem_of_nil; intuition discriminate.

(** The states announced before the backend is invoked. *)
Lemma started_states (context : RequestContext) (task : Task) :
  task_of context = Ok task ->
  let announced :=
    match ctx_current_task context with
    | None => [submitted]
    | Some _ => []
    end in
  published_states (event_queue (crewai_started context task))
    = announced ++ [working]
  /\ published_states (event_queue (langgraph_started context task))
     = announced ++ [working; working].
Proof.
  unfold task_of, crewai_started, langgraph_started, creation_steps.
  destruct (ctx_current_task context); intros Htask; simpl;
    rewrite ?(new_task_submitted _ _ Htask); split; reflexivity.
Qed.

(** C3.  On a valid request whose task is resolved (the current task, or
    a new one made by [new_task]) and whose backend call succeeds,
    [execute] publishes, in this order and nothing else: the new task (in
    state [submitted]) when there is no current task; the [working]
    transition with its progress message (twice for stage 2); then the
    backend is invoked; then one artifact holding the result as a single
    text part under the name of the stage; then [completed]. *)
Theorem execute_publishes_in_order (context : RequestContext) (query : str)
    (task : Task) (w : ServerWorld) :
  get_user_input context = Ok query -> Py.strip query <> [] ->
  task_of context = Ok task ->
  let description := QuestionGeneratorAgent.task_description query in
  let parsed := LatexConverterAgent.parsed_lines query in
  let prompt := LatexConverterAgent.prompt_of parsed in
  (ctx_current_task context = None ->
     creation_steps context task = [Enqueued (TaskEvent task)]
     /\ task_state task = submitted)
  /\ (forall questions,
        crew_kickoff (crewai_before context task w) description
          = Ok questions ->
        CrewAIQuestionGeneratorExecutor.execute context w
        = (Ok tt,
           w ++ creation_steps context task
             ++ [working_step task (lit "Generating educational questions...");
                 BackendInvoked description;
                 artifact_step task (lit "generated_questions") questions;
                 completed_step task]))
  /\ (forall raw,
        model_generate_content (langgraph_before context task w) prompt
          = Ok raw ->
        exists latex,
          LatexConverterAgent.strip_code_fences raw = Ok latex
          /\ LangGraphLatexExecutor.execute context w
             = (Ok tt,
                w ++ creation_steps context task
                  ++ [working_step task (lit "Parsing questions...");
                      working_step task (lit "Converting to LaTeX format...");
                      BackendInvoked prompt;
                      artifact_step task (lit "latex_document")
                        (LatexConverterAgent.header (length parsed)
                           (datetime_now
                              (langgraph_before context task w
                                 ++ [BackendInvoked prompt]))
                           ++ latex);
                      completed_step task])).
Proof.
  intros Hin Hs Htask description parsed prompt. split; [|split].
  - intros Hnone. unfold creation_steps. rewrite Hnone.
    split; [reflexivity|].
    unfold task_of in Htask. rewrite Hnone in Htask.
    exact (new_task_submitted _ _ Htask).
  - intros questions Hq.
    rewrite (crewai_execute_eq context query task w Hin Hs Htask). cbv zeta.
    fold description. rewrite Hq.
    unfold crewai_before, crewai_started. now rewrite <- !app_assoc.
  - intros raw Hraw.
    destruct (strip_code_fences_total raw) as [latex Hlatex].
    exists latex. split; [exact Hlatex|].
    rewrite (langgraph_execute_eq context query task w Hin Hs Htask).
    cbv zeta. fold parsed. fold prompt. rewrite Hraw, Hlatex.
    unfold langgraph_before, langgraph_started. now rewrite <- !app_assoc.
Qed.

(** C4 (amended).  On a valid request whose task is resolved and whose
    backend call raises an [Exception] [e] that is not a [ServerError],
    [execute] raises [ServerError(InternalError)] with [e] as its cause;
    nothing is published after the [working] transition: no artifact, no
    [completed] and no [failed] transition. *)
Theorem execute_surfaces_backend_failure (context : RequestContext)
    (query : str) (task : Task) (w : ServerWorld) (e : exn) :
  get_user_input context = Ok query -> Py.strip query <> [] ->
  task_of context = Ok task ->
  is_Exception e = true -> is_ServerError e = false ->
  let description := QuestionGeneratorAgent.task_description query in
  let prompt :=
    LatexConverterAgent.prompt_of (LatexConverterAgent.parsed_lines query) in
  (crew_kickoff (crewai_before context task w) description = Raise e ->
     CrewAIQuestionGeneratorExecutor.execute context w
     = (Raise (ServerError InternalError (Some e)),
        w ++ crewai_started context task ++ [BackendInvoked description]))
  /\ (model_generate_content (langgraph_before context task w) prompt
        = Raise e ->
        LangGraphLatexExecutor.execute context w
        = (Raise (ServerError InternalError (Some e)),
           w ++ langgraph_started context task ++ [BackendInvoked prompt]))
  /\ (failed ∉ published_states
                 (event_queue (crewai_started context task
                                 ++ [BackendInvoked description])))
  /\ (failed ∉ published_states
                 (event_queue (langgraph_started context task
                                 ++ [BackendInvoked prompt]))).
Proof.
  intros Hin Hs Htask He Hse description prompt.
  assert (Hsurf : surfaced e = ServerError InternalError (Some e)).
  { unfold surfaced. now rewrite Hse, He. }
  destruct (started_states context task Htask) as [Hc Hl].
  repeat split.
  - intros Hq. rewrite (crewai_execute_eq context query task w Hin Hs Htask).
    cbv zeta. fold description. rewrite Hq, Hsurf.
    unfold crewai_before. now rewrite <- app_assoc.
  - intros Hq.
    rewrite (langgraph_execute_eq context query task w Hin Hs Htask).
    cbv zeta. fold prompt. rewrite Hq, Hsurf.
    unfold langgraph_before. now rewrite <- app_assoc.
  - unfold event_queue. rewrite omap_app. cbn [omap].
    rewrite app_nil_r. fold (event_queue (crewai_started context task)).
    rewrite Hc. destruct (ctx_current_task context); not_listed.
  - unfold event_queue. rewrite omap_app. cbn [omap].
    rewrite app_nil_r. fold (event_queue (langgraph_started context task)).
    rewrite Hl. destruct (ctx_current_task context); not_listed.
Qed.

End OrderClaims.

(** ** Blank lines and stripping *)

Section Lines.
Import Reading.

Lemma blank_app (s t : str) : blank (s ++ t) = blank s && blank t.
Proof. apply forallb_app. Qed.

Lemma blank_reverse (s : str) : blank (reverse s) = blank s.
Proof.
  induction s as [|c s IH]; [reflexivity|].
  rewrite reverse_cons, blank_app, IH. simpl.
  rewrite andb_true_r. apply andb_comm.
Qed.

(** [lstrip] takes a blank prefix away. *)
Lemma lstrip_prefix (s : str) :
  exists sp, s = sp ++ Py.lstrip s /\ blank sp = true.
Proof.
  induction s as [|c s (sp & Hs & Hsp)]; [now exists []|].
  simpl. destruct (Py.isspace c) eqn:Hc.
  - exists (c :: sp). simpl. rewrite Hc, Hsp. split; [now f_equal|reflexivity].
  - now exists [].
Qed.

(** [rstrip] takes a blank suffix away. *)
Lemma rstrip_suffix (s : str) :
  exists sp, s = Py.rstrip s ++ sp /\ blank sp = true.
Proof.
  destruct (lstrip_prefix (reverse s)) as (sp & Hs & Hsp).
  exists (reverse sp). split; [|now rewrite blank_reverse].
  unfold Py.rstrip. rewrite <- reverse_app, <- Hs.
  now rewrite reverse_involutive.
Qed.

Lemma lstrip_nil_blank (s : str) : Py.lstrip s = [] -> blank s = true.
Proof.
  induction s as [|c s IH]; [reflexivity|]. simpl.
  destruct (Py.isspace c); [exact IH|discriminate].
Qed.

(** A text strips to nothing exactly when it is blank. *)
Lemma strip_nil_iff (s : str) : Py.strip s = [] <-> blank s = true.
Proof.
  split; [|apply strip_blank].
  intros Hs.
  destruct (lstrip_prefix s) as (sp & Heq & Hsp).
  destruct (rstrip_suffix (Py.lstrip s)) as (sp' & Heq' & Hsp').
  fold (Py.strip s) in Heq'. rewrite Hs in Heq'. simpl in Heq'.
  rewrite Heq, blank_app, Hsp, Heq', Hsp'. reflexivity.
Qed.

Lemma pieces_nil (cur : str) :
  pieces cur [] = if blank cur then 0 else 1.
Proof.
  unfold pieces. simpl. rewrite filter_cons, filter_nil.
  rewrite blank_reverse. destruct (blank cur); reflexivity.
Qed.

Lemma pieces_cons (cur : str) (c : N) (s : str) :
  pieces cur (c :: s)
  = if (Py.LF =? c)%N
    then (if blank cur then 0 else 1) + pieces [] s
    else pieces (c :: cur) s.
Proof.
  unfold pieces. cbn [Py.split_go Py.startswith length Nat.sub].
  rewrite andb_true_r.
  destruct (Py.LF =? c)%N; [|reflexivity].
  rewrite filter_cons, blank_reverse. destruct (blank cur); reflexivity.
Qed.

(** Only the blankness of the piece under way matters. *)
Lemma pieces_cur (cur cur' s : str) :
  blank cur = blank cur' -> pieces cur s = pieces cur' s.
Proof.
  revert cur cur'. induction s as [|c s IH]; intros cur cur' Hb.
  - now rewrite !pieces_nil, Hb.
  - rewrite !pieces_cons, Hb.
    destruct (Py.LF =? c)%N; [reflexivity|].
    apply IH. simpl. now rewrite Hb.
Qed.

Lemma pieces_lstrip (s : str) : pieces [] (Py.lstrip s) = pieces [] s.
Proof.
  induction s as [|c s IH]; [reflexivity|]. simpl.
  destruct (Py.isspace c) eqn:Hc; [|reflexivity].
  rewrite IH, pieces_cons.
  destruct (Py.LF =? c)%N; [reflexivity|].
  apply pieces_cur. simpl. now rewrite Hc.
Qed.

Lemma pieces_blank (cur sp : str) :
  blank sp = true -> pieces cur sp = pieces cur [].
Proof.
  revert cur. induction sp as [|c sp IH]; intros cur Hb; [reflexivity|].
  simpl in Hb. apply andb_prop in Hb as [Hc Hsp].
  rewrite pieces_cons.
  destruct (Py.LF =? c)%N.
  - rewrite (IH [] Hsp), !pieces_nil. simpl. now rewrite Nat.add_0_r.
  - rewrite (IH (c :: cur) Hsp), !pieces_nil. simpl. now rewrite Hc.
Qed.

Lemma pieces_app_blank (cur s sp : str) :
  blank sp = true -> pieces cur (s ++ sp) = pieces cur s.
Proof.
  intros Hb. revert cur. induction s as [|c s IH]; intros cur.
  - now apply pieces_blank.
  - simpl. rewrite !pieces_cons, !IH. reflexivity.
Qed.

Lemma pieces_strip (s : str) : pieces [] (Py.strip s) = pieces [] s.
Proof.
  destruct (rstrip_suffix (Py.lstrip s)) as (sp & Heq & Hsp).
  transitivity (pieces [] (Py.rstrip (Py.lstrip s) ++ sp)).
  - symmetry. now apply pieces_app_blank.
  - rewrite <- Heq. apply pieces_lstrip.
Qed.

(** The count of node 1 is the number of non-blank lines of its input. *)
Lemma parsed_lines_count (questions : str) :
  length (LatexConverterAgent.parsed_lines questions)
  = length (non_blank_lines questions).
Proof.
  unfold LatexConverterAgent.parsed_lines, non_blank_lines.
  rewrite length_fmap.
  rewrite (list_filter_iff _ (fun line => blank line = false)).
  - apply (pieces_strip questions).
  - intros line. rewrite truthy_true_iff, strip_nil_iff.
    destruct (blank line); split; congruence.
Qed.

End Lines.

Lemma startswith_prefix (p t : str) : Py.startswith p (p ++ t) = true.
Proof.
  induction p as [|a p IH]; [reflexivity|].
  simpl. now rewrite N.eqb_refl.
Qed.

(** What [strip] keeps lies inside the text. *)
Lemma strip_infix (s : str) :
  exists sp sp', s = sp ++ Py.strip s ++ sp'
                 /\ Reading.blank sp = true /\ Reading.blank sp' = true.
Proof.
  destruct (lstrip_prefix s) as (sp & Hs & Hsp).
  destruct (rstrip_suffix (Py.lstrip s)) as (sp' & Hs' & Hsp').
  exists sp, sp'. unfold Py.strip. now rewrite <- Hs', <- Hs.
Qed.

Lemma contains_strip (sep s : str) :
  Py.contains sep (Py.strip s) = true -> Py.contains sep s = true.
Proof.
  intros Hc. destruct (strip_infix s) as (sp & sp' & Hs & _).
  rewrite Hs. apply contains_app_r. now apply contains_app_l.
Qed.

(** The first piece of a split lies before the first separator. *)
Lemma split_go_first (sep cur s a : str) (rest : list str) :
  sep <> [] ->
  Py.split_go sep 0 cur s = a :: rest ->
  exists p t, a = reverse cur ++ p /\ s = p ++ t
              /\ Py.contains sep p = false.
Proof.
  intros Hsep. revert cur. induction s as [|c s IH]; intros cur Heq.
  - simpl in Heq. injection Heq as <- _. exists [], [].
    rewrite app_nil_r. repeat split. simpl.
    destruct sep; [now destruct Hsep|reflexivity].
  - cbn [Py.split_go] in Heq.
    destruct (Py.startswith sep (c :: s)) eqn:Hst.
    + injection Heq as <- _. exists [], (c :: s).
      rewrite app_nil_r. repeat split. simpl.
      destruct sep; [now destruct Hsep|reflexivity].
    + destruct (IH _ Heq) as (p & t & -> & -> & Hp).
      exists (c :: p), t. rewrite reverse_cons, <- app_assoc.
      repeat split. cbn [Py.contains]. rewrite Hp, orb_false_r.
      destruct (Py.startswith sep (c :: p)) eqn:Hcp; [|reflexivity].
      apply (startswith_app _ _ t) in Hcp. simpl in Hcp, Hst. congruence.
Qed.

Lemma getitem_0_split_clean (sep s a : str) :
  sep <> [] ->
  LatexConverterAgent.getitem (Py.split sep s) 0 = Ok a ->
  Py.contains sep a = false.
Proof.
  intros Hsep. unfold LatexConverterAgent.getitem, Py.split.
  destruct (Py.split_go sep 0 [] s) as [|a' rest] eqn:E; [discriminate|].
  intros [= <-].
  destruct (split_go_first sep [] s a' rest Hsep E) as (p & t & -> & _ & Hp).
  exact Hp.
Qed.

Lemma lstrip_idem (s : str) : Py.lstrip (Py.lstrip s) = Py.lstrip s.
Proof.
  induction s as [|c s IH]; [reflexivity|]. simpl.
  destruct (Py.isspace c) eqn:Hc; [exact IH|]. simpl. now rewrite Hc.
Qed.

(** What [lstrip] returns is empty or begins with a visible character. *)
Lemma lstrip_head (s : str) :
  Py.lstrip s = []
  \/ exists c t, Py.lstrip s = c :: t /\ Py.isspace c = false.
Proof.
  induction s as [|c s IH]; [now left|]. simpl.
  destruct (Py.isspace c) eqn:Hc; [exact IH|]. right. eauto.
Qed.

Lemma lstrip_visible (c : N) (t : str) :
  Py.isspace c = false -> Py.lstrip (c :: t) = c :: t.
Proof. intros Hc. simpl. now rewrite Hc. Qed.

Lemma lstrip_snoc_visible (s : str) (c : N) :
  Py.isspace c = false -> exists u, Py.lstrip (s ++ [c]) = u ++ [c].
Proof.
  intros Hc. induction s as [|d s IH].
  - exists []. simpl. now rewrite Hc.
  - simpl. destruct (Py.isspace d); [exact IH|]. now exists (d :: s).
Qed.

(** What [strip] returns is empty, or begins and ends with a visible
    character. *)
Lemma strip_ends (s : str) :
  Py.strip s = []
  \/ exists c t u d,
       Py.strip s = c :: t /\ Py.strip s = u ++ [d]
       /\ Py.isspace c = false /\ Py.isspace d = false.
Proof.
  unfold Py.strip.
  destruct (lstrip_head s) as [->|(c & t & -> & Hc)]; [now left|].
  right.
  destruct (lstrip_snoc_visible (reverse t) c Hc) as [u Hu].
  assert (Hr : Py.rstrip (c :: t) = c :: reverse u).
  { unfold Py.rstrip. rewrite reverse_cons, Hu, reverse_app. reflexivity. }
  rewrite Hr.
  destruct (lstrip_head (reverse t ++ [c])) as [Hnil|(d & v & Hd & Hdv)].
  - rewrite Hu in Hnil. now destruct u.
  - rewrite Hu in Hd. destruct u as [|d' u'].
    + injection Hd as <- _. exists c, [], [], c. now repeat split.
    + injection Hd as -> _.
      exists c, (reverse (d :: u')), (c :: reverse u'), d.
      repeat split; try assumption.
      now rewrite reverse_cons.
Qed.

Lemma rstrip_snoc_visible (u : str) (d : N) :
  Py.isspace d = false -> Py.rstrip (u ++ [d]) = u ++ [d].
Proof.
  intros Hd. unfold Py.rstrip. rewrite reverse_app. simpl.
  rewrite Hd. change (d :: reverse u) with ([d] ++ reverse u).
  now rewrite reverse_app, reverse_involutive.
Qed.

(** A text that begins and ends with a visible character is its own
    [strip]. *)
Lemma strip_fixed (c d : N) (t u : str) :
  c :: t = u ++ [d] -> Py.isspace c = false -> Py.isspace d = false ->
  Py.strip (c :: t) = c :: t.
Proof.
  intros Heq Hc Hd. unfold Py.strip.
  rewrite (lstrip_visible c t Hc), Heq. now apply rstrip_snoc_visible.
Qed.

Lemma strip_idem (s : str) : Py.strip (Py.strip s) = Py.strip s.
Proof.
  destruct (strip_ends s) as [->|(c & t & u & d & Hct & Hud & Hc & Hd)];
    [reflexivity|].
  rewrite Hct. apply (strip_fixed c d t u); [congruence|assumption..].
Qed.

Lemma lit_fence_not_nil : lit "```" <> [].
Proof. discriminate. Qed.

Lemma lit_latex_fence_not_nil : lit "```latex" <> [].
Proof. discriminate. Qed.

(** The clean-up of the model's reply never raises, what it returns holds
    no code fence, and a reply without a fence is passed on untouched. *)
Lemma strip_code_fences_clean (raw : str) :
  exists latex,
    LatexConverterAgent.strip_code_fences raw = Ok latex
    /\ Py.contains (lit "```") latex = false
    /\ (Py.contains (lit "```") raw = false -> latex = raw).
Proof.
  unfold LatexConverterAgent.strip_code_fences.
  assert (Hinner : forall after,
    exists inner,
      LatexConverterAgent.getitem (Py.split (lit "```") after) 0 = Ok inner
      /\ Py.contains (lit "```") (Py.strip inner) = false).
  { intros after.
    destruct (getitem_0_split (lit "```") after) as [inner Hinner].
    exists inner. split; [exact Hinner|].
    destruct (Py.contains (lit "```") (Py.strip inner)) eqn:Hc; [|reflexivity].
    apply contains_strip in Hc.
    now rewrite (getitem_0_split_clean _ _ _ lit_fence_not_nil Hinner) in Hc. }
  destruct (Py.contains (lit "```latex") raw) eqn:E1.
  - destruct (getitem_1_split (lit "```latex") raw lit_latex_fence_not_nil E1)
      as [after ->].
    destruct (Hinner after) as (inner & -> & Hclean).
    exists (Py.strip inner). split; [reflexivity|]. split; [exact Hclean|].
    intros Hraw.
    assert (Py.contains (lit "```") raw = true); [|congruence].
    clear -E1. induction raw as [|c raw IH]; [discriminate|].
    cbn [Py.contains] in *. apply orb_prop in E1 as [E1|E1].
    + apply orb_true_intro. left.
      change (lit "```latex") with (lit "```" ++ lit "latex") in E1.
      clear IH. revert E1. generalize (c :: raw). intros s.
      generalize (lit "latex"). generalize (lit "```").
      intros p. revert s. induction p as [|a p IHp]; intros s q; [reflexivity|].
      destruct s as [|b s]; simpl; [discriminate|].
      intros [-> Hp]%andb_prop. simpl. now apply (IHp s q).
    + rewrite (IH E1). apply orb_true_r.
  - destruct (Py.contains (lit "```") raw) eqn:E2.
    + destruct (getitem_1_split (lit "```") raw lit_fence_not_nil E2)
        as [after ->].
      destruct (Hinner after) as (inner & -> & Hclean).
      exists (Py.strip inner). split; [reflexivity|].
      split; [exact Hclean|discriminate].
    + exists raw. split; [reflexivity|]. split; [exact E2|reflexivity].
Qed.

Lemma contains_startswith (p s : str) :
  Py.startswith p s = true -> Py.contains p s = true.
Proof. intros Hp. destruct s; simpl; now rewrite Hp. Qed.

(** The characters of a matched separator are passed over. *)
Lemma split_go_skip (sep p cur s : str) :
  Py.split_go sep (length p) cur (p ++ s) = Py.split_go sep 0 cur s.
Proof. induction p as [|c p IH]; [now destruct s|exact IH]. Qed.

(** A stretch without the first character of the separator has no
    separator. *)
Lemma split_go_free (b : N) (sep x cur s : str) :
  b ∉ x ->
  Py.split_go (b :: sep) 0 cur (x ++ s)
  = Py.split_go (b :: sep) 0 (reverse x ++ cur) s.
Proof.
  revert cur. induction x as [|c x IH]; intros cur Hx; [reflexivity|].
  rewrite not_elem_of_cons in Hx. destruct Hx as [Hc Hx].
  change ((c :: x) ++ s) with (c :: (x ++ s)).
  cbn [Py.split_go Py.startswith].
  assert ((b =? c)%N = false) as -> by now apply N.eqb_neq.
  cbn [andb]. rewrite (IH _ Hx), reverse_cons, <- app_assoc. reflexivity.
Qed.

(** A reply that is nothing but a fenced block, [```latex ... ```], is
    reduced to the stripped text between the fences. *)
Lemma strip_code_fences_fenced (inner : str) :
  96%N ∉ inner ->
  LatexConverterAgent.strip_code_fences
    (lit "```latex" ++ inner ++ lit "```")
  = Ok (Py.strip inner).
Proof.
  intros Hfree. unfold LatexConverterAgent.strip_code_fences.
  rewrite (contains_startswith _ _ (startswith_prefix _ _)).
  assert (Hsplit : Py.split (lit "```latex")
                     (lit "```latex" ++ inner ++ lit "```")
                   = [[]; inner ++ lit "```"]).
  { unfold Py.split.
    change (lit "```latex") with (96%N :: lit "``latex") at 2.
    change ((96%N :: lit "``latex") ++ inner ++ lit "```")
      with (96%N :: (lit "``latex" ++ inner ++ lit "```")).
    cbn [Py.split_go].
    change (96%N :: (lit "``latex" ++ inner ++ lit "```"))
      with (lit "```latex" ++ inner ++ lit "```").
    rewrite startswith_prefix.
    change (length (lit "```latex") - 1) with (length (lit "``latex")).
    rewrite split_go_skip.
    change (lit "```latex") with (96%N :: lit "``latex").
    rewrite (split_go_free _ _ _ _ _ Hfree), app_nil_r.
    vm_compute (lit _).
    cbn [Py.split_go Py.startswith N.eqb Pos.eqb andb].
    rewrite !reverse_cons, reverse_involutive, <- !app_assoc.
    reflexivity. }
  rewrite Hsplit. cbn [LatexConverterAgent.getitem lookup list_lookup].
  assert (Hinner : Py.split (lit "```") (inner ++ lit "```")
                   = [inner; []]).
  { unfold Py.split.
    change (lit "```") with (96%N :: lit "``") at 1.
    rewrite (split_go_free _ _ _ _ _ Hfree), app_nil_r.
    vm_compute (lit _).
    cbn [Py.split_go Py.startswith N.eqb Pos.eqb andb length Nat.sub].
    now rewrite reverse_involutive. }
  rewrite Hinner. reflexivity.
Qed.

Section ConverterClaims.
Import Reading LatexConverterAgent.
Context `{ServerEnv}.

(** C9 (amended).  Stage 2 puts the non-blank lines of its input, stripped
    and joined by newlines, into the prompt for its model, under
    "Questions:".  It returns the model's reply after the clean-up of code
    fences, behind a comment header of four lines and a blank line that
    states the number of non-blank input lines and the time.  The cleaned
    reply holds no code fence; it is the reply itself when that has no
    fence, and the stripped text between the fences when the reply is
    nothing but a fenced block.  So what stage 2 returns ends with whatever
    the cleaned reply ends with and contains whatever the cleaned reply
    contains: whether a document follows the header, and whether it lists
    the questions, is decided by the model's reply.  In the scenario where
    stage 1 answers with the five-line list, the message submitted to
    stage 2 carries exactly these five lines, and stage 2 parses them into
    the five questions. *)
Theorem convert_to_latex_prepends_header (questions : str) (w : ServerWorld)
    (raw : str) :
  let parsed := parsed_lines questions in
  let prompt := prompt_of parsed in
  let w' := w ++ [BackendInvoked prompt] in
  let count := length (non_blank_lines questions) in
  let heading :=
    lit "% Generated by LangGraph A2A Agent" ++ [Py.LF]
    ++ lit "% Questions Count: " ++ Py.str_of_nat count ++ [Py.LF]
    ++ lit "% Generator: Gemini 2.0 Flash" ++ [Py.LF]
    ++ lit "% Timestamp: " ++ datetime_now w' ++ [Py.LF]
    ++ [Py.LF] in
  model_generate_content w prompt = Ok raw ->
  exists latex requirements,
    strip_code_fences raw = Ok latex
    /\ length parsed = count
    /\ prompt
       = lit "Convert the following questions into a professional LaTeX document."
         ++ [Py.LF] ++ [Py.LF] ++ lit "Questions:" ++ [Py.LF]
         ++ Py.join [Py.LF] parsed
         ++ [Py.LF] ++ [Py.LF] ++ lit "Requirements:" ++ requirements
    /\ convert_to_latex questions w = (Ok (heading ++ latex), w')
    /\ Py.contains (lit "```") latex = false
    /\ (Py.contains (lit "```") raw = false -> latex = raw)
    /\ (forall inner,
          96%N ∉ inner -> raw = lit "```latex" ++ inner ++ lit "```" ->
          latex = Py.strip inner)
    /\ (forall marker,
          Py.endswith marker latex = true ->
          Py.endswith marker (heading ++ latex) = true)
    /\ (forall item,
          Py.contains item latex = true ->
          Py.contains item (heading ++ latex) = true)
    /\ parsed_lines Scenario.five_lines = Scenario.five_questions
    /\ match last (net_calls
                    (snd (@ClientAgent.run_workflow Scenario.pipeline
                            Scenario.topic [] Scenario.crewai_url
                            Scenario.langgraph_url false Scenario.w0))) with
       | Some (SendMessage url _ request) =>
           url = Scenario.langgraph_url
           /\ request_texts request = Some [Some Scenario.five_lines]
       | _ => False
       end.
Proof.
  intros parsed prompt w' count heading Hraw.
  destruct (strip_code_fences_clean raw)
    as (latex & Hlatex & Hclean & Hsame).
  exists latex. eexists.
  split; [exact Hlatex|].
  split; [apply parsed_lines_count|].
  split.
  { subst prompt. unfold prompt_of. cbn [Py.join].
    rewrite <- !app_assoc. reflexivity. }
  split.
  { rewrite convert_to_latex_eq. cbv zeta. fold parsed. fold prompt.
    rewrite Hraw, Hlatex. subst heading count.
    rewrite <- parsed_lines_count. fold parsed.
    unfold header. rewrite <- !app_assoc. reflexivity. }
  split; [exact Hclean|]. split; [exact Hsame|]. split.
  { intros inner Hfree ->.
    rewrite (strip_code_fences_fenced inner Hfree) in Hlatex.
    now injection Hlatex. }
  split; [intros marker; apply endswith_app|].
  split; [intros item; apply contains_app_r|].
  split; [vm_compute; reflexivity|].
  vm_compute. split; reflexivity.
Qed.

End ConverterClaims.

(** ** The server claims on concrete runs *)

Section ServerRuns.
Import Reading Scenario.

Lemma execute_rejects_blank_input_witness :
  @CrewAIQuestionGeneratorExecutor.execute healthy (request (lit "  ")) []
    = (Raise (ServerError InvalidParamsError None), [])
  /\ @LangGraphLatexExecutor.execute healthy (request (lit "  ")) []
     = (Raise (ServerError InvalidParamsError None), []).
Proof.
  exact (@execute_rejects_blank_input healthy (request (lit "  ")) (lit "  ")
           [] eq_refl eq_refl).
Defined.

Lemma topic_not_blank : Py.strip topic <> [].
Proof. vm_compute. discriminate. Defined.

Lemma execute_publishes_in_order_witness :
  event_queue (snd (@CrewAIQuestionGeneratorExecutor.execute healthy
                      (request topic) []))
  = [TaskEvent (first_task topic);
     TaskStatusUpdateEvent (lit "task-1") (lit "ctx-1") working
       (Some (mkMessage agent
                [text_part (lit "Generating educational questions...")]
                (lit "progress") (Some (lit "task-1")) (Some (lit "ctx-1"))));
     TaskArtifactUpdateEvent (lit "task-1") (lit "ctx-1")
       (lit "generated_questions") [text_part five_lines];
     TaskStatusUpdateEvent (lit "task-1") (lit "ctx-1") completed None].
Proof.
  destruct (@execute_publishes_in_order healthy (request topic) topic
              (first_task topic) [] eq_refl topic_not_blank eq_refl)
    as (_ & Hcrew & _).
  rewrite (Hcrew five_lines eq_refl). reflexivity.
Defined.

Lemma execute_surfaces_backend_failure_witness :
  @CrewAIQuestionGeneratorExecutor.execute broken (request topic) []
  = (Raise (ServerError InternalError (Some quota_error)),
     @crewai_started broken (request topic) (first_task topic)
       ++ [BackendInvoked (QuestionGeneratorAgent.task_description topic)]).
Proof.
  exact (proj1 (@execute_surfaces_backend_failure broken (request topic)
                  topic (first_task topic) [] quota_error eq_refl
                  topic_not_blank eq_refl eq_refl eq_refl) eq_refl).
Defined.

(** C4 as worded fails: the backend raises, [execute] raises, and the
    events on the queue announce [submitted] and [working] only. *)
Lemma task_advances_to_failed_fails :
  ~ AsStated.task_advances_to_failed
      (@CrewAIQuestionGeneratorExecutor.execute broken) (request topic) []
  /\ ~ AsStated.task_advances_to_failed
         (@LangGraphLatexExecutor.execute broken) (request topic) [].
Proof.
  unfold AsStated.task_advances_to_failed. split; intros Hin;
    vm_compute in Hin;
    repeat (apply elem_of_cons in Hin as [Hin|Hin]; [discriminate Hin|]);
    now apply elem_of_nil in Hin.
Qed.

Lemma convert_to_latex_prepends_header_witness :
  fst (@LatexConverterAgent.convert_to_latex fenced five_lines [])
  = Ok (LatexConverterAgent.header 5 (lit "2025-01-01 12:00:00")
          ++ latex_document)
  /\ Py.endswith (lit "\end{document}")
       (LatexConverterAgent.header 5 (lit "2025-01-01 12:00:00")
          ++ latex_document) = true
  /\ Py.contains (lit "\item What is machine learning?")
       (LatexConverterAgent.header 5 (lit "2025-01-01 12:00:00")
          ++ latex_document) = true.
Proof.
  destruct (@convert_to_latex_prepends_header fenced five_lines []
              fenced_reply eq_refl)
    as (latex & requirements & _ & _ & _ & Hrun & _ & _ & Hfenced & Hend
        & Hitem & _).
  assert (Hlatex : latex = latex_document).
  { rewrite (Hfenced ([Py.LF] ++ latex_document ++ [Py.LF])
               ltac:(apply (bool_decide_unpack
                             (96%N ∉ [Py.LF] ++ latex_document ++ [Py.LF]));
                     vm_compute; exact I) eq_refl).
    vm_compute. reflexivity. }
  subst latex. cbv zeta in Hrun, Hend, Hitem.
  split; [|split].
  - rewrite Hrun. vm_compute. reflexivity.
  - generalize (Hend (lit "\end{document}") ltac:(vm_compute; reflexivity)).
    vm_compute. exact (fun Heq => Heq).
  - generalize (Hitem (lit "\item What is machine learning?")
                  ltac:(vm_compute; reflexivity)).
    vm_compute. exact (fun Heq => Heq).
Defined.

(** C9 as worded fails: the model answers in prose, and what stage 2
    returns is the header followed by that answer.  It does not end with a
    document-closing marker, holds no document-opening marker anywhere
    (not behind the header either) and has no list item. *)
Lemma stage2_returns_document_fails :
  (exists document,
     fst (@LatexConverterAgent.convert_to_latex declining five_lines [])
       = Ok document
     /\ AsStated.ends_with_closing_marker document = false
     /\ AsStated.has_list_items document = false
     /\ Py.contains (lit "\documentclass") document = false
     /\ Py.contains (lit "\begin{document}") document = false)
  /\ ~ @AsStated.stage2_returns_document declining five_lines [].
Proof.
  split.
  - eexists. split; [vm_compute; reflexivity|].
    repeat split; vm_compute; reflexivity.
  - intros (document & Hdoc & _ & Hend & _).
    vm_compute in Hdoc. injection Hdoc as <-.
    vm_compute in Hend. discriminate Hend.
Qed.

End ServerRuns.

Section WorkflowRuns.
Import A2ARemoteAgentTool ClientAgent Reading Scenario.

Lemma run_workflow_sequential_witness :
  fst (@run_workflow pipeline topic [] crewai_url langgraph_url false w0)
    = Ok latex_reply
  /\ call_url <$> net_calls
       (snd (@run_workflow pipeline topic [] crewai_url langgraph_url false w0))
     = [crewai_url; crewai_url; langgraph_url; langgraph_url].
Proof.
  pose proof (@run_workflow_sequential pipeline topic [] crewai_url
                langgraph_url false w0) as Hseq.
  cbv zeta in Hseq.
  destruct (@run pipeline
              (init crewai_url (lit "generate_questions")
                 (Some (lit "Generates educational questions about a given topic")))
              topic default_timeout None None w0)
    as [[questions|e] w1] eqn:Hstage1;
    vm_compute in Hstage1; [|discriminate Hstage1].
  injection Hstage1 as <- <-.
  destruct Hseq as (Hrun & Hcalls & _).
  split.
  - rewrite Hrun. vm_compute. reflexivity.
  - rewrite Hcalls. vm_compute. reflexivity.
Defined.

End WorkflowRuns.

(** * Further properties of the code *)

(** ** More on Python strings *)

(** ** More on the LaTeX converter *)

(** X1.  The clean-up of the model's reply never raises (the indexing
    [[1]] and [[0]] is always in range), its result contains no code fence,
    and a reply without a fence is passed on untouched. *)
Theorem strip_code_fences_fence_free (raw : str) :
  exists latex,
    LatexConverterAgent.strip_code_fences raw = Ok latex
    /\ Py.contains (lit "```") latex = false
    /\ (Py.contains (lit "```") raw = false -> latex = raw).
Proof. exact (strip_code_fences_clean raw). Qed.

Section ConverterExtras.
Import Reading LatexConverterAgent.
Context `{ServerEnv}.

(** X2.  The workflow of stage 2 invokes the model exactly once, with the
    prompt built from the parsed questions, and fails exactly when that
    call fails, with the error of the call: reading the metadata and
    cleaning the reply never fail. *)
Theorem convert_to_latex_fails_with_model (questions : str) (w : ServerWorld) :
  let prompt := prompt_of (parsed_lines questions) in
  snd (convert_to_latex questions w) = w ++ [BackendInvoked prompt]
  /\ (forall e,
        fst (convert_to_latex questions w) = Raise e
        <-> model_generate_content w prompt = Raise e)
  /\ (forall raw,
        model_generate_content w prompt = Ok raw ->
        exists document, fst (convert_to_latex questions w) = Ok document).
Proof.
  intros prompt. rewrite convert_to_latex_eq. cbv zeta. fold prompt.
  destruct (model_generate_content w prompt) as [raw|e0].
  - destruct (strip_code_fences_total raw) as [latex ->].
    repeat split; try discriminate. intros raw' _. eauto.
  - repeat split; try (intros [= ->]; reflexivity). discriminate.
Qed.

End ConverterExtras.

Lemma elem_of_strip (x : N) (s : str) : x ∈ Py.strip s -> x ∈ s.
Proof.
  intros Hx. destruct (strip_infix s) as (sp & sp' & Hs & _).
  rewrite Hs, !elem_of_app. auto.
Qed.

Lemma split_go_no_newline (cur s : str) :
  Py.LF ∉ cur ->
  Forall (fun piece => Py.LF ∉ piece) (Py.split_go [Py.LF] 0 cur s).
Proof.
  revert cur. induction s as [|c s IH]; intros cur Hcur.
  - simpl. constructor; [|constructor]. now rewrite elem_of_reverse.
  - cbn [Py.split_go Py.startswith length Nat.sub].
    rewrite andb_true_r. destruct (Py.LF =? c)%N eqn:Hc.
    + constructor; [now rewrite elem_of_reverse|].
      apply IH. apply not_elem_of_nil.
    + apply IH. rewrite elem_of_cons. intros [Heq|Hin]; [|now apply Hcur].
      apply N.eqb_neq in Hc. congruence.
Qed.

Lemma parsed_lines_forall (questions : str) :
  Forall (fun line => line <> [] /\ Py.strip line = line /\ Py.LF ∉ line)
         (LatexConverterAgent.parsed_lines questions).
Proof.
  unfold LatexConverterAgent.parsed_lines, Py.split.
  apply Forall_fmap, Forall_forall. intros line Hline.
  apply list_elem_of_filter in Hline as [Hvisible Hin]. cbn.
  split; [now apply truthy_true_iff|]. split; [apply strip_idem|].
  intros Hlf. apply elem_of_strip in Hlf.
  pose proof (split_go_no_newline [] (Py.strip questions)
                (not_elem_of_nil _)) as Hall.
  rewrite Forall_forall in Hall. exact (Hall line Hin Hlf).
Qed.

(** X3.  Every question [parse_questions] keeps is non-empty, has no
    whitespace at either end and holds no newline. *)
Theorem parsed_lines_are_clean (questions : str) :
  Forall (fun line => line <> [] /\ Py.strip line = line /\ Py.LF ∉ line)
         (LatexConverterAgent.parsed_lines questions).
Proof. exact (parsed_lines_forall questions). Qed.

Lemma pieces_zero (cur s : str) :
  Reading.pieces cur s = 0
  <-> Reading.blank cur = true /\ Reading.blank s = true.
Proof.
  revert cur. induction s as [|c s IH]; intros cur.
  - rewrite pieces_nil. destruct (Reading.blank cur); simpl; intuition congruence.
  - rewrite pieces_cons. destruct (Py.LF =? c)%N eqn:Hc.
    + apply N.eqb_eq in Hc. subst c.
      change (Reading.blank (Py.LF :: s)) with (Reading.blank s).
      specialize (IH []).
      destruct (Reading.blank cur); simpl.
      * rewrite IH. intuition.
      * intuition congruence.
    + rewrite IH. cbn [Reading.blank forallb].
      fold (Reading.blank cur). fold (Reading.blank s).
      rewrite !andb_true_iff. intuition.
Qed.

(** X4.  [parse_questions] finds no question exactly when its input is
    blank (empty or whitespace only). *)
Theorem parsed_lines_nil_iff_blank (questions : str) :
  LatexConverterAgent.parsed_lines questions = []
  <-> Reading.blank questions = true.
Proof.
  rewrite <- length_zero_iff_nil, parsed_lines_count.
  change (length (Reading.non_blank_lines questions))
    with (Reading.pieces [] questions).
  rewrite pieces_zero. simpl. intuition.
Qed.

Lemma split_go_visible (x cur rest : str) :
  Py.LF ∉ x ->
  Py.split_go [Py.LF] 0 cur (x ++ rest)
  = Py.split_go [Py.LF] 0 (reverse x ++ cur) rest.
Proof.
  revert cur. induction x as [|c x IH]; intros cur Hx; [reflexivity|].
  rewrite not_elem_of_cons in Hx. destruct Hx as [Hc Hx].
  change ((c :: x) ++ rest) with (c :: (x ++ rest)).
  cbn [Py.split_go Py.startswith]. rewrite andb_true_r.
  assert ((Py.LF =? c)%N = false) as -> by now apply N.eqb_neq.
  rewrite (IH _ Hx), reverse_cons, <- app_assoc. reflexivity.
Qed.

Lemma split_go_join (x cur : str) (l : list str) :
  Forall (fun p => Py.LF ∉ p) (x :: l) ->
  Py.split_go [Py.LF] 0 cur (Py.join [Py.LF] (x :: l))
  = (reverse cur ++ x) :: l.
Proof.
  revert x cur. induction l as [|y l IH]; intros x cur Hall.
  - apply Forall_cons in Hall as [Hx _].
    cbn [Py.join]. rewrite <- (app_nil_r x) at 1.
    rewrite (split_go_visible x cur [] Hx). simpl.
    now rewrite reverse_app, reverse_involutive.
  - apply Forall_cons in Hall as [Hx Hall].
    change (Py.join [Py.LF] (x :: y :: l))
      with (x ++ Py.LF :: Py.join [Py.LF] (y :: l)).
    rewrite (split_go_visible x cur _ Hx).
    cbn [Py.split_go Py.startswith length Nat.sub]. rewrite N.eqb_refl.
    cbn [andb]. rewrite (IH y [] Hall).
    now rewrite reverse_app, reverse_involutive.
Qed.

Lemma join_ends_visible (x : str) (l : list str) :
  Forall (fun p => p <> [] /\ Py.strip p = p) (x :: l) ->
  exists u d, Py.join [Py.LF] (x :: l) = u ++ [d] /\ Py.isspace d = false.
Proof.
  revert x. induction l as [|y l IH]; intros x Hall.
  - apply Forall_cons in Hall as [[Hne Hx] _]. cbn [Py.join].
    destruct (strip_ends x) as [Hnil|(c & t & u & d & _ & Hud & _ & Hd)].
    + rewrite Hx in Hnil. contradiction.
    + rewrite Hx in Hud. eauto.
  - apply Forall_cons in Hall as [_ Hall].
    destruct (IH y Hall) as (u & d & Hj & Hd).
    exists (x ++ Py.LF :: u), d. split; [|exact Hd].
    change (Py.join [Py.LF] (x :: y :: l))
      with (x ++ Py.LF :: Py.join [Py.LF] (y :: l)).
    rewrite Hj, <- app_assoc. reflexivity.
Qed.

Lemma strip_join_clean (ps : list str) :
  Forall (fun p => p <> [] /\ Py.strip p = p) ps ->
  Py.strip (Py.join [Py.LF] ps) = Py.join [Py.LF] ps.
Proof.
  intros Hall. destruct ps as [|x l]; [reflexivity|].
  destruct (join_ends_visible x l Hall) as (u & d & Hj & Hd).
  pose proof Hall as Hx. apply Forall_cons in Hx as [[Hne Hx] _].
  destruct (strip_ends x) as [Hnil|(c & t & _ & _ & Hct & _ & Hc & _)].
  { rewrite Hx in Hnil. contradiction. }
  rewrite Hx in Hct.
  assert (Hhead : exists t', Py.join [Py.LF] (x :: l) = c :: t').
  { destruct l; cbn [Py.join]; rewrite Hct; simpl; eauto. }
  destruct Hhead as [t' Hhead]. rewrite Hhead.
  apply (strip_fixed c d t' u); [congruence|assumption..].
Qed.

Lemma keep_clean_lines (ps : list str) :
  Forall (fun p => p <> [] /\ Py.strip p = p) ps ->
  Py.strip <$> filter (fun line => Py.truthy (Py.strip line) = true) ps = ps.
Proof.
  induction 1 as [|p ps [Hne Hp] _ IH]; [reflexivity|].
  rewrite filter_cons. rewrite decide_True.
  - rewrite fmap_cons, IH, Hp. reflexivity.
  - rewrite Hp. now apply truthy_true_iff.
Qed.

(** X5.  The questions block of the prompt reads back: joined by newlines
    and split at newlines, the parsed questions come back as they were;
    and parsing the joined questions again changes nothing. *)
Theorem parsed_lines_round_trip (questions : str) :
  let parsed := LatexConverterAgent.parsed_lines questions in
  (parsed <> [] -> Py.split [Py.LF] (Py.join [Py.LF] parsed) = parsed)
  /\ LatexConverterAgent.parsed_lines (Py.join [Py.LF] parsed) = parsed.
Proof.
  intros parsed.
  pose proof (parsed_lines_forall questions) as Hall. fold parsed in Hall.
  assert (Hnl : Forall (fun p => Py.LF ∉ p) parsed)
    by (eapply Forall_impl; [exact Hall|]; cbn; tauto).
  assert (Hclean : Forall (fun p => p <> [] /\ Py.strip p = p) parsed)
    by (eapply Forall_impl; [exact Hall|]; cbn; tauto).
  assert (Hsplit : parsed <> [] ->
            Py.split [Py.LF] (Py.join [Py.LF] parsed) = parsed).
  { destruct parsed as [|x l]; [congruence|]. intros _.
    unfold Py.split. now rewrite (split_go_join x [] l Hnl). }
  split; [exact Hsplit|].
  unfold LatexConverterAgent.parsed_lines at 1.
  rewrite (strip_join_clean parsed Hclean).
  destruct parsed as [|x l] eqn:Hp; [reflexivity|].
  rewrite Hsplit by discriminate.
  now apply keep_clean_lines.
Qed.

(** ** More on the executors *)

Section ExecutorExtras.
Import Reading Observing.
Context `{ServerEnv}.

Lemma validate_request_unreadable (context : RequestContext) (e : exn)
    (w : ServerWorld) :
  get_user_input context = Raise e ->
  CrewAIQuestionGeneratorExecutor._validate_request context w
  = (if is_Exception e then Ok true else Raise e, w).
Proof.
  intros Hin.
  unfold CrewAIQuestionGeneratorExecutor._validate_request,
    try_except, bind, lift.
  rewrite Hin. now destruct (is_Exception e).
Qed.

(** X6.  When reading the user input itself raises an [Exception],
    [execute] of either stage answers as for blank input:
    [ServerError(InvalidParamsError)], nothing published, no backend call;
    the original error is dropped.  An error that is no [Exception]
    (a cancellation, an interrupt) leaves [execute] as it is. *)
Theorem execute_rejects_unreadable_input (context : RequestContext) (e : exn)
    (w : ServerWorld) :
  get_user_input context = Raise e ->
  let answer :=
    if is_Exception e then ServerError InvalidParamsError None else e in
  CrewAIQuestionGeneratorExecutor.execute context w = (Raise answer, w)
  /\ LangGraphLatexExecutor.execute context w = (Raise answer, w).
Proof.
  intros Hin answer. subst answer. split.
  - unfold CrewAIQuestionGeneratorExecutor.execute, try_except, bind.
    rewrite (validate_request_unreadable context e w Hin).
    destruct e; reflexivity.
  - unfold LangGraphLatexExecutor.execute, try_except, bind.
    rewrite validate_request_same,
      (validate_request_unreadable context e w Hin).
    destruct e; reflexivity.
Qed.

(** X7.  On a valid request whose task is resolved, a [ServerError]
    raised by the backend, and an error that is no [Exception], leave
    [execute] unchanged: they are not wrapped as [InternalError].  Nothing
    is published after the backend call. *)
Theorem execute_passes_server_errors (context : RequestContext) (query : str)
    (task : Task) (w : ServerWorld) (e : exn) :
  get_user_input context = Ok query -> Py.strip query <> [] ->
  task_of context = Ok task ->
  is_ServerError e = true \/ is_Exception e = false ->
  let description := QuestionGeneratorAgent.task_description query in
  let prompt :=
    LatexConverterAgent.prompt_of (LatexConverterAgent.parsed_lines query) in
  (crew_kickoff (crewai_before context task w) description = Raise e ->
     CrewAIQuestionGeneratorExecutor.execute context w
     = (Raise e, crewai_before context task w ++ [BackendInvoked description]))
  /\ (model_generate_content (langgraph_before context task w) prompt
        = Raise e ->
        LangGraphLatexExecutor.execute context w
        = (Raise e,
           langgraph_before context task w ++ [BackendInvoked prompt])).
Proof.
  intros Hin Hs Htask He description prompt.
  assert (Hsurf : surfaced e = e).
  { unfold surfaced. destruct He as [-> | He]; [reflexivity|].
    rewrite He. now destruct (is_ServerError e). }
  split; intros Hq.
  - rewrite (crewai_execute_eq context query task w Hin Hs Htask). cbv zeta.
    fold description. now rewrite Hq, Hsurf.
  - rewrite (langgraph_execute_eq context query task w Hin Hs Htask).
    cbv zeta. fold prompt. now rewrite Hq, Hsurf.
Qed.

Lemma started_observed (context : RequestContext) (task : Task) :
  task_of context = Ok task ->
  backend_calls (crewai_started context task) = []
  /\ backend_calls (langgraph_started context task) = []
  /\ existsb is_artifact (event_queue (crewai_started context task)) = false
  /\ existsb is_artifact (event_queue (langgraph_started context task)) = false
  /\ (completed ∉ published_states (event_queue (crewai_started context task)))
  /\ (completed ∉ published_states (event_queue (langgraph_started context task))).
Proof.
  intros Htask.
  destruct (started_states context task Htask) as [Hc Hl].
  rewrite Hc, Hl.
  unfold crewai_started, langgraph_started, creation_steps.
  destruct (ctx_current_task context); simpl;
    repeat split; try reflexivity;
    rewrite ?elem_of_cons, elem_of_nil; intuition discriminate.
Qed.

Lemma observed_app (a b : ServerWorld) :
  event_queue (a ++ b) = event_queue a ++ event_queue b
  /\ backend_calls (a ++ b) = backend_calls a ++ backend_calls b.
Proof. unfold event_queue, backend_calls. now rewrite !omap_app. Qed.

(** X8.  On a valid request whose task is resolved, whatever the backend
    answers, [execute] of either stage invokes the backend exactly once,
    and it returns normally exactly when it published [completed], and
    exactly when it published an artifact: no [completed] without a
    result, no result without [completed]. *)
Theorem execute_completes_iff_returns (context : RequestContext) (query : str)
    (task : Task) (w : ServerWorld) :
  get_user_input context = Ok query -> Py.strip query <> [] ->
  task_of context = Ok task ->
  completes_iff_returns (CrewAIQuestionGeneratorExecutor.execute context w) w
  /\ completes_iff_returns (LangGraphLatexExecutor.execute context w) w.
Proof.
  intros Hin Hs Htask.
  destruct (started_observed context task Htask)
    as (Hbc & Hbl & Hac & Hal & Hcc & Hcl).
  split; unfold completes_iff_returns.
  - rewrite (crewai_execute_eq context query task w Hin Hs Htask). cbv zeta.
    unfold crewai_before.
    destruct (crew_kickoff _ _) as [questions|e]; eexists;
      (split; [cbn [snd]; rewrite <- app_assoc; reflexivity|]);
      rewrite !(proj1 (observed_app _ _)), !(proj2 (observed_app _ _)), Hbc;
      rewrite existsb_app, Hac; cbn [fst];
      (split; [reflexivity|]); split.
    + split; [intros _|reflexivity].
      unfold published_states. rewrite omap_app, elem_of_app. right.
      simpl. constructor.
    + split; reflexivity.
    + split; [discriminate|].
      unfold published_states. rewrite omap_app, elem_of_app.
      intros [Hin'|Hin']; [now apply Hcc in Hin'|].
      simpl in Hin'. now apply elem_of_nil in Hin'.
    + split; discriminate.
  - rewrite (langgraph_execute_eq context query task w Hin Hs Htask). cbv zeta.
    unfold langgraph_before.
    destruct (model_generate_content _ _) as [raw|e];
      [destruct (LatexConverterAgent.strip_code_fences raw) as [latex|e]|];
      eexists;
      (split; [cbn [snd]; rewrite <- app_assoc; reflexivity|]);
      rewrite !(proj1 (observed_app _ _)), !(proj2 (observed_app _ _)), Hbl;
      rewrite existsb_app, Hal; cbn [fst];
      (split; [reflexivity|]); split.
    + split; [intros _|reflexivity].
      unfold published_states. rewrite omap_app, elem_of_app. right.
      simpl. constructor.
    + split; reflexivity.
    + split; [discriminate|].
      unfold published_states. rewrite omap_app, elem_of_app.
      intros [Hin'|Hin']; [now apply Hcl in Hin'|].
      simpl in Hin'. now apply elem_of_nil in Hin'.
    + split; discriminate.
    + split; [discriminate|].
      unfold published_states. rewrite omap_app, elem_of_app.
      intros [Hin'|Hin']; [now apply Hcl in Hin'|].
      simpl in Hin'. now apply elem_of_nil in Hin'.
    + split; discriminate.
Qed.

(** X22.  On a valid request without a current task for which [new_task]
    raises (a message whose first part has no text, say), [execute] of
    either stage stops there: nothing is published and no backend is
    invoked.  An [Exception] leaves [execute] as
    [ServerError(InternalError)] with the error of [new_task] as its
    cause. *)
Theorem execute_reports_failed_task_creation (context : RequestContext)
    (query : str) (w : ServerWorld) (e : exn) :
  get_user_input context = Ok query -> Py.strip query <> [] ->
  ctx_current_task context = None ->
  new_task (ctx_message context) = Raise e ->
  CrewAIQuestionGeneratorExecutor.execute context w = (Raise (surfaced e), w)
  /\ LangGraphLatexExecutor.execute context w = (Raise (surfaced e), w)
  /\ (is_Exception e = true -> is_ServerError e = false ->
      surfaced e = ServerError InternalError (Some e)).
Proof.
  intros Hin Hs Hcur Hnew.
  assert (Htask : task_of context = Raise e).
  { unfold task_of. now rewrite Hcur. }
  destruct (execute_without_task context query w e Hin Hs Htask) as [Hc Hl].
  split; [exact Hc|]. split; [exact Hl|].
  intros He Hse. unfold surfaced. now rewrite Hse, He.
Qed.

End ExecutorExtras.

(** ** More on the client *)

Section ClientExtras.
Import A2ARemoteAgentTool ClientAgent Reading.
Context `{ClientEnv}.

(** X9.  An error that is no [Exception] (an interrupt, a cancellation)
    raised by the card request or by the submission leaves [run] as it
    is: none of the three [except] clauses wraps it. *)
Theorem run_passes_base_exceptions (self : t) (input_text : str)
    (timeout : Py.float) (task_id context_id : option str) (w : ClientWorld)
    (e : exn) :
  (resolver_get_agent_card (net_calls w) (base_url self) = Raise e
   \/ exists card,
        resolver_get_agent_card (net_calls w) (base_url self) = Ok card
        /\ client_send_message (net_calls (after_card self w)) card
             (request_sent w input_text task_id context_id) = Raise e) ->
  is_Exception e = false ->
  fst (run self input_text timeout task_id context_id w) = Raise e.
Proof.
  intros Hfail He. rewrite run_eq.
  assert (Hh : forall w', run_handler timeout e w' = (Raise e, w')).
  { intros w'. unfold run_handler. destruct e; try discriminate He.
    reflexivity. }
  destruct Hfail as [-> | (card & -> & Hsend)]; [now rewrite Hh|].
  cbv zeta. now rewrite Hsend, Hh.
Qed.

(** X10.  When the agent card cannot be resolved, [run] stops there: the
    card was requested once, no message was built or sent, and no UUID
    was drawn. *)
Theorem run_stops_at_failed_discovery (self : t) (input_text : str)
    (timeout : Py.float) (task_id context_id : option str) (w : ClientWorld)
    (e : exn) :
  resolver_get_agent_card (net_calls w) (base_url self) = Raise e ->
  let w' := snd (run self input_text timeout task_id context_id w) in
  net_calls w' = net_calls w ++ [GetAgentCard (base_url self)]
  /\ uuids_drawn w' = uuids_drawn w
  /\ (exists e', fst (run self input_text timeout task_id context_id w)
                 = Raise e').
Proof.
  intros Hcard w'. subst w'. rewrite run_eq, Hcard.
  destruct (run_handler_raises timeout e (after_card self w)) as [e' ->].
  repeat split. now exists e'.
Qed.

(** X11.  When [run_workflow] returns a document, both stages returned:
    stage 1 returned non-empty questions, stage 2 was run on exactly
    these and returned the document, and the document is not empty. *)
Theorem run_workflow_success_inversion
    (topic api_key crewai_url langgraph_url : str) (verbose : bool)
    (w w' : ClientWorld) (document : str) :
  run_workflow topic api_key crewai_url langgraph_url verbose w
    = (Ok document, w') ->
  let stage1 :=
    init crewai_url (lit "generate_questions")
         (Some (lit "Generates educational questions about a given topic")) in
  let stage2 :=
    init langgraph_url (lit "convert_to_latex")
         (Some (lit "Converts text questions to LaTeX formatted code")) in
  document <> []
  /\ exists questions w1,
       run stage1 topic default_timeout None None w = (Ok questions, w1)
       /\ questions <> []
       /\ run stage2 questions default_timeout None None w1
          = (Ok document, w').
Proof.
  intros Hrun stage1 stage2. revert Hrun.
  unfold run_workflow. fold stage1 stage2. unfold bind at 1.
  rewrite try_except_reraise.
  destruct (run stage1 topic default_timeout None None w)
    as [[questions|e] w1] eqn:H1; [|discriminate].
  unfold bind. rewrite try_except_reraise.
  destruct (run stage2 questions default_timeout None None w1)
    as [[latex|e] w2] eqn:H2; [|discriminate].
  unfold ret. intros [= <- <-].
  split; [exact (run_ok_not_empty _ _ _ _ _ _ _ _ H2)|].
  exists questions, w1. repeat split; try assumption.
  exact (run_ok_not_empty _ _ _ _ _ _ _ _ H1).
Qed.

End ClientExtras.

(** ** The shared utilities *)

Section UtilsFacts.
Import Cli Utils.

Lemma slice_to_length (text : str) (n : Z) :
  (0 <= n <= Z.of_nat (length text))%Z ->
  Z.of_nat (length (slice_to text n)) = n.
Proof.
  intros Hn. unfold slice_to.
  destruct (n <? 0)%Z eqn:Hneg; [lia|].
  rewrite length_take. lia.
Qed.

(** X12.  With a suffix that fits into [max_length], [truncate_text] never
    returns more than [max_length] characters: a text that fits is
    returned as it is, and a longer one is cut to exactly [max_length]
    characters, the first [max_length - len(suffix)] of the text followed
    by the suffix. *)
Theorem truncate_text_bounded (text : str) (max_length : Z) (suffix : str) :
  (Z.of_nat (length suffix) <= max_length)%Z ->
  let result := truncate_text text max_length suffix in
  (Z.of_nat (length result) <= max_length)%Z
  /\ ((Z.of_nat (length text) <= max_length)%Z -> result = text)
  /\ ((max_length < Z.of_nat (length text))%Z ->
      result
      = take (Z.to_nat (max_length - Z.of_nat (length suffix))) text ++ suffix
      /\ Z.of_nat (length result) = max_length).
Proof.
  intros Hsuffix result. subst result. unfold truncate_text.
  destruct (Z.of_nat (length text) <=? max_length)%Z eqn:Hfit.
  - repeat split; lia.
  - assert (Hlen :
      Z.of_nat (length (slice_to text (max_length - Z.of_nat (length suffix))
                          ++ suffix)) = max_length).
    { rewrite length_app, Nat2Z.inj_add, slice_to_length; lia. }
    repeat split; try lia.
    unfold slice_to.
    now destruct (max_length - Z.of_nat (length suffix) <? 0)%Z eqn:Hneg;
      [lia|].
Qed.

(** X13.  With a suffix that fits into [max_length], truncating twice is
    truncating once. *)
Theorem truncate_text_idempotent (text : str) (max_length : Z) (suffix : str) :
  (Z.of_nat (length suffix) <= max_length)%Z ->
  truncate_text (truncate_text text max_length suffix) max_length suffix
  = truncate_text text max_length suffix.
Proof.
  intros Hsuffix.
  assert (Hlen : (Z.of_nat (length (truncate_text text max_length suffix))
                  <= max_length)%Z).
  { unfold truncate_text.
    destruct (Z.of_nat (length text) <=? max_length)%Z eqn:Hfit; [lia|].
    rewrite length_app, Nat2Z.inj_add, slice_to_length; lia. }
  unfold truncate_text at 1.
  destruct (_ <=? max_length)%Z eqn:Hfit; [reflexivity|lia].
Qed.

(** X14.  With a suffix longer than [max_length], the slice index is
    negative and counts from the end of the text: a text longer than
    [max_length] loses its last [len(suffix) - max_length] characters and
    gains the suffix, so the result is longer than [max_length]. *)
Theorem truncate_text_long_suffix (text : str) (max_length : Z) (suffix : str) :
  (max_length < Z.of_nat (length suffix))%Z ->
  (max_length < Z.of_nat (length text))%Z ->
  let result := truncate_text text max_length suffix in
  let cut := Z.to_nat (Z.of_nat (length suffix) - max_length) in
  result = take (length text - cut) text ++ suffix
  /\ (max_length < Z.of_nat (length result))%Z.
Proof.
  intros Hsuffix Htext result cut. subst result cut. unfold truncate_text.
  destruct (Z.of_nat (length text) <=? max_length)%Z eqn:Hfit; [lia|].
  unfold slice_to.
  destruct (max_length - Z.of_nat (length suffix) <? 0)%Z eqn:Hneg; [|lia].
  split.
  - f_equal. f_equal. lia.
  - rewrite length_app. lia.
Qed.

(** X15.  [validate_env_var] with [required=True] returns only a value that
    is set and not empty, printing nothing; when the variable is unset or
    empty it prints three lines and leaves through [sys.exit(1)].  With
    [required=False] it returns what the environment holds (nothing, or
    an empty string too) and never exits. *)
Theorem validate_env_var_required (environ : gmap str str) (var_name : str)
    (p : Process) :
  match fst (validate_env_var environ var_name true p) with
  | Returned (Some (c :: v)) =>
      environ !! var_name = Some (c :: v)
      /\ snd (validate_env_var environ var_name true p) = p
  | Exited code =>
      code = 1%Z
      /\ (environ !! var_name = None \/ environ !! var_name = Some [])
      /\ exists l1 l2 l3,
           stdout (snd (validate_env_var environ var_name true p))
           = stdout p ++ [l1; l2; l3]
  | _ => False
  end
  /\ validate_env_var environ var_name false p
     = (Returned (environ !! var_name), p).
Proof.
  unfold validate_env_var.
  destruct (environ !! var_name) as [[|c v]|]; simpl;
    repeat split; eauto; rewrite <- !app_assoc; simpl; eauto.
Qed.

End UtilsFacts.

Lemma truncate_text_bounded_witness :
  Utils.truncate_text (lit "Machine Learning") 10 Utils.default_suffix
  = lit "Machine..."
  /\ (Z.of_nat (length (Utils.truncate_text (lit "Machine Learning") 10
                          Utils.default_suffix)) <= 10)%Z.
Proof.
  destruct (truncate_text_bounded (lit "Machine Learning") 10
              Utils.default_suffix ltac:(vm_compute; discriminate))
    as (Hle & _ & Hcut).
  split; [|exact Hle].
  destruct (Hcut ltac:(vm_compute; reflexivity)) as [-> _]. reflexivity.
Defined.

(** ** The client program *)

Section MainFacts.
Import Cli ClientMain.
Context `{ClientEnv} `{FileSystem}.

(** What the program does once the key is there: the header is printed,
    then the body runs in the process the header left. *)
Lemma main_with_key (environ : gmap str str) (args : Args) (p : Process)
    (c : N) (key : str) :
  environ !! lit "GOOGLE_API_KEY" = Some (c :: key) ->
  exists header,
    length header = 7
    /\ main environ args p
       = match main_body (c :: key) args
                 (mkProcess (stdout p ++ header) (tracebacks p) (files p)
                            (net p)) with
         | (Raised e, p') => main_handler args e p'
         | other => other
         end.
Proof.
  intros Hkey. unfold main. rewrite Hkey.
  unfold cbind, print. cbn [stdout tracebacks files net].
  rewrite <- !app_assoc. cbn [app].
  eexists. split; [|reflexivity]. reflexivity.
Qed.

(** X16.  Without an API key (unset or empty) the client program leaves
    through [sys.exit(1)] right away: no network call is made, no file is
    written, whatever the arguments. *)
Theorem main_requires_api_key (environ : gmap str str) (args : Args)
    (p : Process) :
  environ !! lit "GOOGLE_API_KEY" = None
  \/ environ !! lit "GOOGLE_API_KEY" = Some [] ->
  fst (main environ args p) = Exited 1
  /\ net (snd (main environ args p)) = net p
  /\ files (snd (main environ args p)) = files p.
Proof.
  intros [Hkey|Hkey]; unfold main; unfold Py.str in *; rewrite Hkey;
    repeat split.
Qed.

Lemma main_handler_exit (args : Args) (e : exn) (p : Process) :
  fst (main_handler args e p) = Exits.client_exit e
  /\ files (snd (main_handler args e p)) = files p
  /\ net (snd (main_handler args e p)) = net p
  /\ tracebacks (snd (main_handler args e p))
     = tracebacks p ++ (if is_Exception e && verbose args then [e] else [])
  /\ (is_Exception e = true ->
      last (stdout (snd (main_handler args e p)))
      = Some ([Py.LF; Py.LF] ++ lit "[Client] ERROR: " ++ exn_str e))
  /\ (forall line, line ∈ stdout p ->
        line ∈ stdout (snd (main_handler args e p))).
Proof.
  unfold main_handler, Exits.client_exit, cbind, print, print_exc, sys_exit.
  destruct (is_KeyboardInterrupt e) eqn:Hk.
  - assert (is_Exception e = false) as ->
      by (destruct e; simpl in *; congruence).
    cbn. rewrite app_nil_r. repeat split; [discriminate|].
    intros line Hl. rewrite elem_of_app. now left.
  - destruct (is_Exception e);
      [|cbn; rewrite app_nil_r; repeat split; [discriminate|auto]].
    destruct (verbose args); cbn -[Py.lit exn_str];
      rewrite ?app_nil_r; repeat split;
      try (intros _; apply last_snoc);
      intros line Hl; rewrite elem_of_app; now left.
Qed.

Lemma main_body_raise (api_key : str) (args : Args) (p : Process) (e : exn)
    (n : ClientWorld) :
  ClientAgent.run_workflow (topic args) api_key (crewai_url args)
    (langgraph_url args) (verbose args) (net p) = (Raise e, n) ->
  main_body api_key args p
  = (Raised e, mkProcess (stdout p) (tracebacks p) (files p) n).
Proof.
  intros Hrun. unfold main_body, asyncio_run. unfold cbind at 1.
  now rewrite Hrun.
Qed.

(** X17.  With an API key, when the workflow raises, the client program
    leaves with exit code 130 for a [KeyboardInterrupt] and 1 for any
    [Exception], after printing the error ([str(e)]) as its last line; the
    traceback is printed only with [--verbose]; no file is written. *)
Theorem main_exit_codes (environ : gmap str str) (args : Args) (p : Process)
    (c : N) (key : str) (e : exn) (n : ClientWorld) :
  environ !! lit "GOOGLE_API_KEY" = Some (c :: key) ->
  ClientAgent.run_workflow (topic args) (c :: key) (crewai_url args)
    (langgraph_url args) (verbose args) (net p) = (Raise e, n) ->
  let outcome := main environ args p in
  fst outcome = Exits.client_exit e
  /\ files (snd outcome) = files p
  /\ net (snd outcome) = n
  /\ tracebacks (snd outcome)
     = tracebacks p ++ (if is_Exception e && verbose args then [e] else [])
  /\ (is_Exception e = true ->
      last (stdout (snd outcome))
      = Some ([Py.LF; Py.LF] ++ lit "[Client] ERROR: " ++ exn_str e)).
Proof.
  intros Hkey Hrun outcome. subst outcome.
  destruct (main_with_key environ args p c key Hkey) as (header & _ & ->).
  rewrite (main_body_raise (c :: key) args
             (mkProcess (stdout p ++ header) (tracebacks p) (files p) (net p))
             e n Hrun).
  destruct (main_handler_exit args e
              (mkProcess (stdout p ++ header) (tracebacks p) (files p) n))
    as (H1 & H2 & H3 & H4 & H5 & _).
  repeat split; assumption.
Qed.

(** What the body does after the workflow returned [document]. *)
Lemma main_body_ok (api_key : str) (args : Args) (p : Process)
    (document : str) (n : ClientWorld) :
  ClientAgent.run_workflow (topic args) api_key (crewai_url args)
    (langgraph_url args) (verbose args) (net p) = (Ok document, n) ->
  exists p1,
    document ∈ stdout p1 /\ tracebacks p1 = tracebacks p
    /\ files p1 = files p /\ net p1 = n
    /\ main_body api_key args p
       = (do! match save args with
              | Some path =>
                  if Py.truthy path then
                    do! write_file path document in
                    print ([CHECK] ++ lit " Saved to " ++ path ++ [Py.LF])
                  else creturn tt
              | None => creturn tt
              end in
          print ([CHECK]
                   ++ lit " Success! You can now compile the LaTeX code.")) p1.
Proof.
  intros Hrun. unfold main_body, asyncio_run. unfold cbind at 1.
  rewrite Hrun.
  unfold cbind at 1 2 3 4 5. unfold print at 1 2 3 4 5.
  cbn [stdout tracebacks files net].
  exists (mkProcess
            (stdout p ++ [[Py.LF] ++ times (lit "=") 80;
                          lit "WORKFLOW COMPLETE - FINAL LATEX CODE";
                          times (lit "=") 80;
                          document;
                          times (lit "=") 80 ++ [Py.LF]])
            (tracebacks p) (files p) n).
  split; [|repeat split].
  - cbn [stdout]. rewrite elem_of_app. right.
    do 3 apply list_elem_of_further. constructor.
  - rewrite <- !app_assoc. reflexivity.
Qed.

(** X18.  With an API key, when the workflow returns a document, the
    program prints it; without [--save] (or with an empty path) it returns
    and writes no file; with a path it returns after the file holds
    exactly the document.  If opening or writing the file fails, the
    program ends as for any error (exit code 1 for an [Exception]),
    although the workflow succeeded; when opening fails no file is
    touched, and a failed write touches no file but the one at the
    path. *)
Theorem main_saves_document (environ : gmap str str) (args : Args)
    (p : Process) (c : N) (key : str) (document : str) (n : ClientWorld) :
  environ !! lit "GOOGLE_API_KEY" = Some (c :: key) ->
  ClientAgent.run_workflow (topic args) (c :: key) (crewai_url args)
    (langgraph_url args) (verbose args) (net p) = (Ok document, n) ->
  let outcome := main environ args p in
  document ∈ stdout (snd outcome)
  /\ net (snd outcome) = n
  /\ match save args with
     | Some (d :: rest) =>
         let path := d :: rest in
         match fs_open_w (files p) path with
         | Raise e =>
             fst outcome = Exits.client_exit e
             /\ files (snd outcome) = files p
         | Ok _ =>
             match fs_write (<[path := []]> (files p)) path document with
             | Raise e =>
                 fst outcome = Exits.client_exit e
                 /\ exists left,
                      files (snd outcome) = <[path := left]> (files p)
             | Ok _ =>
                 fst outcome = Returned tt
                 /\ files (snd outcome) = <[path := document]> (files p)
             end
         end
     | _ =>
         fst outcome = Returned tt /\ files (snd outcome) = files p
     end.
Proof.
  intros Hkey Hrun outcome. subst outcome.
  destruct (main_with_key environ args p c key Hkey) as (header & _ & ->).
  pose proof (main_body_ok (c :: key) args
                (mkProcess (stdout p ++ header) (tracebacks p) (files p) (net p))
                document n Hrun) as Hbody.
  unfold Py.str in *. cbv zeta.
  destruct Hbody as (p1 & Hdoc & Htb & Hfiles & Hnet & ->).
  destruct p1 as [out tb fl nt]. cbn in Hdoc, Htb, Hfiles, Hnet. subst tb fl nt.
  set (start := mkProcess out (tracebacks p) (files p) n).
  assert (Hplain :
    (do! creturn tt in
     print ([CHECK] ++ lit " Success! You can now compile the LaTeX code."))
      start
    = (Returned tt,
       mkProcess
         (out ++ [[CHECK]
                    ++ lit " Success! You can now compile the LaTeX code."])
         (tracebacks p) (files p) n)) by reflexivity.
  destruct (save args) as [[|d rest]|].
  - cbn [Py.truthy]. rewrite Hplain.
    cbn [fst snd stdout files net]. rewrite elem_of_app. auto.
  - cbn [Py.truthy]. cbv zeta. unfold Py.str in *.
    destruct (fs_open_w (files p) (d :: rest)) as [[]|e] eqn:Hopen.
    + destruct (fs_write (<[d :: rest := []]> (files p)) (d :: rest) document)
        as [[]|e] eqn:Hwrite.
      * match goal with
        | |- context [match ?t with _ => _ end] =>
            assert (Hout : exists lines,
                      t = (Returned tt,
                           mkProcess (out ++ lines) (tracebacks p)
                             (<[d :: rest := document]>
                                (<[d :: rest := []]> (files p))) n))
        end.
        { eexists [_; _]. unfold cbind, write_file, print, start.
          cbn [stdout tracebacks files net]. unfold Py.str in *.
          rewrite Hopen, Hwrite.
          cbn [stdout tracebacks files net]. rewrite <- app_assoc.
          reflexivity. }
        destruct Hout as [lines ->].
        cbn [fst snd stdout files net].
        unfold Py.str in *. rewrite Hwrite.
        rewrite elem_of_app, insert_insert_eq. auto.
      * match goal with
        | |- context [match ?t with _ => _ end] =>
            assert (Hout : exists left,
                      t = (Raised e,
                           mkProcess out (tracebacks p)
                             (<[d :: rest := left]> (files p)) n))
        end.
        { eexists. unfold cbind, write_file, print, start.
          cbn [stdout tracebacks files net]. unfold Py.str in *.
          rewrite Hopen, Hwrite, insert_insert_eq. reflexivity. }
        destruct Hout as [left ->].
        destruct (main_handler_exit args e
                    (mkProcess out (tracebacks p)
                       (<[d :: rest := left]> (files p)) n))
          as (Hexit & Hf & Hn & _ & _ & Hkeep).
        unfold Py.str in *. rewrite Hwrite, Hexit, Hf, Hn.
        split; [now apply Hkeep|]. split; [reflexivity|].
        split; [reflexivity|]. now exists left.
    + match goal with
      | |- context [match ?t with _ => _ end] =>
          assert (Hout : t = (Raised e, start))
      end.
      { unfold cbind, write_file, print, start.
        cbn [stdout tracebacks files net]. unfold Py.str in *.
        now rewrite Hopen. }
      rewrite Hout.
      destruct (main_handler_exit args e start)
        as (Hexit & Hf & Hn & _ & _ & Hkeep).
      rewrite Hexit, Hf, Hn. repeat split. now apply Hkeep.
  - rewrite Hplain.
    cbn [fst snd stdout files net]. rewrite elem_of_app. auto.
Qed.

End MainFacts.

(** ** The launcher's clean-up *)

Section CleanupFacts.
Import RunAll.
Context `{Children}.

Lemma cleanup_process_shape (pid : nat) (h : Host) :
  (forall log p e,
      proc_terminate log p = Raise e \/ proc_wait log p = Raise e ->
      is_Exception e = true) ->
  (forall log p, proc_kill log p = Ok tt) ->
  exists segment,
    fst (cleanup_process pid h) = Ok tt
    /\ ops (snd (cleanup_process pid h)) = ops h ++ segment
    /\ segment ∈ cleanup_shapes pid.
Proof.
  intros Hexc Hkill.
  unfold cleanup_process, try_except, bind, terminate, wait, kill, print,
    modify, raise, cleanup_shapes.
  cbn [ops printed].
  destruct (proc_terminate (ops h) pid) as [[]|e] eqn:Ht.
  - destruct (proc_wait (ops h ++ [Terminate pid]) pid) as [[]|e] eqn:Hw.
    + exists [Terminate pid; Wait pid]. cbn [fst snd ops].
      rewrite <- app_assoc. repeat split.
      apply list_elem_of_further. constructor.
    + destruct (is_TimeoutExpired e).
      * rewrite Hkill. exists [Terminate pid; Wait pid; Kill pid].
        cbn [fst snd ops]. rewrite <- !app_assoc. repeat split.
        do 3 apply list_elem_of_further. constructor.
      * rewrite (Hexc _ _ e (or_intror Hw)).
        exists [Terminate pid; Wait pid]. cbn [fst snd ops].
        rewrite <- app_assoc. repeat split.
        apply list_elem_of_further. constructor.
  - destruct (is_TimeoutExpired e).
    + rewrite Hkill. exists [Terminate pid; Kill pid].
      cbn [fst snd ops]. rewrite <- !app_assoc. repeat split.
      do 2 apply list_elem_of_further. constructor.
    + rewrite (Hexc _ _ e (or_introl Ht)).
      exists [Terminate pid]. cbn [fst snd ops]. repeat split. constructor.
Qed.

Lemma for_each_handles_all (processes : list nat) (h : Host) :
  (forall log p e,
      proc_terminate log p = Raise e \/ proc_wait log p = Raise e ->
      is_Exception e = true) ->
  (forall log p, proc_kill log p = Ok tt) ->
  exists segments,
    fst (for_each processes h) = Ok tt
    /\ ops (snd (for_each processes h)) = ops h ++ concat segments
    /\ Forall2 (fun pid segment => segment ∈ cleanup_shapes pid)
               processes segments.
Proof.
  intros Hexc Hkill. revert h.
  induction processes as [|pid rest IH]; intros h.
  - exists []. simpl. rewrite app_nil_r. repeat split. constructor.
  - destruct (cleanup_process_shape pid h Hexc Hkill)
      as (segment & Hok & Hops & Hshape).
    cbn [for_each]. unfold bind.
    destruct (cleanup_process pid h) as [[[]|e] h1]; [|discriminate Hok].
    cbn [snd] in Hops.
    destruct (IH h1) as (segments & Hok' & Hops' & Hall).
    exists (segment :: segments). split; [exact Hok'|]. split.
    + rewrite Hops', Hops. cbn [concat]. now rewrite app_assoc.
    + now constructor.
Qed.

(** X19.  If [terminate()] and [wait()] raise nothing but [Exception]s and
    [kill()] does not raise, [cleanup_processes] returns normally and
    handles the processes one after the other, in list order: each is
    sent [terminate] exactly once, then possibly waited for, and [kill]
    comes only after that. *)
Theorem cleanup_processes_handles_all (processes : list nat) (h : Host) :
  (forall log p e,
      proc_terminate log p = Raise e \/ proc_wait log p = Raise e ->
      is_Exception e = true) ->
  (forall log p, proc_kill log p = Ok tt) ->
  exists segments,
    fst (cleanup_processes processes h) = Ok tt
    /\ ops (snd (cleanup_processes processes h)) = ops h ++ concat segments
    /\ Forall2 (fun pid segment => segment ∈ cleanup_shapes pid)
               processes segments.
Proof.
  intros Hexc Hkill. unfold cleanup_processes.
  unfold bind at 1. unfold print, modify.
  exact (for_each_handles_all processes
           (mkHost
              (printed h
                 ++ [[Py.LF]
                       ++ lit "[Run All] Cleaning up background processes..."])
              (ops h)) Hexc Hkill).
Qed.

(** X20.  An error raised by [kill()] is raised inside an [except] clause
    and is not caught: [cleanup_processes] stops with it, and the
    processes that follow in the list are left untouched. *)
Theorem cleanup_processes_stops_at_failed_kill (pid : nat) (rest : list nat)
    (h : Host) (e e' : exn) :
  proc_terminate (ops h) pid = Ok tt ->
  proc_wait (ops h ++ [Terminate pid]) pid = Raise e ->
  is_TimeoutExpired e = true ->
  proc_kill (ops h ++ [Terminate pid; Wait pid]) pid = Raise e' ->
  fst (cleanup_processes (pid :: rest) h) = Raise e'
  /\ ops (snd (cleanup_processes (pid :: rest) h))
     = ops h ++ [Terminate pid; Wait pid; Kill pid].
Proof.
  intros Ht Hw He Hk.
  unfold cleanup_processes, for_each, cleanup_process, try_except, bind,
    terminate, wait, kill, print, modify, raise.
  assert (Hk' : proc_kill ((ops h ++ [Terminate pid]) ++ [Wait pid]) pid
                = Raise e') by (now rewrite <- app_assoc).
  cbn [ops printed]. rewrite Ht, Hw, He. cbn [ops printed].
  rewrite Hk'. cbn [fst snd ops]. now rewrite <- !app_assoc.
Qed.

End CleanupFacts.

(** ** The further properties on concrete runs *)

Section FurtherRuns.
Import Reading Scenario Staging.

Lemma parsed_lines_round_trip_witness :
  Py.split [Py.LF] (Py.join [Py.LF] five_questions) = five_questions
  /\ LatexConverterAgent.parsed_lines five_lines = five_questions.
Proof.
  destruct (parsed_lines_round_trip five_lines) as [Hsplit Hagain].
  change (LatexConverterAgent.parsed_lines five_lines) with five_questions
    in Hsplit.
  split; [apply Hsplit; discriminate|reflexivity].
Defined.

Lemma execute_rejects_unreadable_input_witness :
  @CrewAIQuestionGeneratorExecutor.execute unreadable (request topic) []
    = (Raise (ServerError InvalidParamsError None), [])
  /\ @LangGraphLatexExecutor.execute unreadable (request topic) []
     = (Raise (ServerError InvalidParamsError None), []).
Proof.
  exact (@execute_rejects_unreadable_input unreadable (request topic)
           (OtherException "AttributeError" (lit "parts")) [] eq_refl).
Defined.

Lemma execute_passes_server_errors_witness :
  fst (@CrewAIQuestionGeneratorExecutor.execute refusing (request topic) [])
  = Raise protocol_error.
Proof.
  destruct (@execute_passes_server_errors refusing (request topic) topic
              (first_task topic) [] protocol_error eq_refl topic_not_blank
              eq_refl (or_introl eq_refl))
    as [Hcrew _].
  now rewrite (Hcrew eq_refl).
Defined.

Lemma execute_completes_iff_returns_witness :
  Observing.completes_iff_returns
    (@CrewAIQuestionGeneratorExecutor.execute broken (request topic) []) []
  /\ Observing.completes_iff_returns
       (@LangGraphLatexExecutor.execute healthy (request topic) []) [].
Proof.
  split.
  - exact (proj1 (@execute_completes_iff_returns broken (request topic) topic
                    (first_task topic) [] eq_refl topic_not_blank eq_refl)).
  - exact (proj2 (@execute_completes_iff_returns healthy (request topic) topic
                    (first_task topic) [] eq_refl topic_not_blank eq_refl)).
Defined.

Lemma execute_reports_failed_task_creation_witness :
  @CrewAIQuestionGeneratorExecutor.execute healthy
    (request_after_empty_part topic) []
  = (Raise (ServerError InternalError
              (Some (ValueError (lit "TextPart content cannot be empty")))),
     [])
  /\ @LangGraphLatexExecutor.execute healthy
       (request_after_empty_part topic) []
     = (Raise (ServerError InternalError
                 (Some (ValueError (lit "TextPart content cannot be empty")))),
        []).
Proof.
  destruct (@execute_reports_failed_task_creation healthy
              (request_after_empty_part topic) ([Py.LF] ++ topic) []
              (ValueError (lit "TextPart content cannot be empty"))
              eq_refl ltac:(vm_compute; discriminate) eq_refl eq_refl)
    as (Hc & Hl & _).
  split; assumption.
Defined.

Lemma run_passes_base_exceptions_witness :
  fst (@A2ARemoteAgentTool.run cancelling tool topic
         A2ARemoteAgentTool.default_timeout None None w0)
  = Raise cancelled.
Proof.
  refine (@run_passes_base_exceptions cancelling tool topic
            A2ARemoteAgentTool.default_timeout None None w0
            cancelled _ eq_refl).
  right. exists card. split; reflexivity.
Defined.

Lemma run_stops_at_failed_discovery_witness :
  net_calls (snd (@A2ARemoteAgentTool.run unreachable tool topic
                    A2ARemoteAgentTool.default_timeout None None w0))
  = [GetAgentCard crewai_url]
  /\ uuids_drawn (snd (@A2ARemoteAgentTool.run unreachable tool topic
                         A2ARemoteAgentTool.default_timeout None None w0))
     = 0.
Proof.
  destruct (@run_stops_at_failed_discovery unreachable tool topic
              A2ARemoteAgentTool.default_timeout None None w0
              connection_failed eq_refl) as (Hcalls & Hdrawn & _).
  split; assumption.
Defined.

Lemma run_workflow_success_inversion_witness :
  latex_reply <> []
  /\ exists questions w1,
       @A2ARemoteAgentTool.run pipeline
         (A2ARemoteAgentTool.init crewai_url (lit "generate_questions")
            (Some (lit "Generates educational questions about a given topic")))
         topic A2ARemoteAgentTool.default_timeout None None w0
       = (Ok questions, w1)
       /\ questions <> [].
Proof.
  destruct (@run_workflow_success_inversion pipeline topic [] crewai_url
              langgraph_url false w0
              (snd (@ClientAgent.run_workflow pipeline topic [] crewai_url
                      langgraph_url false w0))
              latex_reply ltac:(vm_compute; reflexivity))
    as (Hdoc & questions & w1 & Hstage1 & Hq & _).
  split; [exact Hdoc|]. now exists questions, w1.
Defined.

Lemma truncate_text_idempotent_witness :
  Utils.truncate_text (lit "Machine...") 10 Utils.default_suffix
  = lit "Machine...".
Proof.
  pose proof (truncate_text_idempotent (lit "Machine Learning") 10
                Utils.default_suffix ltac:(vm_compute; discriminate)) as Hi.
  exact Hi.
Defined.

Lemma truncate_text_long_suffix_witness :
  Utils.truncate_text (lit "Machine Learning") 2 Utils.default_suffix
  = lit "Machine Learnin...".
Proof.
  destruct (truncate_text_long_suffix (lit "Machine Learning") 2
              Utils.default_suffix ltac:(vm_compute; reflexivity)
              ltac:(vm_compute; reflexivity)) as [-> _].
  reflexivity.
Defined.

Lemma main_requires_api_key_witness :
  fst (@ClientMain.main pipeline disk ∅ (args (Some out_tex)) fresh)
  = Cli.Exited 1.
Proof.
  exact (proj1 (@main_requires_api_key pipeline disk ∅ (args (Some out_tex))
                  fresh (or_introl eq_refl))).
Defined.

Lemma main_exit_codes_witness :
  fst (@ClientMain.main interrupted disk with_key (args None) fresh)
    = Cli.Exited 130
  /\ fst (@ClientMain.main unreachable disk with_key (args None) fresh)
     = Cli.Exited 1.
Proof.
  split.
  - refine (proj1 (@main_exit_codes interrupted disk with_key (args None)
                     fresh 115%N (lit "ecret") interrupt
                     (snd (@ClientAgent.run_workflow interrupted topic
                             (lit "secret") crewai_url langgraph_url false w0))
                     _ _)); vm_compute; reflexivity.
  - refine (proj1 (@main_exit_codes unreachable disk with_key (args None)
                     fresh 115%N (lit "ecret")
                     (Reading.communication_error connection_failed)
                     (snd (@ClientAgent.run_workflow unreachable topic
                             (lit "secret") crewai_url langgraph_url false w0))
                     _ _)); vm_compute; reflexivity.
Defined.

Lemma main_saves_document_witness :
  Cli.files (snd (@ClientMain.main pipeline disk with_key
                    (args (Some out_tex)) fresh))
    = {[ out_tex := latex_reply ]}
  /\ fst (@ClientMain.main pipeline read_only_disk with_key
            (args (Some out_tex)) fresh) = Cli.Exited 1
  /\ fst (@ClientMain.main pipeline full_disk with_key
            (args (Some out_tex)) fresh) = Cli.Exited 1.
Proof.
  split; [|split].
  - destruct (@main_saves_document pipeline disk with_key
                (args (Some out_tex)) fresh 115%N (lit "ecret") latex_reply
                (snd (@ClientAgent.run_workflow pipeline topic (lit "secret")
                        crewai_url langgraph_url false w0))
                ltac:(vm_compute; reflexivity) ltac:(vm_compute; reflexivity))
      as (_ & _ & Hsave).
    exact (proj2 Hsave).
  - destruct (@main_saves_document pipeline read_only_disk with_key
                (args (Some out_tex)) fresh 115%N (lit "ecret") latex_reply
                (snd (@ClientAgent.run_workflow pipeline topic (lit "secret")
                        crewai_url langgraph_url false w0))
                ltac:(vm_compute; reflexivity) ltac:(vm_compute; reflexivity))
      as (_ & _ & Hsave).
    exact (proj1 Hsave).
  - destruct (@main_saves_document pipeline full_disk with_key
                (args (Some out_tex)) fresh 115%N (lit "ecret") latex_reply
                (snd (@ClientAgent.run_workflow pipeline topic (lit "secret")
                        crewai_url langgraph_url false w0))
                ltac:(vm_compute; reflexivity) ltac:(vm_compute; reflexivity))
      as (_ & _ & Hsave).
    exact (proj1 Hsave).
Defined.

Lemma cleanup_processes_handles_all_witness :
  RunAll.ops (snd (@RunAll.cleanup_processes stubborn [41; 42] idle))
  = [RunAll.Terminate 41; RunAll.Wait 41; RunAll.Kill 41;
     RunAll.Terminate 42; RunAll.Wait 42; RunAll.Kill 42]
  /\ exists segments,
       fst (@RunAll.cleanup_processes stubborn [41; 42] idle) = Ok tt
       /\ Forall2 (fun pid segment => segment ∈ RunAll.cleanup_shapes pid)
                  [41; 42] segments.
Proof.
  split; [reflexivity|].
  destruct (@cleanup_processes_handles_all stubborn [41; 42] idle)
    as (segments & Hok & _ & Hall).
  - intros log p e [Ht|Hw]; [discriminate Ht|].
    injection Hw as <-. reflexivity.
  - reflexivity.
  - now exists segments.
Defined.

Lemma cleanup_processes_stops_at_failed_kill_witness :
  fst (@RunAll.cleanup_processes unkillable [41; 42] idle)
    = Raise permission_denied
  /\ RunAll.ops (snd (@RunAll.cleanup_processes unkillable [41; 42] idle))
     = [RunAll.Terminate 41; RunAll.Wait 41; RunAll.Kill 41].
Proof.
  exact (@cleanup_processes_stops_at_failed_kill unkillable 41 [42] idle
           timeout_expired permission_denied eq_refl eq_refl eq_refl eq_refl).
Defined.

End FurtherRuns.

(** ** The server programs *)

Section ServerMainFacts.
Import Cli ServerMain.
Context `{Hosting}.

Lemma serve_once (launch : Launch) (launches : list Launch) :
  snd (serve launch launches) = launches ++ [launch]
  /\ (fst (serve launch launches) = Returned tt
      <-> uvicorn_run launch = Ok tt).
Proof.
  unfold serve, startup_handler.
  destruct (uvicorn_run launch) as [[]|e]; split; try reflexivity.
  - split; reflexivity.
  - cbn [fst]. split; [|discriminate].
    destruct (is_Exception e); discriminate.
Qed.

(** X21.  Either server program serves at most once, and only with a
    non-empty API key: without one it leaves through [sys.exit(1)] before
    anything is set up.  Whenever it serves, it listens on the host and
    port it was given, and the [url] of the card it publishes names
    exactly that host and port.  It returns normally only after
    [uvicorn.run] returned; if setting up the model of stage 2 raises an
    [Exception], stage 2 exits with code 1 without serving. *)
Theorem server_main_serves_with_key (environ : gmap str str) (host : str)
    (port : Z) (debug : bool) (launches : list Launch) :
  let consistent (main : Outcome unit * list Launch) :=
    exists new,
      snd main = launches ++ new
      /\ length new <= 1
      /\ Forall (fun l =>
                   launch_host l = host /\ launch_port l = port
                   /\ pc_url (launch_card l)
                      = lit "http://" ++ launch_host l ++ lit ":"
                          ++ str_of_int (launch_port l) ++ lit "/") new
      /\ (fst main = Returned tt ->
          exists l, new = [l] /\ uvicorn_run l = Ok tt)
      /\ (environ !! lit "GOOGLE_API_KEY" = None
          \/ environ !! lit "GOOGLE_API_KEY" = Some [] ->
          new = [] /\ fst main = Exited 1) in
  consistent (crewai_main environ host port debug launches)
  /\ consistent (langgraph_main environ host port debug launches)
  /\ (forall e, (exists c key,
                   environ !! lit "GOOGLE_API_KEY" = Some (c :: key)
                   /\ latex_agent_setup (c :: key) = Raise e) ->
                is_Exception e = true ->
                langgraph_main environ host port debug launches
                = (Exited 1, launches)).
Proof.
  intros consistent. subst consistent. cbv beta.
  unfold crewai_main, langgraph_main. unfold Py.str in *.
  match goal with
  | |- context [@lookup ?K ?A ?M ?L ?k ?m] =>
      destruct (@lookup K A M L k m) as [[|c key]|] eqn:Hkey
  end.
  - split; [|split].
    + exists []. rewrite app_nil_r. cbn [fst snd length].
      split; [reflexivity|]. split; [lia|]. split; [constructor|].
      split; [discriminate|]. intros _. split; reflexivity.
    + exists []. rewrite app_nil_r. cbn [fst snd length].
      split; [reflexivity|]. split; [lia|]. split; [constructor|].
      split; [discriminate|]. intros _. split; reflexivity.
    + intros e (c & key & Hk & _). discriminate Hk.
  - split; [|split].
    + destruct (serve_once (mkLaunch (crewai_card host port) host port)
                  launches) as [Hsnd Hfst].
      exists [mkLaunch (crewai_card host port) host port].
      split; [exact Hsnd|]. split; [cbn; lia|]. split.
      * constructor; [|constructor]. cbn. repeat split.
      * split; [|intros [Hk|Hk]; discriminate Hk].
        intros Hret. eexists. split; [reflexivity|]. now apply Hfst.
    + destruct (latex_agent_setup (c :: key)) as [[]|e].
      * destruct (serve_once (mkLaunch (langgraph_card host port) host port)
                    launches) as [Hsnd Hfst].
        exists [mkLaunch (langgraph_card host port) host port].
        split; [exact Hsnd|]. split; [cbn; lia|]. split.
        -- constructor; [|constructor]. cbn. repeat split.
        -- split; [|intros [Hk|Hk]; discriminate Hk].
           intros Hret. eexists. split; [reflexivity|]. now apply Hfst.
      * exists []. rewrite app_nil_r. cbn [fst snd length].
        split; [reflexivity|]. split; [lia|]. split; [constructor|].
        split; [|intros [Hk|Hk]; discriminate Hk].
        unfold startup_handler. destruct (is_Exception e); discriminate.
    + intros e (c' & key' & [= <- <-] & Hsetup) He.
      rewrite Hsetup. unfold startup_handler. now rewrite He.
  - split; [|split].
    + exists []. rewrite app_nil_r. cbn [fst snd length].
      split; [reflexivity|]. split; [lia|]. split; [constructor|].
      split; [discriminate|]. intros _. split; reflexivity.
    + exists []. rewrite app_nil_r. cbn [fst snd length].
      split; [reflexivity|]. split; [lia|]. split; [constructor|].
      split; [discriminate|]. intros _. split; reflexivity.
    + intros e (c & key & Hk & _). discriminate Hk.
Qed.

End ServerMainFacts.

Lemma server_main_serves_with_key_witness :
  @ServerMain.langgraph_main Staging.no_model Staging.with_key
    Staging.localhost 8002 false []
  = (Cli.Exited 1, [])
  /\ exists card,
       snd (@ServerMain.crewai_main Staging.hosting Staging.with_key
              Staging.localhost 8001 false [])
       = [ServerMain.mkLaunch card Staging.localhost 8001]
       /\ ServerMain.pc_url card = lit "http://localhost:8001/".
Proof.
  split.
  - refine (proj2 (proj2 (@server_main_serves_with_key Staging.no_model
                            Staging.with_key Staging.localhost 8002 false []))
              Scenario.quota_error _ eq_refl).
    exists 115%N, (lit "ecret"). split; vm_compute; reflexivity.
  - eexists. split; reflexivity.
Defined.
